(** * iracingdataapi: [irDataClient]

    A shallow embedding of [src/iracingdataapi/client.py]: the helper
    methods beneath the endpoint catalogue ([_encode_password],
    [_calculate_backoff], [_login], [_robust_get], [_get_resource_or_link],
    [_get_resource], [_get_chunks], [_add_assets], [_parse_csv_response])
    and endpoint methods built on them.

    Conventions of the embedding.
    - The username and the password of the credential encoder are lists of
      code points (U+0000..U+10FFFF, surrogates included).  The UTF-8
      encoder is given for all of them; [str.lower] is a parameter there,
      whose values on the range U+0000..U+00FF are those of Python.
    - Elsewhere (URLs, header names, CSV texts) a Python [str] is a Rocq
      [string] whose characters are the code points U+0000..U+00FF; on that
      range [str.lower] is given exactly.
    - [bytes] are lists of [Z] in 0..255; the 32-bit words of SHA-256 are
      [Z] with the wrap-around written out.
    - Methods that touch the session, the clock, the random generator or
      the instance run in the monad [M]: a failure keeps the state reached
      when the exception was raised, as in Python.
    - The world gives the answers of the server, the clock, the offset of
      local time from UTC, the timestamps that [datetime.fromtimestamp]
      refuses on the platform, and the draws of [random.uniform].
    - Durations are rationals: [datetime] arithmetic is exact in
      microseconds and the rounding of floats is left out; their range is
      not: [2 ** 1024] is no float.
    - Calls of [logger] and [r.close()] do not influence any result and are
      left out; [print] is kept (it is the warning of the CSV decoder). *)

From Stdlib Require Import ZArith NArith List String Ascii Bool Lia.
From Stdlib Require Import QArith Qminmax.
Import ListNotations.
Local Open Scope string_scope.
Local Open Scope list_scope.
Local Open Scope Z_scope.

(* ===================================================================== *)
(** ** Python strings *)
(* ===================================================================== *)

Module PyStr.

(** Code point of a character. *)
Definition ord (c : ascii) : Z := Z.of_N (N_of_ascii c).
Definition chr (z : Z) : ascii := ascii_of_N (Z.to_N z).

(** [str.lower] on one code point below U+0100: the letters A-Z and the
    Latin-1 capitals U+00C0..U+00DE (without the multiplication sign
    U+00D7) move up by 32; every other code point is its own lowercase. *)
Definition lower_char (c : ascii) : ascii :=
  let n := ord c in
  if ((65 <=? n) && (n <=? 90))
     || ((192 <=? n) && (n <=? 214))
     || ((216 <=? n) && (n <=? 222))
  then chr (n + 32) else c.

Fixpoint lower (s : string) : string :=
  match s with
  | EmptyString => EmptyString
  | String c s' => String (lower_char c) (lower s')
  end.

(** [bytes.decode("utf-8")] on ASCII bytes, which is all that the
    base64 alphabet produces. *)
Fixpoint decode_ascii (bs : list Z) : string :=
  match bs with
  | [] => EmptyString
  | b :: bs' => String (chr b) (decode_ascii bs')
  end.

Fixpoint chars (s : string) : list ascii :=
  match s with
  | EmptyString => []
  | String c s' => c :: chars s'
  end.

End PyStr.

(* ===================================================================== *)
(** ** hashlib.sha256 (FIPS 180-4) *)
(* ===================================================================== *)

Module SHA256.

Definition mask32 : Z := 0xffffffff.
Definition add32 (x y : Z) : Z := Z.land (x + y) mask32.
Definition rotr (n x : Z) : Z :=
  Z.lor (Z.shiftr x n) (Z.land (Z.shiftl x (32 - n)) mask32).
Definition not32 (x : Z) : Z := Z.lxor x mask32.

Definition Ch (x y z : Z) : Z := Z.lxor (Z.land x y) (Z.land (not32 x) z).
Definition Maj (x y z : Z) : Z :=
  Z.lxor (Z.lxor (Z.land x y) (Z.land x z)) (Z.land y z).
Definition Sigma0 (x : Z) : Z := Z.lxor (Z.lxor (rotr 2 x) (rotr 13 x)) (rotr 22 x).
Definition Sigma1 (x : Z) : Z := Z.lxor (Z.lxor (rotr 6 x) (rotr 11 x)) (rotr 25 x).
Definition sigma0 (x : Z) : Z := Z.lxor (Z.lxor (rotr 7 x) (rotr 18 x)) (Z.shiftr x 3).
Definition sigma1 (x : Z) : Z := Z.lxor (Z.lxor (rotr 17 x) (rotr 19 x)) (Z.shiftr x 10).

(** The first 64 primes, by trial division. *)
Fixpoint primes_from (fuel : nat) (k : Z) (found : list Z) : list Z :=
  match fuel with
  | O => found
  | S fuel' =>
      if forallb (fun p => negb (k mod p =? 0)) found
      then primes_from fuel' (k + 1) (found ++ [k])
      else primes_from fuel' (k + 1) found
  end.

Definition primes : list Z := primes_from 310 2 [].

(** Integer cube root: the bits of the root are decided from bit [n-1]
    down to bit 0. *)
Fixpoint cbrt_bits (n : nat) (x r : Z) : Z :=
  match n with
  | O => r
  | S n' =>
      let c := Z.lor r (Z.shiftl 1 (Z.of_nat n')) in
      cbrt_bits n' x (if c * c * c <=? x then c else r)
  end.

(** The round constants: the first 32 bits of the fractional parts of the
    cube roots of the first 64 primes. *)
Definition K : list Z :=
  map (fun p => Z.land (cbrt_bits 40 (Z.shiftl p 96) 0) mask32) primes.

(** The eight working words; the digest has 8 * 32 = 256 bits. *)
Record regs := mkRegs { ra : Z; rb : Z; rc : Z; rd : Z;
                        re : Z; rf : Z; rg : Z; rh : Z }.

(** The initial hash value: the first 32 bits of the fractional parts of
    the square roots of the first 8 primes. *)
Definition frac_sqrt (p : Z) : Z := Z.land (Z.sqrt (Z.shiftl p 64)) mask32.

Definition H0 : regs :=
  mkRegs (frac_sqrt 2) (frac_sqrt 3) (frac_sqrt 5) (frac_sqrt 7)
         (frac_sqrt 11) (frac_sqrt 13) (frac_sqrt 17) (frac_sqrt 19).

(** Padding: the bit 1, zeros, and the bit length as a 64-bit big-endian
    number, up to a multiple of 64 bytes. *)
Fixpoint be_bytes (n : nat) (x : Z) : list Z :=
  match n with
  | O => []
  | S n' => be_bytes n' (Z.shiftr x 8) ++ [Z.land x 255]
  end.

Definition pad (msg : list Z) : list Z :=
  let len := Z.of_nat (List.length msg) in
  let zeros := Z.to_nat ((55 - len) mod 64) in
  msg ++ [128] ++ repeat 0 zeros ++ be_bytes 8 (8 * len).

Fixpoint words (n : nat) (bs : list Z) : list Z :=
  match n, bs with
  | S n', b0 :: b1 :: b2 :: b3 :: bs' =>
      (Z.lor (Z.shiftl b0 24) (Z.lor (Z.shiftl b1 16) (Z.lor (Z.shiftl b2 8) b3)))
        :: words n' bs'
  | _, _ => []
  end.

(** Message schedule: 16 words of the block, then 48 derived words. *)
Fixpoint schedule (n : nat) (w : list Z) : list Z :=
  match n with
  | O => w
  | S n' =>
      let t := List.length w in
      let at_ (k : nat) := nth (t - k) w 0 in
      schedule n' (w ++ [add32 (add32 (sigma1 (at_ 2%nat)) (at_ 7%nat))
                               (add32 (sigma0 (at_ 15%nat)) (at_ 16%nat))])
  end.

Definition round (r : regs) (kw : Z * Z) : regs :=
  let t1 := add32 (add32 (add32 (rh r) (Sigma1 (re r)))
                         (add32 (Ch (re r) (rf r) (rg r)) (fst kw))) (snd kw) in
  let t2 := add32 (Sigma0 (ra r)) (Maj (ra r) (rb r) (rc r)) in
  mkRegs (add32 t1 t2) (ra r) (rb r) (rc r) (add32 (rd r) t1) (re r) (rf r) (rg r).

Definition compress (h : regs) (block : list Z) : regs :=
  let w := schedule 48 (words 16 block) in
  let r := fold_left round (combine K w) h in
  mkRegs (add32 (ra h) (ra r)) (add32 (rb h) (rb r))
         (add32 (rc h) (rc r)) (add32 (rd h) (rd r))
         (add32 (re h) (re r)) (add32 (rf h) (rf r))
         (add32 (rg h) (rg r)) (add32 (rh h) (rh r)).

Fixpoint blocks (n : nat) (bs : list Z) (h : regs) : regs :=
  match n with
  | O => h
  | S n' => blocks n' (skipn 64 bs) (compress h (firstn 64 bs))
  end.

Definition digest_of (r : regs) : list Z :=
  be_bytes 4 (ra r) ++ be_bytes 4 (rb r) ++ be_bytes 4 (rc r) ++ be_bytes 4 (rd r)
  ++ be_bytes 4 (re r) ++ be_bytes 4 (rf r) ++ be_bytes 4 (rg r) ++ be_bytes 4 (rh r).

(** [hashlib.sha256(msg).digest()] *)
Definition digest (msg : list Z) : list Z :=
  let p := pad msg in
  digest_of (blocks (List.length p / 64) p H0).

End SHA256.

(* ===================================================================== *)
(** ** base64.b64encode *)
(* ===================================================================== *)

Module Base64.

Definition alphabet : string :=
  "ABCDEFGHIJKLMNOPQRSTUVWXYZabcdefghijklmnopqrstuvwxyz0123456789+/".

Definition sextet (i : Z) : Z :=
  match String.get (Z.to_nat i) alphabet with
  | Some c => PyStr.ord c
  | None => 61
  end.

(** Three bytes give four characters; a final group of one or two bytes
    is completed with the pad character [=] (61). *)
Fixpoint b64encode (bs : list Z) : list Z :=
  match bs with
  | [] => []
  | [b0] =>
      [ sextet (Z.shiftr b0 2); sextet (Z.shiftl (Z.land b0 3) 4); 61; 61 ]
  | [b0; b1] =>
      [ sextet (Z.shiftr b0 2);
        sextet (Z.lor (Z.shiftl (Z.land b0 3) 4) (Z.shiftr b1 4));
        sextet (Z.shiftl (Z.land b1 15) 2); 61 ]
  | b0 :: b1 :: b2 :: bs' =>
      sextet (Z.shiftr b0 2)
      :: sextet (Z.lor (Z.shiftl (Z.land b0 3) 4) (Z.shiftr b1 4))
      :: sextet (Z.lor (Z.shiftl (Z.land b1 15) 2) (Z.shiftr b2 6))
      :: sextet (Z.land b2 63)
      :: b64encode bs'
  end.

End Base64.

(* ===================================================================== *)
(** ** Python values, exceptions and the effect monad *)
(* ===================================================================== *)

(** Decoded JSON documents and the other Python objects the methods are
    handed.  A [dict] lists each key once, in insertion order. *)
#[local] Set Warnings "-register-all".
Inductive value : Type :=
| VNone
| VBool (b : bool)
| VInt (n : Z)
| VFloat (q : Q)
| VStr (s : string)
| VList (l : list value)
| VDict (d : list (string * value)).

(** The [RuntimeError]s of client.py, one constructor per f-string, with the
    values the f-string interpolates. *)
Inductive runtime_error : Type :=
| AuthFailure (response_data : value)                (* "Auth failure: {response_data}" *)
| LoginHTTP (status : Z)                             (* "Login HTTP {r.status_code}" *)
| LoginFailedAfterRetries                            (* "Login failed after retries" *)
| Repeated401 (context url : string)                 (* "{context}: 401 repeated after re-login for {url}" *)
| Forbidden403 (context url : string)                (* "{context}: 403 Forbidden for {url}" *)
| UnhandledNon200 (context : string) (status : Z) (url : string)
                                                     (* "{context}: Unhandled Non-200 response {r.status_code} for {url}" *)
| ExceededRetries (context url : string).            (* "{context}: Exceeded retry attempts for {url}" *)

Inductive exn : Type :=
| RuntimeError (e : runtime_error)
| TypeError
| AttributeError
| ValueError
| OverflowError
| OSError
| UnicodeEncodeError
| StopIteration
| CsvError                 (* _csv.Error *)
| JSONDecodeError          (* raised by r.json() *)
| Timeout                  (* requests.Timeout *)
| ConnectionError          (* requests.ConnectionError *)
| RequestException.        (* any other failure inside requests *)

Inductive result (A : Type) : Type :=
| Ok (a : A)
| Raise (e : exn).
Arguments Ok {A} a.
Arguments Raise {A} e.

(* ===================================================================== *)
(** ** Python strings as code points *)
(* ===================================================================== *)

Module PyUnicode.

(** A Python [str] is the list of its code points, each of them in
    U+0000..U+10FFFF; a [str] may hold surrogates (U+D800..U+DFFF). *)
Definition is_code_point (c : Z) : bool := (0 <=? c) && (c <=? 0x10FFFF).
Definition is_surrogate (c : Z) : bool := (0xD800 <=? c) && (c <=? 0xDFFF).

(** The code points of a string of the range U+0000..U+00FF. *)
Definition points (s : string) : list Z := map PyStr.ord (PyStr.chars s).

(** A continuation byte with the low six bits of [x]. *)
Definition continuation (x : Z) : Z := Z.lor 0x80 (Z.land x 0x3F).

(** [chr(c).encode("utf-8")]: one to four bytes; a surrogate has no
    encoding and raises. *)
Definition utf8_point (c : Z) : result (list Z) :=
  if c <? 0x80 then Ok [c]
  else if c <? 0x800 then Ok [Z.lor 0xC0 (Z.shiftr c 6); continuation c]
  else if is_surrogate c then Raise UnicodeEncodeError
  else if c <? 0x10000 then
    Ok [Z.lor 0xE0 (Z.shiftr c 12); continuation (Z.shiftr c 6); continuation c]
  else
    Ok [Z.lor 0xF0 (Z.shiftr c 18); continuation (Z.shiftr c 12);
        continuation (Z.shiftr c 6); continuation c].

(** [s.encode("utf-8")] *)
Fixpoint encode_utf8 (s : list Z) : result (list Z) :=
  match s with
  | [] => Ok []
  | c :: s' =>
      match utf8_point c with
      | Raise e => Raise e
      | Ok bs =>
          match encode_utf8 s' with
          | Raise e => Raise e
          | Ok bs' => Ok (bs ++ bs')
          end
      end
  end.

(** [str.lower] on one code point below U+0100: the letters A-Z and the
    capitals U+00C0..U+00DE (without the multiplication sign U+00D7) move up
    by 32; every other code point of that range is its own lowercase. *)
Definition lower_latin1_point (c : Z) : Z :=
  if ((65 <=? c) && (c <=? 90))
     || ((192 <=? c) && (c <=? 214))
     || ((216 <=? c) && (c <=? 222))
  then c + 32 else c.

(** [str.lower] on a string of the range U+0000..U+00FF, where it works
    code point by code point. *)
Definition lower_latin1 (s : list Z) : list Z := map lower_latin1_point s.

(** The other case of a letter that has both cases below U+0100; sharp s
    (U+00DF), [y] with diaeresis (U+00FF) and the micro sign (U+00B5) have
    their capitals elsewhere and are left alone, as is what is no letter. *)
Definition swap_case_latin1 (c : Z) : Z :=
  if ((65 <=? c) && (c <=? 90))
     || ((192 <=? c) && (c <=? 214))
     || ((216 <=? c) && (c <=? 222))
  then c + 32
  else if ((97 <=? c) && (c <=? 122))
          || ((224 <=? c) && (c <=? 246))
          || ((248 <=? c) && (c <=? 254))
  then c - 32 else c.

(** Two strings of the range U+0000..U+00FF that differ at most in the
    case of such letters. *)
Definition case_variant (u1 u2 : list Z) : Prop :=
  Forall2 (fun a b => 0 <= a < 256 /\ (b = a \/ b = swap_case_latin1 a)) u1 u2.

End PyUnicode.

(* ===================================================================== *)
(** ** Credential encoder *)
(* ===================================================================== *)

Section Credentials.

(** [str.lower].  Its case mapping is the table of the Unicode character
    database that the interpreter carries; client.py has none of it. *)
Variable str_lower : list Z -> list Z.

(** [irDataClient._encode_password] (client.py, lines 27-46).  The text of
    the result is ASCII, so that [.decode("utf-8")] reads it byte by byte. *)
Definition _encode_password (username password : list Z) : result string :=
  match PyUnicode.encode_utf8 (password ++ str_lower username) with
  | Raise e => Raise e
  | Ok message =>
      let initial_hash := SHA256.digest message in
      Ok (PyStr.decode_ascii (Base64.b64encode initial_hash))
  end.

End Credentials.

(* ===================================================================== *)
(** ** The encodings read backwards *)
(* ===================================================================== *)

(** Decoders for UTF-8 (RFC 3629) and base64 (RFC 4648), written from the
    two standards with plain arithmetic.  The code does not call them: they
    say what the bytes and the text that the encoders produce stand for. *)
Module Codec.

Definition is_continuation (b : Z) : bool := (0x80 <=? b) && (b <? 0xC0).

(** The code point at the head of a byte sequence, and the bytes after
    it; overlong forms, surrogates and code points beyond U+10FFFF are
    refused. *)
Definition decode_utf8_point (bs : list Z) : option (Z * list Z) :=
  match bs with
  | [] => None
  | b0 :: t0 =>
      if (0 <=? b0) && (b0 <? 0x80) then Some (b0, t0)
      else if (0xC0 <=? b0) && (b0 <? 0xE0) then
        match t0 with
        | b1 :: t1 =>
            let c := (b0 - 0xC0) * 64 + (b1 - 0x80) in
            if is_continuation b1 && (0x80 <=? c) then Some (c, t1) else None
        | _ => None
        end
      else if (0xE0 <=? b0) && (b0 <? 0xF0) then
        match t0 with
        | b1 :: b2 :: t2 =>
            let c := ((b0 - 0xE0) * 64 + (b1 - 0x80)) * 64 + (b2 - 0x80) in
            if is_continuation b1 && is_continuation b2
               && (0x800 <=? c) && negb (PyUnicode.is_surrogate c)
            then Some (c, t2) else None
        | _ => None
        end
      else if (0xF0 <=? b0) && (b0 <? 0xF8) then
        match t0 with
        | b1 :: b2 :: b3 :: t3 =>
            let c := (((b0 - 0xF0) * 64 + (b1 - 0x80)) * 64 + (b2 - 0x80)) * 64
                     + (b3 - 0x80) in
            if is_continuation b1 && is_continuation b2 && is_continuation b3
               && (0x10000 <=? c) && (c <=? 0x10FFFF)
            then Some (c, t3) else None
        | _ => None
        end
      else None
  end.

(** The code points of a byte sequence; [fuel] bounds the number of code
    points, of which there are at most as many as bytes. *)
Fixpoint decode_utf8_from (fuel : nat) (bs : list Z) : option (list Z) :=
  match bs, fuel with
  | [], _ => Some []
  | _, O => None
  | _, S fuel' =>
      match decode_utf8_point bs with
      | Some (c, rest) =>
          match decode_utf8_from fuel' rest with
          | Some s => Some (c :: s)
          | None => None
          end
      | None => None
      end
  end.

Definition decode_utf8 (bs : list Z) : option (list Z) :=
  decode_utf8_from (List.length bs) bs.

(** The place of a character in the base64 alphabet. *)
Fixpoint position (c : Z) (cs : list ascii) (i : Z) : option Z :=
  match cs with
  | [] => None
  | a :: cs' => if PyStr.ord a =? c then Some i else position c cs' (i + 1)
  end.

Definition index_of (c : Z) : option Z :=
  position c (PyStr.chars Base64.alphabet) 0.

(** Four characters give three bytes; the last group may end in one or
    two pad characters [=] (61) and then gives two bytes or one. *)
Fixpoint b64decode (cs : list Z) : option (list Z) :=
  match cs with
  | [] => Some []
  | c0 :: c1 :: c2 :: c3 :: cs' =>
      match index_of c0, index_of c1 with
      | Some i0, Some i1 =>
          let b0 := i0 * 4 + i1 / 16 in
          if c2 =? 61 then
            match cs' with
            | [] => if (c3 =? 61) && (i1 mod 16 =? 0) then Some [b0] else None
            | _ => None
            end
          else
            match index_of c2 with
            | Some i2 =>
                let b1 := (i1 mod 16) * 16 + i2 / 4 in
                if c3 =? 61 then
                  match cs' with
                  | [] => if i2 mod 4 =? 0 then Some [b0; b1] else None
                  | _ => None
                  end
                else
                  match index_of c3 with
                  | Some i3 =>
                      match b64decode cs' with
                      | Some bs => Some (b0 :: b1 :: (i2 mod 4) * 64 + i3 :: bs)
                      | None => None
                      end
                  | None => None
                  end
            | None => None
            end
      | _, _ => None
      end
  | _ => None
  end.

End Codec.

(** [f] holds for 0, 1, ..., [n - 1]. *)
Fixpoint all_below (n : nat) (f : Z -> bool) : bool :=
  match n with
  | O => true
  | S n' => f (Z.of_nat n') && all_below n' f
  end.

Definition is_byte (b : Z) : Prop := 0 <= b < 256.

(** A computation over a state [St]: it returns or raises, and in both cases
    leaves the state it reached. *)
Definition M (St A : Type) : Type := St -> result A * St.

Definition ret {St A} (a : A) : M St A := fun s => (Ok a, s).
Definition raise {St A} (e : exn) : M St A := fun s => (Raise e, s).
Definition bind {St A B} (m : M St A) (k : A -> M St B) : M St B :=
  fun s => match m s with
           | (Ok a, s') => k a s'
           | (Raise e, s') => (Raise e, s')
           end.
Definition lift_result {St A} (r : result A) : M St A := fun s => (r, s).

Declare Scope py_scope.
Delimit Scope py_scope with py.
Notation "x <- m ;; k" := (bind m (fun x => k))
  (at level 61, m at next level, right associativity) : py_scope.
Notation "m ;; k" := (bind m (fun _ => k))
  (at level 61, right associativity) : py_scope.
Local Open Scope py_scope.

(** [try: body except (requests.Timeout, requests.ConnectionError): handler] *)
Definition is_network_error (e : exn) : bool :=
  match e with
  | Timeout | ConnectionError => true
  | _ => false
  end.

Definition try_except {St A} (body : M St A) (handler : exn -> M St A) : M St A :=
  fun s => match body s with
           | (Raise e, s') => if is_network_error e then handler e s' else (Raise e, s')
           | (Ok a, s') => (Ok a, s')
           end.

(** Local variables of a method live next to the instance state while the
    method runs: [with_frame l0 m] runs [m] with the local initialised to
    [l0] and drops it at the end; [outer m] runs a computation that does
    not see the local. *)
Definition with_frame {St L A} (l0 : L) (m : M (L * St) A) : M St A :=
  fun s => let (r, ls) := m (l0, s) in (r, snd ls).
Definition outer {St L A} (m : M St A) : M (L * St) A :=
  fun ls => let (r, s') := m (snd ls) in (r, (fst ls, s')).
Definition get_local {St L} : M (L * St) L := fun ls => (Ok (fst ls), ls).
Definition set_local {St L} (l : L) : M (L * St) unit := fun ls => (Ok tt, (l, snd ls)).

(** [for attempt in range(n): body] followed by [orelse]; the body either
    falls through or hits [continue] ([Continue]), or leaves the method with
    [return] ([Return a]).  [range(n)] is empty for [n <= 0], hence the
    [Z.to_nat] where the methods call it. *)
Inductive ctrl (A : Type) : Type :=
| Continue
| Return (a : A).
Arguments Continue {A}.
Arguments Return {A} a.

Fixpoint for_range {St A} (n : nat) (attempt : nat)
         (body : nat -> M St (ctrl A)) (orelse : M St A) : M St A :=
  match n with
  | O => orelse
  | S n' =>
      c <- body attempt ;;
      match c with
      | Return a => ret a
      | Continue => for_range n' (S attempt) body orelse
      end
  end.

(** A list comprehension [[f(x) for x in xs]], evaluated left to right. *)
Fixpoint comprehension {St A B} (f : A -> M St B) (xs : list A) : M St (list B) :=
  match xs with
  | [] => ret []
  | x :: xs' => y <- f x ;; ys <- comprehension f xs' ;; ret (y :: ys)
  end.

(* ===================================================================== *)
(** ** Operations on Python values *)
(* ===================================================================== *)

Module Py.

(** Truth value of an object, as tested by [if x:]. *)
Definition truthy (v : value) : bool :=
  match v with
  | VNone => false
  | VBool b => b
  | VInt n => negb (n =? 0)
  | VFloat q => negb (Qeq_bool q 0)
  | VStr s => negb (String.eqb s "")
  | VList l => match l with [] => false | _ => true end
  | VDict d => match d with [] => false | _ => true end
  end.

(** Truth value of an [Optional[str]]. *)
Definition truthy_str (o : option string) : bool :=
  match o with
  | Some s => negb (String.eqb s "")
  | None => false
  end.

Definition is_list (v : value) : bool :=
  match v with VList _ => true | _ => false end.
Definition is_dict (v : value) : bool :=
  match v with VDict _ => true | _ => false end.

(** Lookup in the items of a dict. *)
Fixpoint assoc {A} (k : string) (d : list (string * A)) : option A :=
  match d with
  | [] => None
  | (k', v) :: d' => if String.eqb k k' then Some v else assoc k d'
  end.

Definition has_key {A} (k : string) (d : list (string * A)) : bool :=
  match assoc k d with Some _ => true | None => false end.

(** [d[k] = v]: an existing key keeps its place, a new key goes last. *)
Fixpoint setitem {A} (k : string) (v : A) (d : list (string * A)) : list (string * A) :=
  match d with
  | [] => [(k, v)]
  | (k', v') :: d' =>
      if String.eqb k k' then (k', v) :: d' else (k', v') :: setitem k v d'
  end.

(** [dict(pairs)] *)
Definition dict_of {A} (pairs : list (string * A)) : list (string * A) :=
  fold_left (fun d kv => setitem (fst kv) (snd kv) d) pairs [].

(** Substring test, [sub in s] on two strings. *)
Fixpoint is_substring (sub s : string) : bool :=
  String.prefix sub s
  || match s with
     | EmptyString => false
     | String _ s' => is_substring sub s'
     end.

(** [key in container] for a string [key]. *)
Definition contains (key : string) (container : value) : result bool :=
  match container with
  | VDict d => Ok (has_key key d)
  | VStr s => Ok (is_substring key s)
  | VList l =>
      Ok (existsb (fun v => match v with VStr s => String.eqb s key | _ => false end) l)
  | VNone | VBool _ | VInt _ | VFloat _ => Raise TypeError
  end.

(** [obj.get(key)]: only a dict has the method. *)
Definition get (obj : value) (key : string) : result value :=
  match obj with
  | VDict d => Ok (match assoc key d with Some v => v | None => VNone end)
  | _ => Raise AttributeError
  end.

(** The items that [for x in obj] goes through. *)
Definition iterate (obj : value) : result (list value) :=
  match obj with
  | VList l => Ok l
  | VDict d => Ok (map (fun kv => VStr (fst kv)) d)
  | VStr s => Ok (map (fun c => VStr (String c EmptyString)) (PyStr.chars s))
  | VNone | VBool _ | VInt _ | VFloat _ => Raise TypeError
  end.

(** [a + b] *)
Definition number (v : value) : option (bool * Q) :=
  match v with
  | VBool b => Some (false, if b then 1%Q else 0%Q)
  | VInt n => Some (false, inject_Z n)
  | VFloat q => Some (true, q)
  | _ => None
  end.

Definition add (a b : value) : result value :=
  match a, b with
  | VStr s, VStr t => Ok (VStr (s ++ t)%string)
  | VList l, VList m => Ok (VList (l ++ m))
  | _, _ =>
      match number a, number b with
      | Some (fa, qa), Some (fb, qb) =>
          if fa || fb then Ok (VFloat (qa + qb)%Q)
          else Ok (VInt (Qnum qa + Qnum qb))
      | _, _ => Raise TypeError
      end
  end.

(** [int(s)] on a string: surrounding white space, an optional sign, and
    decimal digits that single underscores may separate; more digits than
    [int_max_str_digits] are refused. *)
Definition is_space (c : ascii) : bool :=
  let n := PyStr.ord c in
  ((9 <=? n) && (n <=? 13)) || (n =? 32) || (n =? 133) || (n =? 160).

Definition digit_value (c : ascii) : option Z :=
  let n := PyStr.ord c in
  if (48 <=? n) && (n <=? 57) then Some (n - 48) else None.

Fixpoint lstrip (cs : list ascii) : list ascii :=
  match cs with
  | c :: cs' => if is_space c then lstrip cs' else cs
  | [] => []
  end.

Definition strip (cs : list ascii) : list ascii :=
  rev (lstrip (rev (lstrip cs))).

(** [digits acc after_digit cs]: [after_digit] tells that the previous
    character was a digit, so that an underscore may follow. *)
Fixpoint digits (acc : Z) (after_digit : bool) (cs : list ascii) : option Z :=
  match cs with
  | [] => if after_digit then Some acc else None
  | c :: cs' =>
      match digit_value c with
      | Some d => digits (10 * acc + d) true cs'
      | None =>
          if Ascii.eqb c "_"%char && after_digit
          then match cs' with
               | [] => None
               | _ => digits acc false cs'
               end
          else None
      end
  end.

(** The most decimal digits that [int] converts: the default of
    [sys.set_int_max_str_digits]. *)
Definition int_max_str_digits : Z := 4300.

Definition is_digit (c : ascii) : bool :=
  match digit_value c with Some _ => true | None => false end.

Definition int_of_str (s : string) : result Z :=
  let stripped := strip (PyStr.chars s) in
  let parsed :=
    match stripped with
    | c :: cs =>
        if Ascii.eqb c "-"%char then option_map Z.opp (digits 0 false cs)
        else if Ascii.eqb c "+"%char then digits 0 false cs
        else digits 0 false (c :: cs)
    | [] => None
    end in
  match parsed with
  | Some z =>
      if int_max_str_digits <? Z.of_nat (List.length (filter is_digit stripped))
      then Raise ValueError
      else Ok z
  | None => Raise ValueError
  end.

(** [max(a, b)] and [min(a, b)]: the first argument unless the second is
    strictly beyond it. *)
Definition max (a b : Q) : Q := if Qle_bool b a then a else b.
Definition min (a b : Q) : Q := if Qle_bool a b then a else b.

End Py.

(* ===================================================================== *)
(** ** The session, the clock and the random generator *)
(* ===================================================================== *)

(** What the methods read of a [requests.Response]. *)
Record response : Type := mkResponse {
  status_code : Z;
  headers : list (string * string);
  json : option value;          (* [r.json()]; [None]: the body is not JSON *)
  text : string                 (* [r.text] *)
}.

(** A request either gets a response or fails inside [requests]. *)
Inductive request_failure : Type :=
| TimedOut                 (* raises [requests.Timeout] *)
| ConnectionFailed         (* raises [requests.ConnectionError] *)
| OtherFailure.            (* raises another [requests.RequestException] *)

Definition exn_of_failure (f : request_failure) : exn :=
  match f with
  | TimedOut => Timeout
  | ConnectionFailed => ConnectionError
  | OtherFailure => RequestException
  end.

Inductive outcome : Type :=
| Responds (r : response)
| Fails (f : request_failure).

(** Everything a method does to the outside, newest event first. *)
Inductive event : Type :=
| EvGet (url : string) (params : option value) (o : outcome)
| EvPost (url : string) (body : value) (o : outcome)
| EvNow (microseconds : Z)
| EvUniform (u : Q)
| EvSleep (seconds : Q)
| EvPrint (line : string).

(** Why [datetime.fromtimestamp] refuses a timestamp: it does not fit the
    [time_t] of the platform, the platform's [localtime] fails on it, or the
    local year is none that [datetime] holds. *)
Inductive timestamp_failure : Type :=
| OutOfTimeT               (* raises [OverflowError] *)
| LocaltimeFailed          (* raises [OSError] *)
| YearOutOfRange.          (* raises [ValueError] *)

Definition exn_of_timestamp_failure (f : timestamp_failure) : exn :=
  match f with
  | OutOfTimeT => OverflowError
  | LocaltimeFailed => OSError
  | YearOutOfRange => ValueError
  end.

(** The outside world answers as a function of what happened so far; the
    time zone and the limits of the platform are part of it. *)
Record world : Type := mkWorld {
  get_reply : list event -> string -> option value -> outcome;
  post_reply : list event -> string -> value -> outcome;
  clock : list event -> Z;         (* the time, in microseconds since the epoch *)
  uniform01 : list event -> Q;     (* [random.uniform(0, 1)] *)
  utc_offset : Z -> Z;             (* local time minus UTC at a timestamp, in seconds *)
  timestamp_error : Z -> option timestamp_failure
                                   (* the timestamps [fromtimestamp] refuses *)
}.

(** The instance attributes of [irDataClient] and the history. *)
Record state : Type := mkState {
  authenticated : bool;
  username : string;
  encoded_password : string;
  base_url : string;
  history : list event
}.

Definition record (ev : event) (s : state) : state :=
  mkState (authenticated s) (username s) (encoded_password s) (base_url s)
          (ev :: history s).

Definition set_authenticated (b : bool) : M state unit :=
  fun s => (Ok tt, mkState b (username s) (encoded_password s) (base_url s) (history s)).

Definition get_self : M state state := fun s => (Ok s, s).

(** [r.headers.get(name)]: header names compare without regard to case;
    the list has one entry for each header name. *)
Fixpoint headers_get (hs : list (string * string)) (name : string) : option string :=
  match hs with
  | [] => None
  | (k, v) :: hs' =>
      if String.eqb (PyStr.lower k) (PyStr.lower name) then Some v
      else headers_get hs' name
  end.

(** [r.json()] *)
Definition response_json {St} (r : response) : M St value :=
  match json r with
  | Some v => ret v
  | None => raise JSONDecodeError
  end.

Section Effects.

Variable W : world.

(** [self.session.get(url, params=payload)] *)
Definition session_get (url : value) (params : option value) : M state response :=
  match url with
  | VStr u =>
      fun s =>
        let o := get_reply W (history s) u params in
        let s' := record (EvGet u params o) s in
        match o with
        | Responds r => (Ok r, s')
        | Fails f => (Raise (exn_of_failure f), s')
        end
  | _ => raise RequestException
  end.

(** [self.session.post(url, headers=..., json=data, timeout=5.0)] *)
Definition session_post (url : string) (data : value) : M state response :=
  fun s =>
    let o := post_reply W (history s) url data in
    let s' := record (EvPost url data o) s in
    match o with
    | Responds r => (Ok r, s')
    | Fails f => (Raise (exn_of_failure f), s')
    end.

(** The reading of the local wall clock at a timestamp (seconds), in
    microseconds: naive [datetime] objects hold local time. *)
Definition local_time (seconds : Z) : Z :=
  (seconds + utc_offset W seconds) * 1000000.

(** [datetime.now()]: the local wall clock at the present time.  The event
    records the time itself. *)
Definition datetime_now : M state Z :=
  fun s =>
    let t := clock W (history s) in
    (Ok (t + utc_offset W (t / 1000000) * 1000000), record (EvNow t) s).

(** [random.uniform(0, 1)] *)
Definition random_uniform01 : M state Q :=
  fun s => let u := uniform01 W (history s) in (Ok u, record (EvUniform u) s).

(** [time.sleep(seconds)] *)
Definition time_sleep (seconds : Q) : M state unit :=
  fun s => (Ok tt, record (EvSleep seconds) s).

(** [print(line)] *)
Definition print (line : string) : M state unit :=
  fun s => (Ok tt, record (EvPrint line) s).

(* ===================================================================== *)
(** ** Backoff calculator *)
(* ===================================================================== *)

(** [datetime.fromtimestamp(seconds)]: the naive local [datetime] of the
    timestamp, in microseconds, or the exception for a timestamp that the
    platform or [datetime] refuses. *)
Definition datetime_fromtimestamp (seconds : Z) : M state Z :=
  match timestamp_error W seconds with
  | Some f => raise (exn_of_timestamp_failure f)
  | None => ret (local_time seconds)
  end.

(** The first attempt for which [2 ** attempt] is no float: the sum
    [2 ** attempt + random.uniform(0, 1)] converts the integer and raises
    [OverflowError] from there on. *)
Definition float_overflow_attempt : nat := 1024.

(** [irDataClient._calculate_backoff] (client.py, lines 77-100).
    [datetime] and [timedelta] count whole microseconds, so the difference
    of the two naive local datetimes is exact; [total_seconds()] divides by
    10^6.  The float results are given as the rationals they stand for:
    rounding is outside the model.  In the fallback the operands are
    evaluated before the sum: the draw is made also when the sum raises. *)
Definition _calculate_backoff (attempt : nat) (ratelimit_reset : option string)
  : M state Q :=
  let fallback : M state Q :=
    u <- random_uniform01 ;;
    if (float_overflow_attempt <=? attempt)%nat then raise OverflowError
    else ret (Py.min (inject_Z (2 ^ Z.of_nat attempt) + u) 60) in
  match ratelimit_reset with
  | Some reset_str =>
      if Py.truthy_str ratelimit_reset then
        seconds <- lift_result (Py.int_of_str reset_str) ;;
        reset_time <- datetime_fromtimestamp seconds ;;
        now <- datetime_now ;;
        let delta := reset_time - now + 500000 in
        ret (Py.max (inject_Z delta / 1000000) 1)
      else fallback
  | None => fallback
  end.

(* ===================================================================== *)
(** ** Session authenticator *)
(* ===================================================================== *)

Definition auth_url : string := "https://members-ng.iracing.com/auth".

(** The body of the [try] in [_login] (client.py, lines 126-161). *)
Definition login_try (data : value) (attempt : nat) : M state (ctrl unit) :=
  r <- session_post auth_url data ;;
  let ratelimit_reset := headers_get (headers r) "x-ratelimit-reset" in
  if status_code r =? 429 then
    wait_time <- _calculate_backoff attempt ratelimit_reset ;;
    time_sleep wait_time ;;
    ret Continue
  else if status_code r =? 200 then
    response_data <- response_json r ;;
    authcode <- lift_result (Py.get response_data "authcode") ;;
    if Py.truthy authcode then
      set_authenticated true ;;
      time_sleep (1 # 2) ;;
      ret (Return tt)
    else
      raise (RuntimeError (AuthFailure response_data))
  else
    raise (RuntimeError (LoginHTTP (status_code r))).

(** [irDataClient._login] (client.py, lines 102-170). *)
Definition _login (retries : Z) : M state unit :=
  self <- get_self ;;
  let data := VDict [("email", VStr (username self));
                     ("password", VStr (encoded_password self))] in
  for_range (Z.to_nat retries) 0%nat
    (fun attempt =>
       try_except (login_try data attempt)
         (fun _ =>
            wait_time <- _calculate_backoff attempt None ;;
            time_sleep wait_time ;;
            ret Continue))
    (raise (RuntimeError LoginFailedAfterRetries)).

(* ===================================================================== *)
(** ** Resilient requester *)
(* ===================================================================== *)

(** The body of the [try] in [_robust_get] (client.py, lines 202-249);
    the local [attempted_relogin] is the frame of the computation. *)
Definition robust_try (url : string) (payload : option value) (context : string)
           (attempt : nat) : M (bool * state) (ctrl response) :=
  r <- outer (session_get (VStr url) payload) ;;
  let ratelimit_reset := headers_get (headers r) "x-ratelimit-reset" in
  if status_code r =? 401 then
    attempted_relogin <- get_local ;;
    if negb attempted_relogin then
      set_local true ;;
      outer (set_authenticated false) ;;
      outer (_login 3) ;;
      ret Continue
    else
      raise (RuntimeError (Repeated401 context url))
  else if status_code r =? 403 then
    raise (RuntimeError (Forbidden403 context url))
  else if status_code r =? 429 then
    wait_time <- outer (_calculate_backoff attempt ratelimit_reset) ;;
    outer (time_sleep wait_time) ;;
    ret Continue
  else if negb (status_code r =? 200) then
    raise (RuntimeError (UnhandledNon200 context (status_code r) url))
  else
    ret (Return r).

(** The [except (requests.Timeout, requests.ConnectionError)] clause. *)
Definition robust_except (attempt : nat) : M (bool * state) (ctrl response) :=
  wait_time <- outer (_calculate_backoff attempt None) ;;
  outer (time_sleep wait_time) ;;
  ret Continue.

(** The [for attempt in range(retries)] loop with the [raise] after it. *)
Definition robust_loop (url : string) (payload : option value) (context : string)
           (n : nat) (attempt : nat) : M (bool * state) response :=
  for_range n attempt
    (fun attempt =>
       try_except (robust_try url payload context attempt)
                  (fun _ => robust_except attempt))
    (raise (RuntimeError (ExceededRetries context url))).

(** [irDataClient._robust_get] (client.py, lines 172-258). *)
Definition _robust_get (url : string) (payload : option value) (retries : Z)
           (require_auth : bool) (context : string) : M state response :=
  self <- get_self ;;
  (if require_auth && negb (authenticated self) then _login 3 else ret tt) ;;
  with_frame false
    (robust_loop url payload context (Z.to_nat retries) 0%nat).

(* ===================================================================== *)
(** ** Resource resolver *)
(* ===================================================================== *)

(** [irDataClient._get_resource_or_link] (client.py, lines 260-283). *)
Definition _get_resource_or_link (url : string) (payload : option value)
           (retries : Z) : M state (value * bool) :=
  r <- _robust_get url payload retries true "_get_resource_or_link" ;;
  data <- response_json r ;;
  has_link <- (if negb (Py.is_list data)
               then lift_result (Py.contains "link" data)
               else ret false) ;;
  if has_link then
    link <- lift_result (Py.get data "link") ;;
    ret (link, true)
  else
    ret (data, false).

(* ===================================================================== *)
(** ** Chunk aggregator *)
(* ===================================================================== *)

(** [irDataClient._get_chunks] (client.py, lines 326-358). *)
Definition _get_chunks (chunks : value) : M state (list value) :=
  if negb (Py.is_dict chunks) then ret []
  else
    base_url <- lift_result (Py.get chunks "base_download_url") ;;
    names <- lift_result (Py.get chunks "chunk_file_names") ;;
    names <- lift_result (Py.iterate names) ;;
    urls <- comprehension (fun x => lift_result (Py.add base_url x)) names ;;
    list_of_chunks <-
      comprehension (fun url => r <- session_get url None ;; response_json r) urls ;;
    sublists <- comprehension (fun sublist => lift_result (Py.iterate sublist))
                              list_of_chunks ;;
    ret (List.concat sublists).

End Effects.

Arguments _calculate_backoff : simpl never.

(* ===================================================================== *)
(** ** csv.reader over io.StringIO *)
(* ===================================================================== *)

Module Csv.

(** Iterating [StringIO(text)] gives the lines of [text], each with its
    terminating line feed; no line is empty. *)
Fixpoint lines_from (cur : list ascii) (cs : list ascii) : list (list ascii) :=
  match cs with
  | [] => match cur with [] => [] | _ => [rev cur] end
  | c :: cs' =>
      if Ascii.eqb c "010"%char then rev (c :: cur) :: lines_from [] cs'
      else lines_from (c :: cur) cs'
  end.

Definition StringIO (text : string) : list (list ascii) :=
  lines_from [] (PyStr.chars text).

(** The states of the reader that the default dialect (delimiter [,],
    the double quote as quote character, doubled inside a quoted field, no
    escape character, not strict)
    can reach. *)
Inductive parser_state : Type :=
| START_RECORD | START_FIELD | IN_FIELD
| IN_QUOTED_FIELD | QUOTE_IN_QUOTED_FIELD | EAT_CRNL.

Record parser : Type := mkParser {
  pstate : parser_state;
  field : list ascii;            (* the field being read, last character first *)
  fields : list string           (* the finished fields, last field first *)
}.

Definition field_limit : Z := 131072.

Fixpoint string_of_rev (cs : list ascii) (acc : string) : string :=
  match cs with
  | [] => acc
  | c :: cs' => string_of_rev cs' (String c acc)
  end.

Definition parse_reset : parser := mkParser START_RECORD [] [].

Definition parse_save_field (p : parser) : parser :=
  mkParser (pstate p) [] (string_of_rev (field p) EmptyString :: fields p).

Definition parse_add_char (c : ascii) (p : parser) : result parser :=
  if field_limit <=? Z.of_nat (List.length (field p)) then Raise CsvError
  else Ok (mkParser (pstate p) (c :: field p) (fields p)).

Definition goto (st : parser_state) (p : parser) : parser :=
  mkParser st (field p) (fields p).

Definition is_newline (c : ascii) : bool :=
  Ascii.eqb c "010"%char || Ascii.eqb c "013"%char.
Definition is_quote (c : ascii) : bool := Ascii.eqb c "034"%char.
Definition is_delimiter (c : ascii) : bool := Ascii.eqb c ","%char.

(** One step of the reader; [None] is the end-of-line mark that follows
    the characters of every line. *)
Definition start_field (c : option ascii) (p : parser) : result parser :=
  match c with
  | None => Ok (goto START_RECORD (parse_save_field p))
  | Some ch =>
      if is_newline ch then Ok (goto EAT_CRNL (parse_save_field p))
      else if is_quote ch then Ok (goto IN_QUOTED_FIELD p)
      else if is_delimiter ch then Ok (parse_save_field p)
      else match parse_add_char ch p with
           | Ok p' => Ok (goto IN_FIELD p')
           | Raise e => Raise e
           end
  end.

Definition parse_process_char (c : option ascii) (p : parser) : result parser :=
  match pstate p with
  | START_RECORD =>
      match c with
      | None => Ok p
      | Some ch =>
          if is_newline ch then Ok (goto EAT_CRNL p)
          else start_field c (goto START_FIELD p)
      end
  | START_FIELD => start_field c p
  | IN_FIELD =>
      match c with
      | None => Ok (goto START_RECORD (parse_save_field p))
      | Some ch =>
          if is_newline ch then Ok (goto EAT_CRNL (parse_save_field p))
          else if is_delimiter ch then Ok (goto START_FIELD (parse_save_field p))
          else parse_add_char ch p
      end
  | IN_QUOTED_FIELD =>
      match c with
      | None => Ok p
      | Some ch =>
          if is_quote ch then Ok (goto QUOTE_IN_QUOTED_FIELD p)
          else parse_add_char ch p
      end
  | QUOTE_IN_QUOTED_FIELD =>
      match c with
      | None => Ok (goto START_RECORD (parse_save_field p))
      | Some ch =>
          if is_quote ch then
            match parse_add_char ch p with
            | Ok p' => Ok (goto IN_QUOTED_FIELD p')
            | Raise e => Raise e
            end
          else if is_delimiter ch then Ok (goto START_FIELD (parse_save_field p))
          else if is_newline ch then Ok (goto EAT_CRNL (parse_save_field p))
          else match parse_add_char ch p with
               | Ok p' => Ok (goto IN_FIELD p')
               | Raise e => Raise e
               end
      end
  | EAT_CRNL =>
      match c with
      | None => Ok (goto START_RECORD p)
      | Some ch => if is_newline ch then Ok p else Raise CsvError
      end
  end.

Fixpoint feed (cs : list ascii) (p : parser) : result parser :=
  match cs with
  | [] => parse_process_char None p
  | c :: cs' =>
      match parse_process_char (Some c) p with
      | Ok p' => feed cs' p'
      | Raise e => Raise e
      end
  end.

(** The rows the reader yields, first to last, and the error that ends
    the iteration if there is one.  [p] is the parser inside a record that
    spans several lines ([None] between records). *)
Fixpoint rows_from (p : option parser) (lines : list (list ascii))
  : list (list string) * option exn :=
  match lines with
  | [] =>
      match p with
      | Some p' => ([rev (fields (parse_save_field p'))], None)
      | None => ([], None)
      end
  | line :: lines' =>
      match feed line (match p with Some p' => p' | None => parse_reset end) with
      | Raise e => ([], Some e)
      | Ok p' =>
          match pstate p' with
          | START_RECORD =>
              let (rows, err) := rows_from None lines' in
              (rev (fields p') :: rows, err)
          | _ => rows_from (Some p') lines'
          end
      end
  end.

(** [csv.reader(StringIO(text), delimiter=",")] *)
Definition reader (text : string) : list (list string) * option exn :=
  rows_from None (StringIO text).

End Csv.

(* ===================================================================== *)
(** ** CSV decoder *)
(* ===================================================================== *)

Definition row_warning : string := "Warning: Row length does not match headers length".

(** The [for row in reader] loop of [_parse_csv_response]: [csv_data] is
    the list built so far. *)
Fixpoint parse_rows (headers : list string) (rows : list (list string))
         (csv_data : list (list (string * string)))
  : M state (list (list (string * string))) :=
  match rows with
  | [] => ret csv_data
  | row :: rows' =>
      if (List.length row =? List.length headers)%nat then
        parse_rows headers rows' (csv_data ++ [Py.dict_of (combine headers row)])
      else
        print row_warning ;;
        parse_rows headers rows' csv_data
  end.

(** [irDataClient._parse_csv_response] (client.py, lines 387-418). *)
Definition _parse_csv_response (text : string) : M state (list (list (string * string))) :=
  let (rows, err) := Csv.reader text in
  match rows with
  | [] => raise (match err with Some e => e | None => StopIteration end)
  | first :: rest =>
      let headers := map PyStr.lower first in
      csv_data <- parse_rows headers rest [] ;;
      match err with
      | Some e => raise e
      | None => ret csv_data
      end
  end.

(* ===================================================================== *)
(** ** Scripted worlds and sample inputs *)
(* ===================================================================== *)

Definition is_get (ev : event) : bool :=
  match ev with EvGet _ _ _ => true | _ => false end.
Definition is_post (ev : event) : bool :=
  match ev with EvPost _ _ _ => true | _ => false end.

(** The URLs of the GET requests of a history, oldest first. *)
Definition requested (h : list event) : list string :=
  flat_map (fun ev => match ev with EvGet u _ _ => [u] | _ => [] end) (rev h).

(** The timestamps that [datetime.fromtimestamp] refuses under CPython on
    64-bit Linux with the time zone UTC: those beyond the 64-bit [time_t],
    those whose year [localtime] cannot give as an [int], and those outside
    the years 1 to 9999 (also the first day of the year 1, for which the
    probe of the fold leaves the range). *)
Definition utc_timestamp_error (t : Z) : option timestamp_failure :=
  if (t <? - 2 ^ 63) || (2 ^ 63 <=? t) then Some OutOfTimeT
  else if (t <? -67768040609740800) || (67768036191676799 <? t)
       then Some LocaltimeFailed
  else if (t <? -62135510400) || (253402300799 <? t) then Some YearOutOfRange
  else None.

(** A world that answers the k-th GET and the k-th POST from two lists,
    whatever the URL; after the lists the connection fails.  The clock
    stands at [now] and the random generator draws [u]; the time zone is
    UTC. *)
Definition scripted (gets posts : list outcome) (now : Z) (u : Q) : world :=
  mkWorld
    (fun h _ _ => nth (List.length (filter is_get h)) gets (Fails ConnectionFailed))
    (fun h _ _ => nth (List.length (filter is_post h)) posts (Fails ConnectionFailed))
    (fun _ => now)
    (fun _ => u)
    (fun _ => 0)
    utc_timestamp_error.

Definition reply (status : Z) (body : option value) : outcome :=
  Responds (mkResponse status [] body "").

Definition login_ok : outcome :=
  reply 200 (Some (VDict [("authcode", VStr "abc123")])).

(** An instance for the username driver@example.com with the password
    secret, before and after a login. *)
Definition fresh_client : state :=
  mkState false "driver@example.com" "IByY2FNbqEmYC/8WthbE/GyvM/9ZXrHhpEPKQ0+I0B4="
          "https://members-ng.iracing.com" [].

Definition logged_in_client : state :=
  mkState true "driver@example.com" "IByY2FNbqEmYC/8WthbE/GyvM/9ZXrHhpEPKQ0+I0B4="
          "https://members-ng.iracing.com" [].

Definition car_url : string := "https://members-ng.iracing.com/data/car/get".

Definition ok_reply : outcome := reply 200 (Some (VList [])).

(** 403 on the first GET. *)
Definition forbidden_world : world :=
  scripted [reply 403 None; ok_reply] [login_ok] 0 0.

(** A stale session: 401, then 200 after the login. *)
Definition stale_session_world : world :=
  scripted [reply 401 None; ok_reply] [login_ok] 0 0.

(** Two rate-limited attempts, then 401 on the third GET. *)
Definition late_401_world : world :=
  scripted [reply 429 None; reply 429 None; reply 401 None; ok_reply] [login_ok] 0 0.

(** 401 before and after the login. *)
Definition twice_401_world : world :=
  scripted [reply 401 None; reply 401 None; ok_reply] [login_ok] 0 0.

Definition LF : string := String "010"%char EmptyString.

(** A world that serves two chunk files. *)
Definition chunk_world : world :=
  mkWorld
    (fun _ url _ =>
       if String.eqb url "http://x/a.json" then reply 200 (Some (VList [VInt 1; VInt 2]))
       else if String.eqb url "http://x/b.json" then reply 200 (Some (VList [VInt 3]))
       else reply 404 None)
    (fun _ _ _ => Fails ConnectionFailed)
    (fun _ => 0)
    (fun _ => 0%Q)
    (fun _ => 0)
    utc_timestamp_error.

Definition sample_manifest : list (string * value) :=
  [("base_download_url", VStr "http://x/");
   ("chunk_file_names", VList (map VStr ["a.json"; "b.json"]))].

(** The spec's ChunkManifest: a mapping with a string under
    [base_download_url] and a list of strings under [chunk_file_names]. *)
Definition well_formed_manifest (v : value) : bool :=
  match v with
  | VDict d =>
      match Py.assoc "base_download_url" d, Py.assoc "chunk_file_names" d with
      | Some (VStr _), Some (VList names) =>
          forallb (fun x => match x with VStr _ => true | _ => false end) names
      | _, _ => false
      end
  | _ => false
  end.

(** The state with [self.authenticated = False]. *)
Definition unauthenticated (s : state) : state :=
  mkState false (username s) (encoded_password s) (base_url s) (history s).

(** Exceptions that pass through the [try] of [_robust_get] and are not
    its own error for a repeated 401. *)
Definition is_repeated_401 (e : exn) : bool :=
  match e with
  | RuntimeError (Repeated401 _ _) => true
  | _ => false
  end.

Definition passes_through (e : exn) : bool :=
  negb (is_network_error e || is_repeated_401 e).

(** GET events that were answered with 401, and their number. *)
Definition unauthorized (o : outcome) : bool :=
  match o with
  | Responds r => status_code r =? 401
  | Fails _ => false
  end.

Definition unauthorized_get (ev : event) : bool :=
  match ev with
  | EvGet _ _ o => unauthorized o
  | _ => false
  end.

Definition count_401 (h : list event) : nat :=
  List.length (filter unauthorized_get h).

(** [quiet_step s s']: from [s] to [s'] the history grew, and by no GET. *)
Definition quiet_step (s s' : state) : Prop :=
  exists added,
    history s' = added ++ history s /\ Forall (fun ev => is_get ev = false) added.

(** Statuses that [_robust_get] neither returns nor retries. *)
Definition fatal_status (c : Z) : bool :=
  negb ((c =? 200) || (c =? 401) || (c =? 429)).

Definition fatal_error (context url : string) (c : Z) : exn :=
  RuntimeError (if c =? 403 then Forbidden403 context url
                else UnhandledNon200 context c url).

(** The status of a GET event that was answered with a fatal status. *)
Definition fatal_get (ev : event) : option Z :=
  match ev with
  | EvGet _ _ (Responds r) =>
      if fatal_status (status_code r) then Some (status_code r) else None
  | _ => None
  end.

Definition error_of {A} (res : result A) : option exn :=
  match res with
  | Ok _ => None
  | Raise e => Some e
  end.

(** [ends_fatally context url added err]: among the events [added] (newest
    first) only the newest can be a GET with a fatal status, and then the
    outcome is the error for that status. *)
Definition ends_fatally (context url : string) (added : list event)
           (err : option exn) : Prop :=
  match added with
  | [] => True
  | ev :: rest =>
      Forall (fun e => fatal_get e = None) rest
      /\ (forall c, fatal_get ev = Some c -> err = Some (fatal_error context url c))
  end.

(** [serves W h b names contents]: from the history [h] on, the world
    answers the GET of [b ++ x] for each name [x] in turn, and the k-th
    answer is a JSON array with the items [contents[k]]. *)
Fixpoint serves (W : world) (h : list event) (b : string)
         (names : list string) (contents : list (list value)) : Prop :=
  match names, contents with
  | [], [] => True
  | x :: names', c :: contents' =>
      exists r,
        get_reply W h (b ++ x)%string None = Responds r
        /\ json r = Some (VList c)
        /\ serves W (EvGet (b ++ x)%string None (Responds r) :: h) b names' contents'
  | _, _ => False
  end.

(** What the docstring of [_get_resource_or_link] describes for a body
    that is a dict or a list. *)
Definition link_or_inline (data : value) : value * bool :=
  match data with
  | VDict d =>
      match Py.assoc "link" d with
      | Some link => (link, true)
      | None => (data, false)
      end
  | _ => (data, false)
  end.

(** The state after [n] warnings were printed. *)
Fixpoint warned (n : nat) (s : state) : state :=
  match n with
  | O => s
  | S n' => warned n' (record (EvPrint row_warning) s)
  end.

Definition plain_csv : string :=
  ("id,name" ++ LF ++ "1,Alice" ++ LF ++ "2,Bob")%string.

(** The same with a row of one cell between the two data rows. *)
Definition sample_csv : string :=
  ("id,name" ++ LF ++ "1,Alice" ++ LF ++ "3" ++ LF ++ "2,Bob")%string.

(** The same with header names in capitals and in mixed case. *)
Definition capitals_csv : string :=
  ("CUST_ID,Display Name" ++ LF ++ "1,Alice" ++ LF ++ "3" ++ LF ++ "2,Bob")%string.

(** A string without a capital letter A-Z. *)
Definition no_capital (name : string) : bool :=
  forallb (fun c => negb ((65 <=? PyStr.ord c) && (PyStr.ord c <=? 90)))
          (PyStr.chars name).

(* ===================================================================== *)
(** ** str() and repr() of Python values *)
(* ===================================================================== *)

Module PyText.

(** [str(n)] for an integer. *)
Fixpoint decimal_digits (fuel : nat) (n : Z) (acc : string) : string :=
  match fuel with
  | O => acc
  | S fuel' =>
      let acc' := String (PyStr.chr (48 + n mod 10)) acc in
      if n <? 10 then acc' else decimal_digits fuel' (n / 10) acc'
  end.

Definition str_of_int (n : Z) : string :=
  let digits := decimal_digits (S (Z.to_nat (Z.log2 (Z.abs n)))) (Z.abs n) "" in
  if n <? 0 then String "-"%char digits else digits.

Definition hex_digit (n : Z) : ascii :=
  if n <? 10 then PyStr.chr (48 + n) else PyStr.chr (87 + n).

(** Code points below U+0100 that [repr] writes as they are. *)
Definition printable (n : Z) : bool :=
  ((32 <=? n) && (n <? 127)) || ((161 <=? n) && negb (n =? 173)).

Fixpoint has_char (c : ascii) (s : string) : bool :=
  match s with
  | EmptyString => false
  | String c' s' => Ascii.eqb c c' || has_char c s'
  end.

Fixpoint escape (quote : ascii) (s : string) : string :=
  match s with
  | EmptyString => EmptyString
  | String c s' =>
      let n := PyStr.ord c in
      let rest := escape quote s' in
      if Ascii.eqb c quote || Ascii.eqb c "\"%char then String "\"%char (String c rest)
      else if n =? 9 then String "\"%char (String "t"%char rest)
      else if n =? 10 then String "\"%char (String "n"%char rest)
      else if n =? 13 then String "\"%char (String "r"%char rest)
      else if printable n then String c rest
      else String "\"%char (String "x"%char
             (String (hex_digit (n / 16)) (String (hex_digit (n mod 16)) rest)))
  end.

(** [repr(s)] for a string: single quotes, unless the string has a single
    quote and no double quote. *)
Definition repr_str (s : string) : string :=
  let quote := if has_char "'"%char s && negb (has_char "034"%char s)
               then "034"%char else "'"%char in
  String quote (escape quote s ++ String quote EmptyString).

Fixpoint join (sep : string) (parts : list string) : string :=
  match parts with
  | [] => EmptyString
  | [p] => p
  | p :: parts' => (p ++ sep ++ join sep parts')%string
  end.

Section Floats.

(** [repr] of a float, which the rationals of the model do not determine. *)
Variable float_repr : Q -> string.

Fixpoint repr (v : value) : string :=
  match v with
  | VNone => "None"
  | VBool true => "True"
  | VBool false => "False"
  | VInt n => str_of_int n
  | VFloat q => float_repr q
  | VStr s => repr_str s
  | VList l => ("[" ++ join ", " (map repr l) ++ "]")%string
  | VDict d =>
      ("{" ++ join ", " (map (fun kv => repr_str (fst kv) ++ ": " ++ repr (snd kv)) d)
           ++ "}")%string
  end.

(** [str(v)] *)
Definition str (v : value) : string :=
  match v with
  | VStr s => s
  | _ => repr v
  end.

End Floats.

End PyText.

(* ===================================================================== *)
(** ** Resource fetch *)
(* ===================================================================== *)

(** The result of [_parse_csv_response] as a Python object. *)
Definition value_of_rows (rows : list (list (string * string))) : value :=
  VList (map (fun d => VDict (map (fun kv => (fst kv, VStr (snd kv))) d)) rows).

Section Resource.

Variable float_repr : Q -> string.
Variable W : world.

(** [irDataClient._build_url] (client.py, lines 48-58). *)
Definition _build_url (endpoint : string) : M state string :=
  self <- get_self ;;
  ret (base_url self ++ endpoint)%string.

(** [self._robust_get(url, retries=retries, context=context)] for the value
    that [_get_resource] found under the key link.  A string goes to
    [_robust_get].  Anything else is no URL for [requests]: after the login
    that may be due, the first [session.get] raises before anything is
    sent, unless [range(retries)] is empty and the loop is skipped. *)
Definition robust_get_link (url : value) (retries : Z) (context : string)
  : M state response :=
  match url with
  | VStr u => _robust_get W u None retries true context
  | _ =>
      self <- get_self ;;
      (if negb (authenticated self) then _login W 3 else ret tt) ;;
      match Z.to_nat retries with
      | O => raise (RuntimeError (ExceededRetries context (PyText.str float_repr url)))
      | S _ => raise RequestException
      end
  end.

(** [irDataClient._get_resource] (client.py, lines 285-324). *)
Definition _get_resource (endpoint : string) (payload : option value) (retries : Z)
  : M state value :=
  request_url <- _build_url endpoint ;;
  found <- _get_resource_or_link W request_url payload retries ;;
  let resource_obj := fst found in
  let is_link := snd found in
  if negb is_link then ret resource_obj
  else
    r <- robust_get_link resource_obj retries "_get_resource (linked resource)" ;;
    let content_type :=
      match headers_get (headers r) "Content-Type" with
      | Some v => v
      | None => ""
      end in
    if Py.is_substring "application/json" content_type then response_json r
    else if Py.is_substring "text/csv" content_type
            || Py.is_substring "text/plain" content_type then
      rows <- _parse_csv_response (text r) ;;
      ret (value_of_rows rows)
    else ret VNone.

End Resource.

(* ===================================================================== *)
(** ** The methods above the transport layer *)
(* ===================================================================== *)

(** What these methods raise: the exceptions above, [KeyError] for a
    missing key, and a [RuntimeError] with a fixed text. *)
Inductive error : Type :=
| Exn (e : exn)
| KeyError (key : string)
| RuntimeErrorText (msg : string).

Inductive completion (A : Type) : Type :=
| Returns (a : A)
| Raises (e : error).
Arguments Returns {A} a.
Arguments Raises {A} e.

Definition API (St A : Type) : Type := St -> completion A * St.

Definition api_ret {St A} (a : A) : API St A := fun s => (Returns a, s).
Definition api_raise {St A} (e : error) : API St A := fun s => (Raises e, s).
Definition api_bind {St A B} (m : API St A) (k : A -> API St B) : API St B :=
  fun s => match m s with
           | (Returns a, s') => k a s'
           | (Raises e, s') => (Raises e, s')
           end.
Definition completed {St A} (c : completion A) : API St A := fun s => (c, s).

(** A computation of the transport layer, seen from above. *)
Definition call {St A} (m : M St A) : API St A :=
  fun s => match m s with
           | (Ok a, s') => (Returns a, s')
           | (Raise e, s') => (Raises (Exn e), s')
           end.

Declare Scope api_scope.
Delimit Scope api_scope with api.
Notation "x <- m ;; k" := (api_bind m (fun x => k))
  (at level 61, m at next level, right associativity) : api_scope.
Notation "m ;; k" := (api_bind m (fun _ => k))
  (at level 61, right associativity) : api_scope.

Module PyObj.

(** [obj[key]] for a string [key]: only a dict is indexed by strings. *)
Definition getitem (obj : value) (key : string) : completion value :=
  match obj with
  | VDict d =>
      match Py.assoc key d with
      | Some v => Returns v
      | None => Raises (KeyError key)
      end
  | _ => Raises (Exn TypeError)
  end.

(** [obj.keys()] *)
Definition keys (obj : value) : completion (list string) :=
  match obj with
  | VDict d => Returns (map fst d)
  | _ => Raises (Exn AttributeError)
  end.

(** [obj.get(key, default)] *)
Definition get_default (obj : value) (key : string) (default : value)
  : completion value :=
  match obj with
  | VDict d => Returns (match Py.assoc key d with Some v => v | None => default end)
  | _ => Raises (Exn AttributeError)
  end.

(** [obj.get(key)] *)
Definition get (obj : value) (key : string) : completion value :=
  get_default obj key VNone.

(** [x == n] for an integer [n]: numbers compare by value. *)
Definition equals_int (x : value) (n : Z) : bool :=
  match Py.number x with
  | Some (_, q) => Qeq_bool q (inject_Z n)
  | None => false
  end.

End PyObj.

(* ===================================================================== *)
(** ** Asset merger *)
(* ===================================================================== *)

Section Assets.

Variable float_repr : Q -> string.

(** [for key in a.keys(): obj[key] = a[key]] on the items of [obj]. *)
Definition copy_fields (a d : list (string * value)) : list (string * value) :=
  fold_left (fun d' key =>
               match Py.assoc key a with
               | Some v => Py.setitem key v d'
               | None => d'
               end)
            (map fst a) d.

(** One pass of the loop of [_add_assets] (client.py, lines 377-383): the
    object with the fields of its asset written into it. *)
Definition merge_asset (assets : value) (id_key : string) (obj : value)
  : completion value :=
  match PyObj.getitem obj id_key with
  | Raises e => Raises e
  | Returns id =>
      match PyObj.getitem assets (PyText.str float_repr id) with
      | Raises e => Raises e
      | Returns (VDict fields) =>
          match obj with
          | VDict d => Returns (VDict (copy_fields fields d))
          | _ => Raises (Exn TypeError)
          end
      | Returns _ => Raises (Exn AttributeError)
      end
  end.

(** The loop over the items: [done] are the items passed, as they now are;
    the second component is the list as it stands in memory at the end,
    also when the loop raises. *)
Fixpoint merge_assets (assets : value) (id_key : string) (done todo : list value)
  : completion (list value) * list value :=
  match todo with
  | [] => (Returns done, done)
  | obj :: todo' =>
      match merge_asset assets id_key obj with
      | Returns obj' => merge_assets assets id_key (done ++ [obj']) todo'
      | Raises e => (Raises e, done ++ obj :: todo')
      end
  end.

(** [irDataClient._add_assets] (client.py, lines 360-385).  The objects are
    changed in place: the result comes with the argument [objects] as it is
    after the call.  The items of a list are taken to be distinct objects.
    What is not a list gives strings when iterated (the keys of a dict, the
    characters of a string), and indexing a string by [id_key] raises
    [TypeError]. *)
Definition _add_assets (objects assets : value) (id_key : string)
  : completion value * value :=
  match objects with
  | VList l =>
      match merge_assets assets id_key [] l with
      | (Returns l', mem) => (Returns (VList l'), VList mem)
      | (Raises e, mem) => (Raises e, VList mem)
      end
  | _ =>
      match Py.iterate objects with
      | Raise e => (Raises (Exn e), objects)
      | Ok [] => (Returns objects, objects)
      | Ok (_ :: _) => (Raises (Exn TypeError), objects)
      end
  end.

End Assets.

(* ===================================================================== *)
(** ** Endpoint methods *)
(* ===================================================================== *)

Section Endpoints.

Variable float_repr : Q -> string.
Variable W : world.

(** [self._get_resource(endpoint, payload=payload)] *)
Definition get_resource (endpoint : string) (payload : option value) : API state value :=
  call (_get_resource float_repr W endpoint payload 3).

(** [self._get_resource_or_link(url)] for a [url] that need not be a
    string: the body of [_get_resource_or_link] with the defaults
    [payload=None] and [retries=3]. *)
Definition get_resource_or_link_at (url : value) : M state (value * bool) :=
  r <- robust_get_link float_repr W url 3 "_get_resource_or_link" ;;
  data <- response_json r ;;
  has_link <- (if negb (Py.is_list data)
               then lift_result (Py.contains "link" data)
               else ret false) ;;
  if has_link then
    link <- lift_result (Py.get data "link") ;;
    ret (link, true)
  else
    ret (data, false).

(** [payload[key] = v] under [if v:] *)
Definition set_if_truthy (key : string) (v : value) (payload : list (string * value))
  : list (string * value) :=
  if Py.truthy v then Py.setitem key v payload else payload.

(** [payload[key] = v] under [if v is not None:] *)
Definition set_if_not_none (key : string) (v : value) (payload : list (string * value))
  : list (string * value) :=
  match v with
  | VNone => payload
  | _ => Py.setitem key v payload
  end.

(** [get_cars], [get_cars_assets], [get_tracks], [get_tracks_assets],
    [get_series], [get_series_assets] (client.py, lines 543-597, 1641-1660). *)
Definition get_cars : API state value := get_resource "/data/car/get" None.
Definition get_cars_assets : API state value := get_resource "/data/car/assets" None.
Definition get_tracks : API state value := get_resource "/data/track/get" None.
Definition get_tracks_assets : API state value := get_resource "/data/track/assets" None.
Definition get_series : API state value := get_resource "/data/series/get" None.
Definition get_series_assets : API state value := get_resource "/data/series/assets" None.

(** The properties [cars], [tracks] and [series] (client.py, lines 420-478). *)
Definition cars : API state value :=
  (cars <- get_cars ;;
   car_assets <- get_cars_assets ;;
   completed (fst (_add_assets float_repr cars car_assets "car_id")))%api.

Definition tracks : API state value :=
  (tracks <- get_tracks ;;
   track_assets <- get_tracks_assets ;;
   completed (fst (_add_assets float_repr tracks track_assets "track_id")))%api.

Definition series : API state value :=
  (series <- get_series ;;
   series_assets <- get_series_assets ;;
   completed (fst (_add_assets float_repr series series_assets "series_id")))%api.

(** [driver_list] (client.py, lines 516-541). *)
Definition category_endpoints : list (Z * string) :=
  [ (1, "/data/driver_stats_by_category/oval");
    (2, "/data/driver_stats_by_category/road");
    (3, "/data/driver_stats_by_category/dirt_oval");
    (4, "/data/driver_stats_by_category/dirt_road");
    (5, "/data/driver_stats_by_category/sports_car");
    (6, "/data/driver_stats_by_category/formula_car") ].

(** The entry of a dict with integer keys for the key [x]; a list or a
    dict is not hashable and cannot be looked up. *)
Definition find_category (x : value) : completion (option string) :=
  match x with
  | VList _ | VDict _ => Raises (Exn TypeError)
  | _ => Returns (option_map snd
                    (find (fun kv => PyObj.equals_int x (fst kv)) category_endpoints))
  end.

Definition driver_list (category_id : value) : API state value :=
  (found <- completed (find_category category_id) ;;
   match found with
   | None => api_raise (Exn ValueError)
   | Some endpoint => get_resource endpoint None
   end)%api.

(** [hosted_combined_sessions] (client.py, lines 599-618). *)
Definition hosted_combined_sessions (package_id : value) : API state value :=
  let payload := set_if_truthy "package_id" package_id [] in
  get_resource "/data/hosted/combined_sessions" (Some (VDict payload)).

(** [league_get] (client.py, lines 631-647). *)
Definition league_get (league_id include_licenses : value) : API state value :=
  if negb (Py.truthy league_id) then
    api_raise (RuntimeErrorText "Please supply a league_id")
  else
    let payload := [("league_id", league_id); ("include_licenses", include_licenses)] in
    get_resource "/data/league/get" (Some (VDict payload)).

(** [league_roster] (client.py, lines 750-766). *)
Definition league_roster (league_id include_licenses : value) : API state value :=
  let payload := set_if_truthy "include_licenses" include_licenses
                   [("league_id", league_id)] in
  (resource <- get_resource "/data/league/roster" (Some (VDict payload)) ;;
   data_url <- completed (PyObj.getitem resource "data_url") ;;
   found <- call (get_resource_or_link_at data_url) ;;
   api_ret (fst found))%api.

(** [member_awards] (client.py, lines 1174-1188). *)
Definition member_awards (cust_id : value) : API state value :=
  let payload := set_if_truthy "cust_id" cust_id [] in
  (resource <- get_resource "/data/member/awards" (Some (VDict payload)) ;;
   data_url <- completed (PyObj.getitem resource "data_url") ;;
   found <- call (get_resource_or_link_at data_url) ;;
   api_ret (fst found))%api.

(** [self._get_chunks(resource.get("chunk_info"))] *)
Definition chunks_of (resource : value) : API state value :=
  (chunk_info <- completed (PyObj.get resource "chunk_info") ;;
   items <- call (_get_chunks W chunk_info) ;;
   api_ret (VList items))%api.

(** [result_lap_chart_data] and [result_event_log] (client.py, lines
    915-937 and 982-1002). *)
Definition result_lap_chart_data (subsession_id simsession_number : value)
  : API state value :=
  let payload := [("subsession_id", subsession_id);
                  ("simsession_number", simsession_number)] in
  (resource <- get_resource "/data/results/lap_chart_data" (Some (VDict payload)) ;;
   chunks_of resource)%api.

Definition result_event_log (subsession_id simsession_number : value)
  : API state value :=
  let payload := [("subsession_id", subsession_id);
                  ("simsession_number", simsession_number)] in
  (resource <- get_resource "/data/results/event_log" (Some (VDict payload)) ;;
   chunks_of resource)%api.

(** [result_lap_data] (client.py, lines 939-980). *)
Definition result_lap_data (subsession_id simsession_number cust_id team_id : value)
  : API state value :=
  if negb (Py.truthy cust_id) && negb (Py.truthy team_id) then
    api_raise (RuntimeErrorText "Please supply either a cust_id or a team_id")
  else
    let payload :=
      set_if_truthy "team_id" team_id
        (set_if_truthy "cust_id" cust_id
           [("subsession_id", subsession_id);
            ("simsession_number", simsession_number)]) in
    (resource <- get_resource "/data/results/lap_data" (Some (VDict payload)) ;;
     chunk_info <- completed (PyObj.get resource "chunk_info") ;;
     if Py.truthy chunk_info then chunks_of resource
     else api_ret (VList []))%api.

(** [result_search_hosted] (client.py, lines 1004-1069): the payload holds
    the arguments that are true, in the order of the parameters. *)
Definition result_search_hosted
           (start_range_begin start_range_end finish_range_begin finish_range_end
            cust_id host_cust_id session_name league_id league_season_id
            car_id track_id category_ids team_id : value) : API state value :=
  if negb (Py.truthy start_range_begin || Py.truthy finish_range_begin) then
    api_raise (RuntimeErrorText
                 "Please supply either start_range_begin or finish_range_begin")
  else if negb (Py.truthy cust_id || Py.truthy host_cust_id
                || Py.truthy session_name || Py.truthy team_id) then
    api_raise (RuntimeErrorText
                 "Please supply one of: cust_id, host_cust_id, session_name, or team_id")
  else
    let params :=
      [ ("start_range_begin", start_range_begin);
        ("start_range_end", start_range_end);
        ("finish_range_begin", finish_range_begin);
        ("finish_range_end", finish_range_end);
        ("cust_id", cust_id);
        ("host_cust_id", host_cust_id);
        ("session_name", session_name);
        ("league_id", league_id);
        ("league_season_id", league_season_id);
        ("car_id", car_id);
        ("track_id", track_id);
        ("category_ids", category_ids);
        ("team_id", team_id) ] in
    let payload := filter (fun kv => Py.truthy (snd kv)) params in
    (resource <- get_resource "/data/results/search_hosted" (Some (VDict payload)) ;;
     data <- completed (PyObj.get_default resource "data" (VDict [])) ;;
     chunk_info <- completed (PyObj.get data "chunk_info") ;;
     items <- call (_get_chunks W chunk_info) ;;
     api_ret (VList items))%api.

(** [result_season_results] (client.py, lines 1132-1155). *)
Definition result_season_results (season_id event_type race_week_num : value)
  : API state value :=
  let payload :=
    set_if_not_none "race_week_num" race_week_num
      (set_if_truthy "event_type" event_type [("season_id", season_id)]) in
  get_resource "/data/results/season_results" (Some (VDict payload)).

(** [stats_member_recap] (client.py, lines 1271-1291). *)
Definition stats_member_recap (cust_id year quarter : value) : API state value :=
  let payload :=
    set_if_truthy "season" quarter
      (set_if_truthy "year" year
         (set_if_truthy "cust_id" cust_id [])) in
  get_resource "/data/stats/member_recap" (Some (VDict payload)).

(** [season_spectator_subsessionids] (client.py, lines 1618-1639). *)
Definition season_spectator_subsessionids (event_types : value) : API state value :=
  (payload <-
     (if Py.truthy event_types then
        items <- call (lift_result (Py.iterate event_types)) ;;
        api_ret [("event_types",
                  VStr (PyText.join "," (map (PyText.str float_repr) items)))]
      else api_ret []) ;;
   resource <- get_resource "/data/season/spectator_subsessionids"
                            (Some (VDict payload)) ;;
   completed (PyObj.getitem resource "subsession_ids"))%api.

(** [series_past_seasons] (client.py, lines 1662-1676). *)
Definition series_past_seasons (series_id : value) : API state value :=
  (resource <- get_resource "/data/series/past_seasons"
                            (Some (VDict [("series_id", series_id)])) ;;
   completed (PyObj.get resource "series"))%api.

End Endpoints.

(* ===================================================================== *)
(** ** Vocabulary for the histories of the transport layer *)
(* ===================================================================== *)

(** The loop of [_login] with the [raise] after it. *)
Definition login_loop (W : world) (data : value) (n attempt : nat) : M state unit :=
  for_range n attempt
    (fun attempt =>
       try_except (login_try W data attempt)
         (fun _ =>
            wait_time <- _calculate_backoff W attempt None ;;
            time_sleep wait_time ;;
            ret Continue))
    (raise (RuntimeError LoginFailedAfterRetries)).

(** The JSON document that [_login] posts. *)
Definition credentials (s : state) : value :=
  VDict [("email", VStr (username s)); ("password", VStr (encoded_password s))].

(** The state with [self.authenticated = True]. *)
Definition logged_in (s : state) : state :=
  mkState true (username s) (encoded_password s) (base_url s) (history s).

(** The instance attributes other than [authenticated] are the same. *)
Definition same_account (s s' : state) : Prop :=
  username s' = username s
  /\ encoded_password s' = encoded_password s
  /\ base_url s' = base_url s.

(** The durations of the [time.sleep] calls of a history, oldest first. *)
Definition slept (h : list event) : list Q :=
  flat_map (fun ev => match ev with EvSleep d => [d] | _ => [] end) (rev h).

(** The fallback backoff for an attempt and a draw of the generator. *)
Definition exponential (attempt : nat) (u : Q) : Q :=
  Py.min (inject_Z (2 ^ Z.of_nat attempt) + u) 60.

(** [accepts_login r]: the answer to the login POST carries a true
    [authcode]. *)
Definition accepts_login (r : response) : bool :=
  (status_code r =? 200)
  && match json r with
     | Some body =>
         match Py.get body "authcode" with
         | Ok code => Py.truthy code
         | Raise _ => false
         end
     | None => false
     end.

(** The exception with which [_login] ends at once on an answer to its
    POST, if it does. *)
Definition login_refusal (o : outcome) : option exn :=
  match o with
  | Fails f =>
      if is_network_error (exn_of_failure f) then None else Some (exn_of_failure f)
  | Responds r =>
      if status_code r =? 429 then None
      else if status_code r =? 200 then
        match json r with
        | None => Some JSONDecodeError
        | Some body =>
            match Py.get body "authcode" with
            | Raise e => Some e
            | Ok code =>
                if Py.truthy code then None else Some (RuntimeError (AuthFailure body))
            end
        end
      else Some (RuntimeError (LoginHTTP (status_code r)))
  end.

Definition refused_post (ev : event) : option exn :=
  match ev with
  | EvPost _ _ o => login_refusal o
  | _ => None
  end.

(** [ends_with classify added err]: among the events [added] (newest
    first) only the newest can be classified, and then the outcome is the
    error it is classified with. *)
Definition ends_with (classify : event -> option exn) (added : list event)
           (err : option exn) : Prop :=
  match added with
  | [] => True
  | ev :: rest =>
      Forall (fun e => classify e = None) rest
      /\ (forall x, classify ev = Some x -> err = Some x)
  end.

(** A world whose answer to a GET of [url] depends on the number of GETs
    sent before only. *)
Definition answers_by_count (W : world) (url : string) (payload : option value)
           (script : nat -> outcome) : Prop :=
  forall h, get_reply W h url payload = script (List.length (filter is_get h)).

Definition rate_limited : outcome := reply 429 None.

(** Answers after which a retry loop sleeps and goes on, whatever else is
    the case: a timeout, a connection error, or a 429 without a reset
    hint. *)
Definition retryable (o : outcome) : bool :=
  match o with
  | Fails f => is_network_error (exn_of_failure f)
  | Responds r =>
      (status_code r =? 429)
      && negb (Py.truthy_str (headers_get (headers r) "x-ratelimit-reset"))
  end.

(** A world in which the login is refused with HTTP 500. *)
Definition broken_login_world : world :=
  scripted [] [reply 500 None] 0 0.

(** A world in which nothing can be reached. *)
Definition offline_world : world :=
  scripted [] [] 0 (1 # 4).

(** The exception that [_calculate_backoff] raises on a reset hint, if it
    does: [ValueError] for a non-empty string that [int] does not read, and
    the exception of [datetime.fromtimestamp] for a timestamp that it
    refuses. *)
Definition reset_error (W : world) (reset : option string) : option exn :=
  match reset with
  | Some str =>
      if String.eqb str "" then None
      else match Py.int_of_str str with
           | Ok t => option_map exn_of_timestamp_failure (timestamp_error W t)
           | Raise e => Some e
           end
  | None => None
  end.

(** The exception with which [_robust_get] ends at once on an answer that
    is no HTTP status to act on: a 429 with a reset hint that raises, or a
    failure of the request other than a timeout or a connection error. *)
Definition get_breakdown (W : world) (o : outcome) : option exn :=
  match o with
  | Fails f =>
      if is_network_error (exn_of_failure f) then None else Some (exn_of_failure f)
  | Responds r =>
      if status_code r =? 429
      then reset_error W (headers_get (headers r) "x-ratelimit-reset")
      else None
  end.

Definition broken_get (W : world) (ev : event) : option exn :=
  match ev with
  | EvGet _ _ o => get_breakdown W o
  | _ => None
  end.

(** A 429 whose reset hint is no number. *)
Definition garbled_limit_world : world :=
  scripted [Responds (mkResponse 429 [("X-RateLimit-Reset", "soon")] None "");
            ok_reply] [login_ok] 0 0.

(** A 429 whose reset hint is a number beyond the 64-bit [time_t]. *)
Definition far_limit_world : world :=
  scripted [Responds (mkResponse 429 [("X-RateLimit-Reset", "99999999999999999999")]
                                 None "");
            ok_reply] [login_ok] 0 0.

(** Two rate-limited attempts, then 200. *)
Definition busy_world : world :=
  scripted [reply 429 None; reply 429 None; ok_reply] [login_ok] 0 (1 # 4).

(** The draws of [random.uniform] of a history, oldest first. *)
Definition drawn (h : list event) : list Q :=
  flat_map (fun ev => match ev with EvUniform u => [u] | _ => [] end) (rev h).

(** The fallback backoffs of the attempts [first], [first + 1], ... with the
    draws [us]. *)
Definition exponential_series (first : nat) (us : list Q) : list Q :=
  map (fun au => exponential (fst au) (snd au)) (combine (seq first (List.length us)) us).

(** [r.headers.get("Content-Type", "")] *)
Definition content_type_of (r : response) : string :=
  match headers_get (headers r) "Content-Type" with
  | Some v => v
  | None => ""
  end.

(** An endpoint that answers with a link to a CSV file, and the file. *)
Definition linked_csv_world : world :=
  scripted [reply 200 (Some (VDict [("link", VStr "https://files.example/cars.csv")]));
            Responds (mkResponse 200 [("content-type", "text/csv; charset=utf-8")]
                                 None plain_csv)]
           [login_ok] 0 0.

(** The GET events of the chunk files [sent] under [b] with the answers
    [os], newest first. *)
Definition chunk_gets (b : string) (sent : list string) (os : list outcome) : list event :=
  rev (map (fun xo => EvGet (b ++ fst xo)%string None (snd xo)) (combine sent os)).

(** The exception that an answer to a chunk request raises in
    [self.session.get(url).json()], if it does. *)
Definition chunk_failure (o : outcome) : option exn :=
  match o with
  | Fails f => Some (exn_of_failure f)
  | Responds r =>
      match json r with
      | Some _ => None
      | None => Some JSONDecodeError
      end
  end.

(** The value under a key as [chunks.get(key)] gives it. *)
Definition dict_get (key : string) (d : list (string * value)) : value :=
  match Py.assoc key d with
  | Some v => v
  | None => VNone
  end.

(** A world in which the second chunk file times out. *)
Definition flaky_chunk_world : world :=
  mkWorld
    (fun _ url _ =>
       if String.eqb url "http://x/a.json" then reply 200 (Some (VList [VInt 1; VInt 2]))
       else if String.eqb url "http://x/b.json" then Fails TimedOut
       else reply 200 (Some (VList [VInt 3])))
    (fun _ _ _ => Fails ConnectionFailed)
    (fun _ => 0)
    (fun _ => 0%Q)
    (fun _ => 0)
    utc_timestamp_error.

Definition long_manifest : list (string * value) :=
  [("base_download_url", VStr "http://x/");
   ("chunk_file_names", VList (map VStr ["a.json"; "b.json"; "c.json"]))].

(** What a pass of the loop of [_add_assets] that did not raise has done to
    an object. *)
Definition enriched (float_repr : Q -> string) (assets : value) (id_key : string)
           (obj obj' : value) : Prop :=
  exists d id fields,
    obj = VDict d
    /\ Py.assoc id_key d = Some id
    /\ PyObj.getitem assets (PyText.str float_repr id) = Returns (VDict fields)
    /\ obj' = VDict (copy_fields fields d).

(** Two cars and their assets, as the two endpoints give them. *)
Definition mazda : value := VDict [("car_id", VInt 1); ("car_name", VStr "Mazda MX-5")].
Definition skippy : value := VDict [("car_id", VInt 2); ("car_name", VStr "Skip Barber")].
Definition unknown_car : list (string * value) :=
  [("car_id", VInt 3); ("car_name", VStr "Prototype")].

Definition car_assets : list (string * value) :=
  [("1", VDict [("logo", VStr "/img/mazda.png")]);
   ("2", VDict [("logo", VStr "/img/skippy.png"); ("car_name", VStr "Skip Barber F2000")])].

(** [repr] of floats for the samples, none of which has a float. *)
Definition no_floats (q : Q) : string := "".

Definition CR : string := String "013"%char EmptyString.

(** Two columns whose names differ by case only. *)
Definition twin_csv : string := ("ID,id" ++ LF ++ "1,2")%string.

(** A carriage return inside an unquoted cell of the third line. *)
Definition broken_csv : string :=
  ("id,name" ++ LF ++ "7" ++ LF ++ "1" ++ CR ++ "x,2" ++ LF ++ "3,c")%string.

(** The parameters of [result_search_hosted] with the arguments of a call,
    as [locals()] lists them. *)
Definition search_hosted_params
           (start_range_begin start_range_end finish_range_begin finish_range_end
            cust_id host_cust_id session_name league_id league_season_id
            car_id track_id category_ids team_id : value) : list (string * value) :=
  [ ("start_range_begin", start_range_begin);
    ("start_range_end", start_range_end);
    ("finish_range_begin", finish_range_begin);
    ("finish_range_end", finish_range_end);
    ("cust_id", cust_id);
    ("host_cust_id", host_cust_id);
    ("session_name", session_name);
    ("league_id", league_id);
    ("league_season_id", league_season_id);
    ("car_id", car_id);
    ("track_id", track_id);
    ("category_ids", category_ids);
    ("team_id", team_id) ].

(** A search that answers with one chunk file. *)
Definition search_world : world :=
  scripted [reply 200 (Some (VDict [("data",
              VDict [("chunk_info",
                      VDict [("base_download_url", VStr "http://x/");
                             ("chunk_file_names", VList [VStr "a.json"])])])]));
            reply 200 (Some (VList [VInt 1; VInt 2]))]
           [login_ok] 0 0.

(** An answer for a driver who did no lap: no chunk information. *)
Definition no_laps_world : world :=
  scripted [reply 200 (Some (VDict [("success", VBool true); ("chunk_info", VNone)]))]
           [login_ok] 0 0.

(** CSV texts of plain cells: a cell without comma, quote, carriage return
    or line feed, within the field limit of the reader; a row with at least
    one cell that is not a single empty cell (which would be an empty
    line); the cells of a row joined by commas, the rows by line feeds. *)
Definition plain_char (c : ascii) : bool :=
  negb (Csv.is_newline c || Csv.is_quote c || Csv.is_delimiter c).

Definition plain_cell (cell : string) : bool :=
  forallb plain_char (PyStr.chars cell)
  && (Z.of_nat (List.length (PyStr.chars cell)) <=? Csv.field_limit).

Definition plain_row (row : list string) : bool :=
  forallb plain_cell row
  && match row with
     | [] => false
     | [cell] => negb (String.eqb cell "")
     | _ => true
     end.

Definition csv_line (row : list string) : string := PyText.join "," row.

Definition csv_text (rows : list (list string)) : string :=
  PyText.join LF (map csv_line rows).

(** The characters of a line fed to the parser, without the end-of-line
    mark that [Csv.feed] adds. *)
Fixpoint feed_chars (cs : list ascii) (p : Csv.parser) : result Csv.parser :=
  match cs with
  | [] => Ok p
  | c :: cs' =>
      match Csv.parse_process_char (Some c) p with
      | Ok p' => feed_chars cs' p'
      | Raise e => Raise e
      end
  end.

(** The parser with a cell under way: nothing is kept of an empty cell. *)
Definition pending (st : Csv.parser_state) (cell : list ascii) (done : list string)
  : Csv.parser :=
  match cell with
  | [] => Csv.mkParser st [] done
  | _ => Csv.mkParser Csv.IN_FIELD (rev cell) done
  end.

(** A place where the clocks go forward by an hour at the timestamp
    1711846800 (01:00 UTC on 31 March 2024, as in central Europe); it is
    five seconds before that. *)
Definition dst_world : world :=
  mkWorld
    (fun _ _ _ => Fails ConnectionFailed)
    (fun _ _ _ => Fails ConnectionFailed)
    (fun _ => 1711846795000000)
    (fun _ => 0%Q)
    (fun t => if t <? 1711846800 then 3600 else 7200)
    utc_timestamp_error.

(** Sample credentials.  A username with a capital of the range
    U+0080..U+00FF (E with acute accent, U+00C9); a password with
    characters of two, three and four bytes (a with diaeresis U+00E4,
    o with diaeresis U+00F6, the euro sign U+20AC and U+1F600); and a
    password whose message fills three blocks of SHA-256. *)
Definition accented_username : list Z :=
  0xC9 :: PyUnicode.points "CURIE@Example.com".

Definition accented_password : list Z :=
  PyUnicode.points "p" ++ [0xE4] ++ PyUnicode.points "ssw" ++ [0xF6]
  ++ PyUnicode.points "rd" ++ [0x20AC; 0x1F600].

Definition long_password : list Z :=
  PyUnicode.points "mot-de-passe-tr" ++ [0xE8] ++ PyUnicode.points "s-long-"
  ++ [0x20AC] ++ PyUnicode.points "-" ++ [0x1F600] ++ PyUnicode.points "-"
  ++ List.concat (List.repeat (PyUnicode.points "0123456789") 10).

(** The FIPS 180-4 sample message of 56 bytes, which takes two blocks. *)
Definition two_block_message : list Z :=
  PyUnicode.points "abcdbcdecdefdefgefghfghighijhijkijkljklmklmnlmnomnopnopq".

(** Closes a goal that asks for the error of a result that is no error. *)
Ltac no_error :=
  let H := fresh "H" in intros ? H; simpl in H; discriminate H.

(* ===================================================================== *)
(** ** Laws of the monad *)
(* ===================================================================== *)

Lemma bind_ok {St A B} (m : M St A) (k : A -> M St B) (s s' : St) (a : A) :
  m s = (Ok a, s') -> bind m k s = k a s'.
Proof. intros H. unfold bind. rewrite H. reflexivity. Qed.

(* ===================================================================== *)
(** ** Properties of the credential encoder *)
(* ===================================================================== *)

Lemma all_below_spec (n : nat) (f : Z -> bool) :
  all_below n f = true -> forall x, 0 <= x < Z.of_nat n -> f x = true.
Proof.
  induction n as [|n IH]; intros H x Hx; [lia|].
  cbn [all_below] in H. apply andb_prop in H. destruct H as [Hn Hrest].
  destruct (Z.eq_dec x (Z.of_nat n)) as [->|Hne]; [exact Hn|].
  apply IH; [exact Hrest|lia].
Qed.

Lemma Ok_inj {A} (a b : A) : Ok a = Ok b -> a = b.
Proof. intros H. injection H as ->. reflexivity. Qed.

(** A marker byte and the payload bits below it do not overlap. *)
Lemma lor_0x80 (x : Z) : 0 <= x < 64 -> Z.lor 0x80 x = 0x80 + x.
Proof.
  intros H. apply Z.eqb_eq.
  apply (all_below_spec 64 (fun x => Z.lor 0x80 x =? 0x80 + x));
    [vm_compute; reflexivity|exact H].
Qed.

Lemma lor_0xC0 (x : Z) : 0 <= x < 32 -> Z.lor 0xC0 x = 0xC0 + x.
Proof.
  intros H. apply Z.eqb_eq.
  apply (all_below_spec 32 (fun x => Z.lor 0xC0 x =? 0xC0 + x));
    [vm_compute; reflexivity|exact H].
Qed.

Lemma lor_0xE0 (x : Z) : 0 <= x < 16 -> Z.lor 0xE0 x = 0xE0 + x.
Proof.
  intros H. apply Z.eqb_eq.
  apply (all_below_spec 16 (fun x => Z.lor 0xE0 x =? 0xE0 + x));
    [vm_compute; reflexivity|exact H].
Qed.

Lemma lor_0xF0 (x : Z) : 0 <= x < 8 -> Z.lor 0xF0 x = 0xF0 + x.
Proof.
  intros H. apply Z.eqb_eq.
  apply (all_below_spec 8 (fun x => Z.lor 0xF0 x =? 0xF0 + x));
    [vm_compute; reflexivity|exact H].
Qed.

Lemma land_low (x : Z) (n : Z) : 0 <= n -> Z.land x (2 ^ n - 1) = x mod 2 ^ n.
Proof.
  intros Hn. rewrite <- Z.land_ones by exact Hn.
  rewrite Z.ones_equiv. reflexivity.
Qed.

Lemma continuation_value (x : Z) : PyUnicode.continuation x = 0x80 + x mod 64.
Proof.
  unfold PyUnicode.continuation.
  change (Z.land x 0x3F) with (Z.land x (2 ^ 6 - 1)).
  rewrite (land_low x 6) by lia. change (2 ^ 6) with 64.
  apply lor_0x80. apply Z.mod_pos_bound. lia.
Qed.

Lemma shiftr_6 (c : Z) : Z.shiftr c 6 = c / 64.
Proof. rewrite Z.shiftr_div_pow2 by lia. reflexivity. Qed.

Lemma shiftr_12 (c : Z) : Z.shiftr c 12 = c / 64 / 64.
Proof. rewrite Z.shiftr_div_pow2, Z.div_div by lia. reflexivity. Qed.

Lemma shiftr_18 (c : Z) : Z.shiftr c 18 = c / 64 / 64 / 64.
Proof. rewrite Z.shiftr_div_pow2, !Z.div_div by lia. reflexivity. Qed.

(** Settles the comparisons of a goal that linear arithmetic decides. *)
Ltac settle_tests :=
  repeat match goal with
  | |- context [?a <? ?b] =>
      first [ replace (a <? b) with true
                by (symmetry; apply Z.ltb_lt; Z.div_mod_to_equations; lia)
            | replace (a <? b) with false
                by (symmetry; apply Z.ltb_ge; Z.div_mod_to_equations; lia) ]
  | |- context [?a <=? ?b] =>
      first [ replace (a <=? b) with true
                by (symmetry; apply Z.leb_le; Z.div_mod_to_equations; lia)
            | replace (a <=? b) with false
                by (symmetry; apply Z.leb_gt; Z.div_mod_to_equations; lia) ]
  end.

(** The bytes of a code point are one to four bytes, and the decoder reads
    the code point back from them, whatever follows. *)
Lemma decode_utf8_point_encoded (c : Z) (e rest : list Z) :
  PyUnicode.is_code_point c = true ->
  PyUnicode.utf8_point c = Ok e ->
  Codec.decode_utf8_point (e ++ rest) = Some (c, rest)
  /\ (1 <= List.length e <= 4)%nat
  /\ Forall is_byte e.
Proof.
  unfold PyUnicode.is_code_point. intros Hc. apply andb_prop in Hc.
  destruct Hc as [H0 Hmax]. apply Z.leb_le in H0. apply Z.leb_le in Hmax.
  unfold PyUnicode.utf8_point.
  destruct (Z.ltb_spec c 0x80) as [H1|H1].
  { intros He. apply Ok_inj in He. subst e. split; [|split; [simpl; lia|]].
    - cbn [app]. unfold Codec.decode_utf8_point. settle_tests. reflexivity.
    - constructor; [unfold is_byte; lia|constructor]. }
  destruct (Z.ltb_spec c 0x800) as [H2|H2].
  { intros He. apply Ok_inj in He. subst e. rewrite shiftr_6, continuation_value.
    rewrite lor_0xC0 by (Z.div_mod_to_equations; lia).
    split; [|split; [simpl; lia|]].
    - cbn [app]. unfold Codec.decode_utf8_point, Codec.is_continuation. cbv zeta.
      settle_tests. cbn [andb]. f_equal. f_equal. Z.div_mod_to_equations. lia.
    - repeat constructor; unfold is_byte; Z.div_mod_to_equations; lia. }
  destruct (PyUnicode.is_surrogate c) eqn:Hsur; [discriminate|].
  assert (Hns : c < 0xD800 \/ 0xDFFF < c).
  { unfold PyUnicode.is_surrogate in Hsur. apply andb_false_iff in Hsur.
    destruct Hsur as [H|H]; [left; apply Z.leb_gt in H|right; apply Z.leb_gt in H]; lia. }
  destruct (Z.ltb_spec c 0x10000) as [H3|H3].
  { intros He. apply Ok_inj in He. subst e.
    rewrite shiftr_12, shiftr_6, !continuation_value.
    rewrite lor_0xE0 by (Z.div_mod_to_equations; lia).
    split; [|split; [simpl; lia|]].
    - cbn [app]. unfold Codec.decode_utf8_point, Codec.is_continuation. cbv zeta.
      match goal with
      | |- context [Some (?v, rest)] =>
          replace v with c by (Z.div_mod_to_equations; lia)
      end.
      rewrite Hsur. settle_tests. reflexivity.
    - repeat constructor; unfold is_byte; Z.div_mod_to_equations; lia. }
  intros He. apply Ok_inj in He. subst e.
  rewrite shiftr_18, shiftr_12, shiftr_6, !continuation_value.
  rewrite lor_0xF0 by (Z.div_mod_to_equations; lia).
  split; [|split; [simpl; lia|]].
  - cbn [app]. unfold Codec.decode_utf8_point, Codec.is_continuation. cbv zeta.
    match goal with
    | |- context [Some (?v, rest)] =>
        replace v with c by (Z.div_mod_to_equations; lia)
    end.
    settle_tests. reflexivity.
  - repeat constructor; unfold is_byte; Z.div_mod_to_equations; lia.
Qed.

Lemma utf8_point_raises (c : Z) (e : exn) :
  PyUnicode.utf8_point c = Raise e ->
  e = UnicodeEncodeError /\ PyUnicode.is_surrogate c = true.
Proof.
  unfold PyUnicode.utf8_point.
  destruct (c <? 0x80); [discriminate|].
  destruct (c <? 0x800); [discriminate|].
  destruct (PyUnicode.is_surrogate c).
  - intros H. injection H as <-. split; reflexivity.
  - destruct (c <? 0x10000); discriminate.
Qed.

Lemma utf8_point_surrogate (c : Z) :
  PyUnicode.is_surrogate c = true -> PyUnicode.utf8_point c = Raise UnicodeEncodeError.
Proof.
  intros H. unfold PyUnicode.utf8_point. rewrite H.
  unfold PyUnicode.is_surrogate in H. apply andb_prop in H. destruct H as [H _].
  apply Z.leb_le in H.
  replace (c <? 0x80) with false by (symmetry; apply Z.ltb_ge; lia).
  replace (c <? 0x800) with false by (symmetry; apply Z.ltb_ge; lia).
  reflexivity.
Qed.

(** The encoder raises exactly for the strings that hold a surrogate, and
    then [UnicodeEncodeError]. *)
Lemma encode_utf8_raises (s : list Z) :
  Exists (fun c => PyUnicode.is_surrogate c = true) s ->
  PyUnicode.encode_utf8 s = Raise UnicodeEncodeError.
Proof.
  induction s as [|c s IH]; intros H; [inversion H|].
  cbn [PyUnicode.encode_utf8].
  destruct (PyUnicode.utf8_point c) as [bs|e] eqn:Hc.
  - inversion H as [? ? Hsur|? ? Hrest]; subst.
    + rewrite (utf8_point_surrogate c Hsur) in Hc. discriminate Hc.
    + rewrite (IH Hrest). reflexivity.
  - destruct (utf8_point_raises c e Hc) as [-> _]. reflexivity.
Qed.

Lemma encode_utf8_returns (s : list Z) :
  Forall (fun c => PyUnicode.is_surrogate c = false) s ->
  exists bs, PyUnicode.encode_utf8 s = Ok bs.
Proof.
  induction 1 as [|c s Hc _ [bs IH]].
  - exists []. reflexivity.
  - cbn [PyUnicode.encode_utf8].
    destruct (PyUnicode.utf8_point c) as [e|x] eqn:He.
    + rewrite IH. eexists. reflexivity.
    + destruct (utf8_point_raises c x He) as [_ Hs]. congruence.
Qed.

Lemma decode_utf8_from_cons (fuel : nat) (b : Z) (t : list Z) :
  Codec.decode_utf8_from (S fuel) (b :: t)
  = match Codec.decode_utf8_point (b :: t) with
    | Some (c, rest) =>
        match Codec.decode_utf8_from fuel rest with
        | Some s => Some (c :: s)
        | None => None
        end
    | None => None
    end.
Proof. reflexivity. Qed.

(** The UTF-8 bytes of a string are bytes, and they decode to the string. *)
Lemma decode_utf8_encoded (s : list Z) :
  forall bs,
    Forall (fun c => PyUnicode.is_code_point c = true) s ->
    PyUnicode.encode_utf8 s = Ok bs ->
    Forall is_byte bs
    /\ (List.length s <= List.length bs <= 4 * List.length s)%nat
    /\ forall fuel, (List.length bs <= fuel)%nat ->
                    Codec.decode_utf8_from fuel bs = Some s.
Proof.
  induction s as [|c s IH]; intros bs Hs.
  - intros H. apply Ok_inj in H. subst bs.
    split; [constructor|]. split; [simpl; lia|]. intros [|fuel] _; reflexivity.
  - cbn [PyUnicode.encode_utf8].
    inversion Hs as [|? ? Hc Hs']; subst.
    destruct (PyUnicode.utf8_point c) as [e|x] eqn:He; [|discriminate].
    destruct (PyUnicode.encode_utf8 s) as [bs'|x] eqn:Hrest; [|discriminate].
    intros H. apply Ok_inj in H. subst bs.
    destruct (IH bs' Hs' eq_refl) as [Hbytes [Hlen Hdec]].
    destruct (decode_utf8_point_encoded c e bs' Hc He) as [Hpoint [Hsize He_bytes]].
    split; [apply Forall_app; split; assumption|].
    rewrite length_app. cbn [List.length]. split; [lia|].
    intros fuel Hfuel.
    destruct fuel as [|fuel]; [lia|].
    destruct e as [|b e]; [simpl in Hsize; lia|].
    change ((b :: e) ++ bs') with (b :: e ++ bs') in *.
    rewrite decode_utf8_from_cons, Hpoint.
    rewrite Hdec; [reflexivity|]. simpl in Hfuel. lia.
Qed.

Lemma decode_utf8_round_trip (s bs : list Z) :
  Forall (fun c => PyUnicode.is_code_point c = true) s ->
  PyUnicode.encode_utf8 s = Ok bs ->
  Codec.decode_utf8 bs = Some s.
Proof.
  intros Hs Hbs. unfold Codec.decode_utf8.
  apply (decode_utf8_encoded s bs Hs Hbs). apply Nat.le_refl.
Qed.

(* base64 *)

Lemma index_sextet (i : Z) :
  0 <= i < 64 ->
  Codec.index_of (Base64.sextet i) = Some i /\ (Base64.sextet i =? 61) = false.
Proof.
  intros Hi.
  pose (f := fun i => match Codec.index_of (Base64.sextet i) with
                      | Some j => (j =? i) && negb (Base64.sextet i =? 61)
                      | None => false
                      end).
  assert (H : f i = true).
  { apply (all_below_spec 64 f); [vm_compute; reflexivity|exact Hi]. }
  unfold f in H. destruct (Codec.index_of (Base64.sextet i)) as [j|]; [|discriminate H].
  apply andb_prop in H. destruct H as [Hj Hpad].
  apply Z.eqb_eq in Hj. subst j. split; [reflexivity|].
  apply negb_true_iff in Hpad. exact Hpad.
Qed.

Lemma lor_shiftl_4 (x y : Z) :
  0 <= x < 4 -> 0 <= y < 16 -> Z.lor (Z.shiftl x 4) y = 16 * x + y.
Proof.
  intros Hx Hy. apply Z.eqb_eq.
  apply (all_below_spec 16 (fun y => Z.lor (Z.shiftl x 4) y =? 16 * x + y)); [|exact Hy].
  apply (all_below_spec 4
           (fun x => all_below 16 (fun y => Z.lor (Z.shiftl x 4) y =? 16 * x + y)));
    [vm_compute; reflexivity|exact Hx].
Qed.

Lemma lor_shiftl_2 (x y : Z) :
  0 <= x < 16 -> 0 <= y < 4 -> Z.lor (Z.shiftl x 2) y = 4 * x + y.
Proof.
  intros Hx Hy. apply Z.eqb_eq.
  apply (all_below_spec 4 (fun y => Z.lor (Z.shiftl x 2) y =? 4 * x + y)); [|exact Hy].
  apply (all_below_spec 16
           (fun x => all_below 4 (fun y => Z.lor (Z.shiftl x 2) y =? 4 * x + y)));
    [vm_compute; reflexivity|exact Hx].
Qed.

(** The four sextets of a group, in arithmetic. *)
Lemma sextet_1 (b : Z) : Z.shiftr b 2 = b / 4.
Proof. rewrite Z.shiftr_div_pow2 by lia. reflexivity. Qed.

Lemma sextet_2 (b0 b1 : Z) :
  is_byte b1 ->
  Z.lor (Z.shiftl (Z.land b0 3) 4) (Z.shiftr b1 4) = 16 * (b0 mod 4) + b1 / 16.
Proof.
  intros H1. unfold is_byte in H1.
  change (Z.land b0 3) with (Z.land b0 (2 ^ 2 - 1)). rewrite land_low by lia.
  rewrite Z.shiftr_div_pow2 by lia. change (2 ^ 2) with 4. change (2 ^ 4) with 16.
  apply lor_shiftl_4; Z.div_mod_to_equations; lia.
Qed.

Lemma sextet_2_last (b0 : Z) : Z.shiftl (Z.land b0 3) 4 = 16 * (b0 mod 4).
Proof.
  change (Z.land b0 3) with (Z.land b0 (2 ^ 2 - 1)). rewrite land_low by lia.
  rewrite Z.shiftl_mul_pow2 by lia. change (2 ^ 2) with 4. change (2 ^ 4) with 16. lia.
Qed.

Lemma sextet_3 (b1 b2 : Z) :
  is_byte b2 ->
  Z.lor (Z.shiftl (Z.land b1 15) 2) (Z.shiftr b2 6) = 4 * (b1 mod 16) + b2 / 64.
Proof.
  intros H2. unfold is_byte in H2.
  change (Z.land b1 15) with (Z.land b1 (2 ^ 4 - 1)). rewrite land_low by lia.
  rewrite Z.shiftr_div_pow2 by lia. change (2 ^ 4) with 16. change (2 ^ 6) with 64.
  apply lor_shiftl_2; Z.div_mod_to_equations; lia.
Qed.

Lemma sextet_3_last (b1 : Z) : Z.shiftl (Z.land b1 15) 2 = 4 * (b1 mod 16).
Proof.
  change (Z.land b1 15) with (Z.land b1 (2 ^ 4 - 1)). rewrite land_low by lia.
  rewrite Z.shiftl_mul_pow2 by lia. change (2 ^ 4) with 16. change (2 ^ 2) with 4. lia.
Qed.

Lemma sextet_4 (b2 : Z) : Z.land b2 63 = b2 mod 64.
Proof.
  change (Z.land b2 63) with (Z.land b2 (2 ^ 6 - 1)). rewrite land_low by lia.
  reflexivity.
Qed.

Ltac sextet_range := unfold is_byte in *; Z.div_mod_to_equations; lia.

(** Base64 text decodes to the bytes it was made from. *)
Lemma b64decode_encoded (n : nat) :
  forall bs,
    (List.length bs <= n)%nat ->
    Forall is_byte bs ->
    Codec.b64decode (Base64.b64encode bs) = Some bs.
Proof.
  induction n as [|n IH]; intros bs Hlen Hbytes.
  - destruct bs; [reflexivity|simpl in Hlen; lia].
  - destruct bs as [|b0 [|b1 [|b2 bs]]].
    + reflexivity.
    + inversion Hbytes as [|? ? H0 _]; subst.
      cbn [Base64.b64encode]. rewrite sextet_1, sextet_2_last.
      cbn [Codec.b64decode].
      destruct (index_sextet (b0 / 4)) as [-> _]; [sextet_range|].
      destruct (index_sextet (16 * (b0 mod 4))) as [-> _]; [sextet_range|].
      change (61 =? 61) with true. cbv iota beta. cbn [andb].
      replace (16 * (b0 mod 4) mod 16 =? 0) with true
        by (symmetry; apply Z.eqb_eq; sextet_range).
      f_equal. f_equal. sextet_range.
    + inversion Hbytes as [|? ? H0 Hb]; subst.
      inversion Hb as [|? ? H1 _]; subst.
      cbn [Base64.b64encode]. rewrite sextet_1, sextet_2, sextet_3_last by exact H1.
      cbn [Codec.b64decode].
      destruct (index_sextet (b0 / 4)) as [-> _]; [sextet_range|].
      destruct (index_sextet (16 * (b0 mod 4) + b1 / 16)) as [-> _]; [sextet_range|].
      destruct (index_sextet (4 * (b1 mod 16))) as [-> ->]; [sextet_range|].
      change (61 =? 61) with true. cbv iota beta.
      replace (4 * (b1 mod 16) mod 4 =? 0) with true
        by (symmetry; apply Z.eqb_eq; sextet_range).
      f_equal. f_equal; [sextet_range|]. f_equal. sextet_range.
    + inversion Hbytes as [|? ? H0 Hb]; subst.
      inversion Hb as [|? ? H1 Hb']; subst.
      inversion Hb' as [|? ? H2 Hrest]; subst.
      cbn [Base64.b64encode].
      rewrite sextet_1, sextet_2, sextet_3, sextet_4 by assumption.
      cbn [Codec.b64decode].
      destruct (index_sextet (b0 / 4)) as [-> _]; [sextet_range|].
      destruct (index_sextet (16 * (b0 mod 4) + b1 / 16)) as [-> _]; [sextet_range|].
      destruct (index_sextet (4 * (b1 mod 16) + b2 / 64)) as [-> ->]; [sextet_range|].
      destruct (index_sextet (b2 mod 64)) as [-> ->]; [sextet_range|].
      rewrite IH; [|simpl in Hlen; lia|exact Hrest].
      f_equal. f_equal; [sextet_range|]. f_equal; [sextet_range|].
      f_equal. sextet_range.
Qed.

Lemma b64decode_round_trip (bs : list Z) :
  Forall is_byte bs -> Codec.b64decode (Base64.b64encode bs) = Some bs.
Proof. apply (b64decode_encoded (List.length bs)). apply Nat.le_refl. Qed.

Lemma be_bytes_length (n : nat) (x : Z) : List.length (SHA256.be_bytes n x) = n.
Proof.
  revert x; induction n as [|n IH]; intros x; simpl.
  - reflexivity.
  - rewrite length_app, IH; simpl; lia.
Qed.

Lemma be_bytes_range (n : nat) (x : Z) : Forall is_byte (SHA256.be_bytes n x).
Proof.
  revert x; induction n as [|n IH]; intros x; cbn [SHA256.be_bytes]; [constructor|].
  apply Forall_app. split; [apply IH|]. constructor; [|constructor].
  unfold is_byte. change (Z.land x 255) with (Z.land x (2 ^ 8 - 1)).
  rewrite land_low by lia. apply Z.mod_pos_bound. lia.
Qed.

(** The digest has 32 bytes, whatever the message. *)
Lemma digest_length (msg : list Z) : List.length (SHA256.digest msg) = 32%nat.
Proof.
  unfold SHA256.digest, SHA256.digest_of.
  repeat rewrite length_app. repeat rewrite be_bytes_length. reflexivity.
Qed.

Lemma digest_bytes (msg : list Z) : Forall is_byte (SHA256.digest msg).
Proof.
  unfold SHA256.digest, SHA256.digest_of.
  repeat match goal with
         | |- Forall _ (_ ++ _) => apply Forall_app; split
         end; apply be_bytes_range.
Qed.

Lemma sextet_ascii (i : Z) : 0 <= Base64.sextet i < 128.
Proof.
  unfold Base64.sextet.
  assert (H : forall n, match String.get n Base64.alphabet with
                        | Some c => 0 <= PyStr.ord c < 128
                        | None => True
                        end).
  { intros n. do 64 (destruct n as [|n]; [vm_compute; split; [discriminate|reflexivity]|]).
    exact I. }
  specialize (H (Z.to_nat i)).
  destruct (String.get (Z.to_nat i) Base64.alphabet); [exact H|lia].
Qed.

Lemma b64encode_ascii (n : nat) :
  forall bs, (List.length bs <= n)%nat ->
             Forall (fun b => 0 <= b < 128) (Base64.b64encode bs).
Proof.
  induction n as [|n IH]; intros bs Hlen.
  - destruct bs; [constructor|simpl in Hlen; lia].
  - destruct bs as [|b0 [|b1 [|b2 bs]]]; cbn [Base64.b64encode].
    + constructor.
    + repeat constructor; try apply sextet_ascii; lia.
    + repeat constructor; try apply sextet_ascii; lia.
    + repeat (constructor; [apply sextet_ascii|]).
      apply IH. simpl in Hlen. lia.
Qed.

Lemma decode_utf8_ascii (l : list Z) :
  Forall (fun b => 0 <= b < 128) l ->
  forall fuel, (List.length l <= fuel)%nat -> Codec.decode_utf8_from fuel l = Some l.
Proof.
  induction 1 as [|b l Hb _ IH]; intros fuel Hfuel.
  - destruct fuel; reflexivity.
  - destruct fuel as [|fuel]; [simpl in Hfuel; lia|].
    rewrite decode_utf8_from_cons. unfold Codec.decode_utf8_point.
    replace ((0 <=? b) && (b <? 0x80)) with true
      by (symmetry; apply andb_true_intro; split; [apply Z.leb_le|apply Z.ltb_lt]; lia).
    rewrite IH; [reflexivity|]. simpl in Hfuel. lia.
Qed.

Lemma ord_chr (b : Z) : is_byte b -> PyStr.ord (PyStr.chr b) = b.
Proof.
  intros Hb. unfold is_byte in Hb. unfold PyStr.ord, PyStr.chr.
  rewrite N_ascii_embedding by lia. lia.
Qed.

Lemma points_decode_ascii (l : list Z) :
  Forall is_byte l -> PyUnicode.points (PyStr.decode_ascii l) = l.
Proof.
  unfold PyUnicode.points.
  induction 1 as [|b l Hb _ IH]; [reflexivity|].
  cbn [PyStr.decode_ascii PyStr.chars map]. rewrite IH, (ord_chr b Hb). reflexivity.
Qed.

Lemma decode_ascii_length (bs : list Z) :
  String.length (PyStr.decode_ascii bs) = List.length bs.
Proof. induction bs as [|b bs IH]; simpl; congruence. Qed.

(** Base64 turns 32 bytes into 44 characters. *)
Lemma b64encode_32 (bs : list Z) :
  List.length bs = 32%nat -> List.length (Base64.b64encode bs) = 44%nat.
Proof.
  intros H.
  do 32 (destruct bs as [|? bs]; [discriminate H|]).
  destruct bs; [reflexivity | discriminate H].
Qed.

(** The sample messages of FIPS 180-4 and the empty message. *)
Lemma sha256_samples :
  SHA256.digest [97; 98; 99]
  = [0xba; 0x78; 0x16; 0xbf; 0x8f; 0x01; 0xcf; 0xea; 0x41; 0x41; 0x40; 0xde;
     0x5d; 0xae; 0x22; 0x23; 0xb0; 0x03; 0x61; 0xa3; 0x96; 0x17; 0x7a; 0x9c;
     0xb4; 0x10; 0xff; 0x61; 0xf2; 0x00; 0x15; 0xad]
  /\ SHA256.digest []
     = [0xe3; 0xb0; 0xc4; 0x42; 0x98; 0xfc; 0x1c; 0x14; 0x9a; 0xfb; 0xf4; 0xc8;
        0x99; 0x6f; 0xb9; 0x24; 0x27; 0xae; 0x41; 0xe4; 0x64; 0x9b; 0x93; 0x4c;
        0xa4; 0x95; 0x99; 0x1b; 0x78; 0x52; 0xb8; 0x55]
  /\ SHA256.digest two_block_message
     = [0x24; 0x8d; 0x6a; 0x61; 0xd2; 0x06; 0x38; 0xb8; 0xe5; 0xc0; 0x26; 0x93;
        0x0c; 0x3e; 0x60; 0x39; 0xa3; 0x3c; 0xe4; 0x59; 0x64; 0xff; 0x21; 0x67;
        0xf6; 0xec; 0xed; 0xd4; 0x19; 0xdb; 0x06; 0xc1].
Proof. repeat split; vm_compute; reflexivity. Qed.

(** The samples of RFC 3629 and RFC 4648 and the ends of the four ranges
    of UTF-8. *)
Lemma encoding_samples :
  PyUnicode.encode_utf8 [0x7F; 0x80; 0xE9; 0x7FF; 0x800; 0x20AC; 0xD7FF; 0xE000;
                         0xFFFF; 0x10000; 0x1F600; 0x10FFFF]
  = Ok [0x7F; 0xC2; 0x80; 0xC3; 0xA9; 0xDF; 0xBF; 0xE0; 0xA0; 0x80;
        0xE2; 0x82; 0xAC; 0xED; 0x9F; 0xBF; 0xEE; 0x80; 0x80; 0xEF; 0xBF; 0xBF;
        0xF0; 0x90; 0x80; 0x80; 0xF0; 0x9F; 0x98; 0x80; 0xF4; 0x8F; 0xBF; 0xBF]
  /\ PyStr.decode_ascii (Base64.b64encode (PyUnicode.points "f")) = "Zg=="
  /\ PyStr.decode_ascii (Base64.b64encode (PyUnicode.points "fo")) = "Zm8="
  /\ PyStr.decode_ascii (Base64.b64encode (PyUnicode.points "foo")) = "Zm9v"
  /\ PyStr.decode_ascii (Base64.b64encode (PyUnicode.points "foob")) = "Zm9vYg=="
  /\ PyStr.decode_ascii (Base64.b64encode [251; 255; 254]) = "+//+".
Proof. repeat split; vm_compute; reflexivity. Qed.

Lemma lower_latin1_swap (a : Z) :
  0 <= a < 256 ->
  PyUnicode.lower_latin1_point (PyUnicode.swap_case_latin1 a)
  = PyUnicode.lower_latin1_point a
  /\ 0 <= PyUnicode.swap_case_latin1 a < 256.
Proof.
  intros Ha.
  pose (f := fun a =>
               (PyUnicode.lower_latin1_point (PyUnicode.swap_case_latin1 a)
                =? PyUnicode.lower_latin1_point a)
               && (0 <=? PyUnicode.swap_case_latin1 a)
               && (PyUnicode.swap_case_latin1 a <? 256)).
  assert (H : f a = true).
  { apply (all_below_spec 256 f); [vm_compute; reflexivity|exact Ha]. }
  unfold f in H. apply andb_prop in H. destruct H as [H H3].
  apply andb_prop in H. destruct H as [H1 H2].
  apply Z.eqb_eq in H1. apply Z.leb_le in H2. apply Z.ltb_lt in H3.
  split; [exact H1|lia].
Qed.

(** Case variants have the same lowercase, and both are of the range
    U+0000..U+00FF. *)
Lemma case_variant_lower (u1 u2 : list Z) :
  PyUnicode.case_variant u1 u2 ->
  PyUnicode.lower_latin1 u1 = PyUnicode.lower_latin1 u2
  /\ Forall (fun c => 0 <= c < 256) u1
  /\ Forall (fun c => 0 <= c < 256) u2.
Proof.
  unfold PyUnicode.case_variant, PyUnicode.lower_latin1.
  induction 1 as [|a b u1 u2 [Ha Hb] _ [IH [IH1 IH2]]].
  - repeat split; constructor.
  - destruct (lower_latin1_swap a Ha) as [Hlow Hrange].
    cbn [map]. rewrite IH.
    destruct Hb as [->| ->].
    + repeat split; constructor; assumption.
    + rewrite Hlow. repeat split; constructor; assumption.
Qed.

(** [str.lower] on the strings of [PyStr] is [lower_latin1] on their code
    points. *)
Lemma points_lower (s : string) :
  PyUnicode.points (PyStr.lower s) = PyUnicode.lower_latin1 (PyUnicode.points s).
Proof.
  unfold PyUnicode.points, PyUnicode.lower_latin1.
  induction s as [|c s IH]; [reflexivity|].
  cbn [PyStr.lower PyStr.chars map]. rewrite IH. f_equal.
  destruct c as [[] [] [] [] [] [] [] []]; reflexivity.
Qed.

Lemma points_latin1 (s : string) : Forall (fun c => 0 <= c < 256) (PyUnicode.points s).
Proof.
  unfold PyUnicode.points. induction s as [|c s IH]; [constructor|].
  cbn [PyStr.chars map]. constructor; [|exact IH].
  unfold PyStr.ord. pose proof (N_ascii_bounded c). lia.
Qed.

Section CredentialEncoder.

Variable str_lower : list Z -> list Z.

(** On strings of the range U+0000..U+00FF, [str.lower] is the lowercase
    of each code point. *)
Hypothesis lower_latin1 :
  forall s, Forall (fun c => 0 <= c < 256) s -> str_lower s = PyUnicode.lower_latin1 s.

Lemma encode_password_latin1 (username password : list Z) :
  Forall (fun c => 0 <= c < 256) username ->
  _encode_password str_lower username password
  = _encode_password PyUnicode.lower_latin1 username password.
Proof.
  intros H. unfold _encode_password. rewrite (lower_latin1 username H). reflexivity.
Qed.

(** What the encoder returns, with what its parts stand for. *)
Lemma encode_password_returns (username password : list Z) :
  let text := password ++ str_lower username in
  Forall (fun c => PyUnicode.is_code_point c = true) text ->
  Forall (fun c => PyUnicode.is_surrogate c = false) text ->
  exists message out,
    PyUnicode.encode_utf8 text = Ok message
    /\ Forall is_byte message
    /\ Codec.decode_utf8 message = Some text
    /\ _encode_password str_lower username password = Ok out
    /\ out = PyStr.decode_ascii (Base64.b64encode (SHA256.digest message))
    /\ List.length (SHA256.digest message) = 32%nat
    /\ Forall is_byte (SHA256.digest message)
    /\ String.length out = 44%nat
    /\ Codec.decode_utf8 (Base64.b64encode (SHA256.digest message))
       = Some (PyUnicode.points out)
    /\ Codec.b64decode (PyUnicode.points out) = Some (SHA256.digest message).
Proof.
  intros text Hpoints Hscalar.
  destruct (encode_utf8_returns text Hscalar) as [message Hmessage].
  destruct (decode_utf8_encoded text message Hpoints Hmessage) as [Hbytes [_ Hback]].
  pose proof (b64encode_ascii _ (SHA256.digest message) (Nat.le_refl _)) as Hascii.
  assert (Hcodes : Forall is_byte (Base64.b64encode (SHA256.digest message))).
  { eapply Forall_impl; [|exact Hascii]. unfold is_byte. intros b Hb. lia. }
  exists message, (PyStr.decode_ascii (Base64.b64encode (SHA256.digest message))).
  split; [exact Hmessage|]. split; [exact Hbytes|].
  split; [apply Hback, Nat.le_refl|].
  split; [unfold _encode_password; fold text; rewrite Hmessage; reflexivity|].
  split; [reflexivity|]. split; [apply digest_length|]. split; [apply digest_bytes|].
  split; [rewrite decode_ascii_length; apply b64encode_32, digest_length|].
  rewrite (points_decode_ascii _ Hcodes).
  split; [apply (decode_utf8_ascii _ Hascii), Nat.le_refl|].
  apply b64decode_round_trip, digest_bytes.
Qed.

(** C7, amended.  For a username and a password (strings of code points)
    the credential encoder raises [UnicodeEncodeError] when the password or
    the lowercased username holds a surrogate; otherwise it returns the
    base64 text of the SHA-256 digest of the UTF-8 bytes of the password
    followed by the lowercased username.  The bytes decode to that string
    (RFC 3629), the digest has 32 bytes, the text has 44 ASCII characters
    and decodes to the digest (RFC 4648).  The result is a function of the
    two strings alone: equal inputs give equal outputs.  For [hashlib] and
    the encoder, values of the Python implementation come out: the sample
    digests of FIPS 180-4; a capital outside ASCII in the username and
    characters of two, three and four bytes in the password; a message of
    three blocks; the password is not lowercased, and it comes first. *)
Theorem encode_password_derivation (username password : list Z) :
  let text := password ++ str_lower username in
  Forall (fun c => PyUnicode.is_code_point c = true) text ->
  (Exists (fun c => PyUnicode.is_surrogate c = true) text ->
   _encode_password str_lower username password = Raise UnicodeEncodeError)
  /\ (Forall (fun c => PyUnicode.is_surrogate c = false) text ->
      exists message out,
        PyUnicode.encode_utf8 text = Ok message
        /\ Forall is_byte message
        /\ Codec.decode_utf8 message = Some text
        /\ _encode_password str_lower username password = Ok out
        /\ out = PyStr.decode_ascii (Base64.b64encode (SHA256.digest message))
        /\ List.length (SHA256.digest message) = 32%nat
        /\ Forall is_byte (SHA256.digest message)
        /\ String.length out = 44%nat
        /\ Codec.decode_utf8 (Base64.b64encode (SHA256.digest message))
           = Some (PyUnicode.points out)
        /\ Codec.b64decode (PyUnicode.points out) = Some (SHA256.digest message))
  /\ (forall username' password',
         username' = username -> password' = password ->
         _encode_password str_lower username' password'
         = _encode_password str_lower username password)
  /\ SHA256.digest (PyUnicode.points "abc")
     = [0xba; 0x78; 0x16; 0xbf; 0x8f; 0x01; 0xcf; 0xea; 0x41; 0x41; 0x40; 0xde;
        0x5d; 0xae; 0x22; 0x23; 0xb0; 0x03; 0x61; 0xa3; 0x96; 0x17; 0x7a; 0x9c;
        0xb4; 0x10; 0xff; 0x61; 0xf2; 0x00; 0x15; 0xad]
  /\ SHA256.digest two_block_message
     = [0x24; 0x8d; 0x6a; 0x61; 0xd2; 0x06; 0x38; 0xb8; 0xe5; 0xc0; 0x26; 0x93;
        0x0c; 0x3e; 0x60; 0x39; 0xa3; 0x3c; 0xe4; 0x59; 0x64; 0xff; 0x21; 0x67;
        0xf6; 0xec; 0xed; 0xd4; 0x19; 0xdb; 0x06; 0xc1]
  /\ _encode_password str_lower [] (PyUnicode.points "abc")
     = Ok "ungWv48Bz+pBQUDeXa4iI7ADYaOWF3qctBD/YfIAFa0="
  /\ _encode_password str_lower accented_username accented_password
     = Ok "H84GYZ9oC5C6j59SWjUBXQANBNHWo2D89rDVmIBXrQE="
  /\ _encode_password str_lower (PyUnicode.points "Driver@Example.COM") long_password
     = Ok "kdT7jpD8Ck2o5tcDGlTCLONlbH4bnV/zUWZo0Ts/k5c="
  /\ _encode_password str_lower (PyUnicode.points "driver@example.com")
       (PyUnicode.points "secret")
     = Ok "IByY2FNbqEmYC/8WthbE/GyvM/9ZXrHhpEPKQ0+I0B4="
  /\ _encode_password str_lower (PyUnicode.points "driver@example.com")
       (PyUnicode.points "Secret")
     = Ok "QwZn8j8l2jMKMAnEubcaNXvYVmaKnIk2+HIAOq8CId4="
  /\ _encode_password str_lower (PyUnicode.points "secret")
       (PyUnicode.points "driver@example.com")
     = Ok "PT5qf3uJaf8CEu2WZ9pqzktlOy+ADq5R9xsxHkV/xPk=".
Proof.
  intros text Hpoints.
  split; [intros Hsur; unfold _encode_password; fold text;
          rewrite (encode_utf8_raises text Hsur); reflexivity|].
  split; [apply encode_password_returns; exact Hpoints|].
  split; [intros u' p' -> ->; reflexivity|].
  split; [apply sha256_samples|]. split; [apply sha256_samples|].
  assert (Haccented : Forall (fun c => 0 <= c < 256) accented_username).
  { constructor; [lia|apply points_latin1]. }
  rewrite !encode_password_latin1
    by first [exact Haccented | apply points_latin1 | constructor].
  repeat split; vm_compute; reflexivity.
Qed.

(** C8, amended.  Two usernames with the same lowercase give the same
    output for every password; so do two usernames of the range
    U+0000..U+00FF that differ at most in the case of letters which have
    both cases in that range (A-Z and the capitals U+00C0..U+00DE without
    the multiplication sign).  Not every change of case keeps the output:
    the sharp s (U+00DF) and its uppercase SS give different outputs, SS
    and ss the same. *)
Theorem encode_password_ignores_username_case (u1 u2 password : list Z) :
  (str_lower u1 = str_lower u2 ->
   _encode_password str_lower u1 password = _encode_password str_lower u2 password)
  /\ (PyUnicode.case_variant u1 u2 ->
      _encode_password str_lower u1 password = _encode_password str_lower u2 password)
  /\ _encode_password str_lower [0xDF] (PyUnicode.points "x")
     = Ok "jhdKAaTIjs5L5laRCyg8rae/Ihn3RaGEBVZ05mKFwuY="
  /\ _encode_password str_lower (PyUnicode.points "SS") (PyUnicode.points "x")
     = Ok "WOBBMiSva201Bd0YGdAkkcNFiN56TcaprUio9+COL3s="
  /\ _encode_password str_lower (PyUnicode.points "ss") (PyUnicode.points "x")
     = Ok "WOBBMiSva201Bd0YGdAkkcNFiN56TcaprUio9+COL3s=".
Proof.
  split; [intros H; unfold _encode_password; rewrite H; reflexivity|].
  split.
  { intros Hvariant.
    destruct (case_variant_lower u1 u2 Hvariant) as [Hlow [H1 H2]].
    unfold _encode_password.
    rewrite (lower_latin1 u1 H1), (lower_latin1 u2 H2), Hlow. reflexivity. }
  rewrite !encode_password_latin1
    by first [apply points_latin1 | repeat constructor; lia].
  repeat split; vm_compute; reflexivity.
Qed.

End CredentialEncoder.

(** C7, as the claim has it, fails: not every username and password has
    UTF-8 bytes.  A Python string may hold a surrogate, as the password
    [chr(0xD800)] does, and then [encode] raises [UnicodeEncodeError]
    instead of the encoder returning a text. *)
Lemma encode_password_surrogate_counterexample :
  Forall (fun c => PyUnicode.is_code_point c = true) [0xD800]
  /\ _encode_password PyUnicode.lower_latin1 (PyUnicode.points "driver@example.com")
       [0xD800]
     = Raise UnicodeEncodeError
  /\ _encode_password PyUnicode.lower_latin1 [0xD800] (PyUnicode.points "secret")
     = Raise UnicodeEncodeError.
Proof. split; [repeat constructor|]. split; vm_compute; reflexivity. Qed.

Lemma encode_password_derivation_witness :
  _encode_password PyUnicode.lower_latin1 accented_username accented_password
  = Ok "H84GYZ9oC5C6j59SWjUBXQANBNHWo2D89rDVmIBXrQE="
  /\ Codec.b64decode (PyUnicode.points "H84GYZ9oC5C6j59SWjUBXQANBNHWo2D89rDVmIBXrQE=")
     = Some (SHA256.digest
               [112; 0xC3; 0xA4; 115; 115; 119; 0xC3; 0xB6; 114; 100;
                0xE2; 0x82; 0xAC; 0xF0; 0x9F; 0x98; 0x80;
                0xC3; 0xA9; 99; 117; 114; 105; 101; 64; 101; 120; 97; 109; 112; 108;
                101; 46; 99; 111; 109]).
Proof.
  assert (Hpoints : Forall (fun c => PyUnicode.is_code_point c = true)
                           (accented_password
                            ++ PyUnicode.lower_latin1 accented_username)).
  { apply Forall_forall. intros c Hc. vm_compute in Hc.
    repeat (destruct Hc as [<-|Hc]; [reflexivity|]). destruct Hc. }
  destruct (encode_password_derivation PyUnicode.lower_latin1 (fun s _ => eq_refl)
              accented_username accented_password Hpoints)
    as [_ [Hreturns [_ [_ [_ [_ [Haccented _]]]]]]].
  split; [exact Haccented|].
  destruct Hreturns as [message [out [Hmessage [_ [_ [Hout [_ [_ [_ [_ [_ Hback]]]]]]]]]]].
  { apply Forall_forall. intros c Hc. vm_compute in Hc.
    repeat (destruct Hc as [<-|Hc]; [reflexivity|]). destruct Hc. }
  rewrite Haccented in Hout. apply Ok_inj in Hout. subst out.
  vm_compute in Hmessage. apply Ok_inj in Hmessage. subst message.
  exact Hback.
Defined.

(** C8, as the claim has it, fails: two usernames that differ in letter
    case only give the same secret. *)
Lemma encode_password_case_counterexample :
  PyUnicode.points "Driver@Example.COM" <> PyUnicode.points "driver@example.com"
  /\ _encode_password PyUnicode.lower_latin1 (PyUnicode.points "Driver@Example.COM")
       (PyUnicode.points "secret")
     = Ok "IByY2FNbqEmYC/8WthbE/GyvM/9ZXrHhpEPKQ0+I0B4="
  /\ _encode_password PyUnicode.lower_latin1 (PyUnicode.points "driver@example.com")
       (PyUnicode.points "secret")
     = Ok "IByY2FNbqEmYC/8WthbE/GyvM/9ZXrHhpEPKQ0+I0B4=".
Proof. split; [discriminate|]. split; vm_compute; reflexivity. Qed.

Lemma encode_password_ignores_username_case_witness :
  _encode_password PyUnicode.lower_latin1 (0xC9 :: PyUnicode.points "Curie@Example.COM")
    accented_password
  = Ok "H84GYZ9oC5C6j59SWjUBXQANBNHWo2D89rDVmIBXrQE="
  /\ _encode_password PyUnicode.lower_latin1 [0xDF] (PyUnicode.points "x")
     <> _encode_password PyUnicode.lower_latin1 (PyUnicode.points "SS")
          (PyUnicode.points "x").
Proof.
  destruct (encode_password_ignores_username_case PyUnicode.lower_latin1
              (fun s _ => eq_refl)
              (0xC9 :: PyUnicode.points "Curie@Example.COM")
              (0xE9 :: PyUnicode.points "curie@example.com") accented_password)
    as [_ [Hvariant [Hsharp [Hupper _]]]].
  split.
  - rewrite Hvariant; [vm_compute; reflexivity|].
    unfold PyUnicode.case_variant, PyUnicode.points. cbn [PyStr.chars map].
    repeat (apply Forall2_cons;
            [split; [split; [apply Z.leb_le|apply Z.ltb_lt]; reflexivity
                    |first [left; reflexivity|right; reflexivity]]|]).
    apply Forall2_nil.
  - rewrite Hsharp, Hupper. discriminate.
Defined.

(* ===================================================================== *)
(** ** Properties of the backoff calculator *)
(* ===================================================================== *)




Lemma truthy_str_some (str : string) :
  str <> "" -> Py.truthy_str (Some str) = true.
Proof.
  intros H. simpl. destruct (String.eqb_spec str ""); [contradiction|reflexivity].
Qed.

(** The local wall clock at the present time, in microseconds. *)
Lemma datetime_now_value (W : world) (s : state) :
  datetime_now W s
  = (Ok (clock W (history s)
         + utc_offset W (clock W (history s) / 1000000) * 1000000),
     record (EvNow (clock W (history s))) s).
Proof. reflexivity. Qed.

(** The value of the reset-hint path. *)
Lemma calculate_backoff_hint (W : world) (attempt : nat) (str : string) (t : Z) (s : state) :
  str <> "" -> Py.int_of_str str = Ok t ->
  timestamp_error W t = None ->
  _calculate_backoff W attempt (Some str) s
  = (Ok (Py.max (inject_Z (local_time W t
                           - (clock W (history s)
                              + utc_offset W (clock W (history s) / 1000000) * 1000000)
                           + 500000) / 1000000) 1),
     record (EvNow (clock W (history s))) s).
Proof.
  intros Hne Hint Hok. unfold _calculate_backoff.
  rewrite (truthy_str_some str Hne).
  unfold bind, lift_result, datetime_fromtimestamp. rewrite Hint, Hok. reflexivity.
Qed.

(** A reset hint that raises. *)
Lemma calculate_backoff_reset_error (W : world) (attempt : nat) (reset : option string)
      (e : exn) (s : state) :
  reset_error W reset = Some e ->
  _calculate_backoff W attempt reset s = (Raise e, s).
Proof.
  unfold reset_error, _calculate_backoff.
  destruct reset as [str|]; [|discriminate]. simpl.
  destruct (String.eqb str ""); [discriminate|]. simpl.
  unfold bind, lift_result, datetime_fromtimestamp.
  destruct (Py.int_of_str str) as [t|e'].
  - destruct (timestamp_error W t) as [f|]; [|discriminate].
    intros H. injection H as <-. reflexivity.
  - intros H. injection H as <-. reflexivity.
Qed.

(** The value of the exponential path. *)
Lemma calculate_backoff_fallback (W : world) (attempt : nat) (reset : option string) (s : state) :
  Py.truthy_str reset = false ->
  (attempt < float_overflow_attempt)%nat ->
  _calculate_backoff W attempt reset s
  = (Ok (Py.min (inject_Z (2 ^ Z.of_nat attempt) + uniform01 W (history s)) 60),
     record (EvUniform (uniform01 W (history s))) s).
Proof.
  intros H Hsmall. unfold _calculate_backoff.
  assert (E : (float_overflow_attempt <=? attempt)%nat = false)
    by (apply Nat.leb_gt; exact Hsmall).
  destruct reset as [str|]; [rewrite H|]; unfold bind, random_uniform01; rewrite E;
    reflexivity.
Qed.

(** The exponential path from the attempt on whose power of two is no
    float. *)
Lemma calculate_backoff_overflow (W : world) (attempt : nat) (reset : option string)
      (s : state) :
  Py.truthy_str reset = false ->
  (float_overflow_attempt <= attempt)%nat ->
  _calculate_backoff W attempt reset s
  = (Raise OverflowError, record (EvUniform (uniform01 W (history s))) s).
Proof.
  intros H Hbig. unfold _calculate_backoff.
  assert (E : (float_overflow_attempt <=? attempt)%nat = true)
    by (apply Nat.leb_le; exact Hbig).
  destruct reset as [str|]; [rewrite H|]; unfold bind, random_uniform01; rewrite E;
    reflexivity.
Qed.

Lemma reset_error_passes (W : world) (reset : option string) (e : exn) :
  reset_error W reset = Some e ->
  is_network_error e = false /\ is_repeated_401 e = false.
Proof.
  unfold reset_error. destruct reset as [str|]; [|discriminate].
  destruct (String.eqb str ""); [discriminate|].
  destruct (Py.int_of_str str) as [t|e'] eqn:Hint.
  - destruct (timestamp_error W t) as [[]|]; simpl; intros H;
      try discriminate H; injection H as <-; split; reflexivity.
  - assert (He : e' = ValueError).
    { unfold Py.int_of_str in Hint. cbv zeta in Hint.
      destruct (match Py.strip (PyStr.chars str) with [] => _ | _ => _ end).
      - destruct (Py.int_max_str_digits <? _); [|discriminate Hint].
        injection Hint as <-. reflexivity.
      - injection Hint as <-. reflexivity. }
    subst e'. intros H. injection H as <-. split; reflexivity.
Qed.

Lemma reset_error_truthy (W : world) (reset : option string) (e : exn) :
  reset_error W reset = Some e -> Py.truthy_str reset = true.
Proof.
  unfold reset_error. destruct reset as [str|]; [|discriminate]. simpl.
  destruct (String.eqb str ""); [discriminate|reflexivity].
Qed.

(** What the calculator does, by its arguments. *)
Lemma calculate_backoff_cases (W : world) (attempt : nat) (reset : option string)
      (s : state) :
  let u := uniform01 W (history s) in
  match reset_error W reset with
  | Some e => _calculate_backoff W attempt reset s = (Raise e, s)
  | None =>
      if Py.truthy_str reset
      then exists wait_time,
             _calculate_backoff W attempt reset s
             = (Ok wait_time, record (EvNow (clock W (history s))) s)
      else if (float_overflow_attempt <=? attempt)%nat
           then _calculate_backoff W attempt reset s
                = (Raise OverflowError, record (EvUniform u) s)
           else _calculate_backoff W attempt reset s
                = (Ok (Py.min (inject_Z (2 ^ Z.of_nat attempt) + u) 60),
                   record (EvUniform u) s)
  end.
Proof.
  intros u. destruct (reset_error W reset) as [e|] eqn:Herr.
  - apply calculate_backoff_reset_error. exact Herr.
  - destruct (Py.truthy_str reset) eqn:Htruthy.
    + destruct reset as [str|]; [|discriminate Htruthy].
      assert (Hne : str <> "") by (intros ->; discriminate Htruthy).
      unfold reset_error in Herr.
      destruct (String.eqb_spec str ""); [contradiction|].
      destruct (Py.int_of_str str) as [t|e'] eqn:Hint; [|discriminate Herr].
      destruct (timestamp_error W t) as [f|] eqn:Hok; [discriminate Herr|].
      eexists. apply (calculate_backoff_hint W attempt str t s Hne Hint Hok).
    + destruct (float_overflow_attempt <=? attempt)%nat eqn:E.
      * apply calculate_backoff_overflow; [exact Htruthy|apply Nat.leb_le; exact E].
      * apply calculate_backoff_fallback; [exact Htruthy|apply Nat.leb_gt; exact E].
Qed.




(* ===================================================================== *)
(** ** Properties of the chunk aggregator *)
(* ===================================================================== *)

Lemma requested_cons_get (u : string) (p : option value) (o : outcome) (h : list event) :
  requested (EvGet u p o :: h) = requested h ++ [u].
Proof.
  unfold requested. simpl. rewrite flat_map_app. simpl. reflexivity.
Qed.

Section Chunks.

Variable W : world.

Lemma chunk_urls (b : string) (names : list string) (s : state) :
  comprehension (fun x => lift_result (Py.add (VStr b) x)) (map VStr names) s
  = (Ok (map (fun x => VStr (b ++ x)%string) names), s).
Proof.
  induction names as [|x names IH]; simpl.
  - reflexivity.
  - erewrite bind_ok; [|reflexivity].
    erewrite bind_ok; [|exact IH]. reflexivity.
Qed.

Lemma chunk_fetch (b : string) (names : list string) :
  forall (contents : list (list value)) (s : state),
    serves W (history s) b names contents ->
    exists s',
      comprehension (fun url => r <- session_get W url None ;; response_json r)
                    (map (fun x => VStr (b ++ x)%string) names) s
      = (Ok (map VList contents), s')
      /\ requested (history s') = requested (history s) ++ map (String.append b) names
      /\ authenticated s' = authenticated s.
Proof.
  induction names as [|x names IH]; intros contents s Hs.
  - destruct contents; [|contradiction]. exists s. simpl.
    rewrite app_nil_r. auto.
  - destruct contents as [|c contents]; [contradiction|].
    destruct Hs as [r [Hget [Hjson Hrest]]].
    specialize (IH contents (record (EvGet (b ++ x)%string None (Responds r)) s) Hrest).
    destruct IH as [s' [Hrun [Hreq Hauth]]].
    exists s'. split; [|split].
    + simpl.
      erewrite bind_ok; cycle 1.
      { erewrite bind_ok; cycle 1.
        { unfold session_get. rewrite Hget. reflexivity. }
        unfold response_json. rewrite Hjson. reflexivity. }
      erewrite bind_ok; [|exact Hrun]. reflexivity.
    + rewrite Hreq. simpl. rewrite requested_cons_get, <- app_assoc. reflexivity.
    + rewrite Hauth. reflexivity.
Qed.

Lemma chunk_flatten (contents : list (list value)) (s : state) :
  comprehension (fun sublist => lift_result (Py.iterate sublist)) (map VList contents) s
  = (Ok contents, s).
Proof.
  induction contents as [|c contents IH]; simpl.
  - reflexivity.
  - erewrite bind_ok; [|reflexivity].
    erewrite bind_ok; [|exact IH]. reflexivity.
Qed.

(** C2. For a manifest with base URL [b] and file names [names], in a
    world that answers the chunk requests with JSON arrays, the aggregator
    fetches [b ++ x] for each name in manifest order and returns the
    concatenation of the arrays in that order. *)
Theorem get_chunks_manifest_order (d : list (string * value)) (b : string)
        (names : list string) (contents : list (list value)) (s : state) :
  Py.assoc "base_download_url" d = Some (VStr b) ->
  Py.assoc "chunk_file_names" d = Some (VList (map VStr names)) ->
  serves W (history s) b names contents ->
  exists s',
    _get_chunks W (VDict d) s = (Ok (List.concat contents), s')
    /\ requested (history s') = requested (history s) ++ map (String.append b) names
    /\ authenticated s' = authenticated s.
Proof.
  intros Hb Hn Hs.
  destruct (chunk_fetch b names contents s Hs) as [s' [Hrun [Hreq Hauth]]].
  exists s'. split; [|split; assumption].
  unfold _get_chunks. simpl.
  erewrite bind_ok; [|unfold lift_result; rewrite Hb; reflexivity].
  erewrite bind_ok; [|unfold lift_result; rewrite Hn; reflexivity].
  erewrite bind_ok; [|reflexivity].
  erewrite bind_ok; [|apply chunk_urls].
  erewrite bind_ok; [|exact Hrun].
  erewrite bind_ok; [|apply chunk_flatten].
  reflexivity.
Qed.

(** C3, amended. An input that is not a dict gives the empty list: the call
    returns, raises nothing and sends no request. *)
Theorem get_chunks_not_a_dict (chunks : value) (s : state) :
  Py.is_dict chunks = false ->
  _get_chunks W chunks s = (Ok [], s).
Proof.
  intros H. unfold _get_chunks. rewrite H. reflexivity.
Qed.

End Chunks.

Lemma get_chunks_manifest_order_witness :
  exists s',
    _get_chunks chunk_world (VDict sample_manifest) fresh_client
    = (Ok [VInt 1; VInt 2; VInt 3], s')
    /\ requested (history s') = ["http://x/a.json"; "http://x/b.json"].
Proof.
  destruct (get_chunks_manifest_order chunk_world sample_manifest "http://x/"
              ["a.json"; "b.json"] [[VInt 1; VInt 2]; [VInt 3]] fresh_client)
    as [s' [Hrun [Hreq _]]].
  - reflexivity.
  - reflexivity.
  - simpl. eexists. split; [reflexivity|]. split; [reflexivity|].
    eexists. split; [reflexivity|]. split; [reflexivity|]. exact I.
  - exists s'. split; assumption.
Defined.

(** C3, as the claim has it, fails: a dict without the two keys, and a dict
    that has file names but no base URL, are not well-formed manifests, and
    the aggregator raises [TypeError] on them. *)
Lemma get_chunks_malformed_dict_counterexample :
  well_formed_manifest (VDict []) = false
  /\ fst (_get_chunks chunk_world (VDict []) fresh_client) = Raise TypeError
  /\ well_formed_manifest (VDict [("chunk_file_names", VList [VStr "a.json"])]) = false
  /\ fst (_get_chunks chunk_world (VDict [("chunk_file_names", VList [VStr "a.json"])])
                      fresh_client) = Raise TypeError.
Proof. repeat split. Qed.

Lemma get_chunks_not_a_dict_witness :
  Py.is_dict VNone = false
  /\ _get_chunks chunk_world VNone fresh_client = (Ok [], fresh_client).
Proof.
  split; [reflexivity|].
  apply (get_chunks_not_a_dict chunk_world VNone fresh_client). reflexivity.
Defined.

(* ===================================================================== *)
(** ** Properties of the resource resolver *)
(* ===================================================================== *)

(** C4, as the claim has it, fails: the body [null] has no field named
    link, and is not classified as inline data; the membership test raises
    [TypeError].  A string body that contains the text link is taken to
    have the field, and the lookup raises [AttributeError]. *)
Lemma resource_or_link_scalar_counterexample :
  fst (_get_resource_or_link (scripted [reply 200 (Some VNone)] [] 0 0)
         "https://members-ng.iracing.com/data/car/get" None 3 logged_in_client)
  = Raise TypeError
  /\ fst (_get_resource_or_link (scripted [reply 200 (Some (VStr "no link here"))] [] 0 0)
            "https://members-ng.iracing.com/data/car/get" None 3 logged_in_client)
     = Raise AttributeError.
Proof. split; vm_compute; reflexivity. Qed.

(** C4, amended. When the request succeeds with a body that decodes to a
    dict or a list, the result is the value under the key link with the flag
    set exactly when the body is a dict that has the key, and the body
    itself with the flag clear otherwise (every list included). *)
Theorem get_resource_or_link_classifies (W : world) (url : string)
        (payload : option value) (retries : Z) (s s' : state) (r : response)
        (data : value) :
  _robust_get W url payload retries true "_get_resource_or_link" s = (Ok r, s') ->
  json r = Some data ->
  Py.is_dict data || Py.is_list data = true ->
  _get_resource_or_link W url payload retries s = (Ok (link_or_inline data), s')
  /\ (snd (link_or_inline data) = true <->
      exists d, data = VDict d /\ Py.has_key "link" d = true)
  /\ (Py.is_list data = true -> link_or_inline data = (data, false)).
Proof.
  intros Hget Hjson Hshape.
  split; [|split].
  - unfold _get_resource_or_link.
    erewrite bind_ok; [|exact Hget].
    erewrite bind_ok; [|unfold response_json; rewrite Hjson; reflexivity].
    destruct data; try discriminate Hshape; simpl.
    + reflexivity.
    + unfold bind, lift_result, Py.contains, Py.has_key, Py.get.
      destruct (Py.assoc "link" d); reflexivity.
  - split.
    + intros Hflag. destruct data; try discriminate Hflag.
      exists d. split; [reflexivity|].
      unfold Py.has_key. simpl in Hflag.
      destruct (Py.assoc "link" d); [reflexivity|discriminate Hflag].
    + intros [d [-> Hkey]]. unfold Py.has_key in Hkey. simpl.
      destruct (Py.assoc "link" d); [reflexivity|discriminate Hkey].
  - intros Hlist. destruct data; try discriminate Hlist. reflexivity.
Qed.

Lemma get_resource_or_link_classifies_witness :
  _get_resource_or_link
    (scripted [reply 200 (Some (VDict [("link", VStr "https://x")]))] [] 0 0)
    "https://members-ng.iracing.com/data/car/get" None 3 logged_in_client
  = (Ok (VStr "https://x", true),
     record (EvGet "https://members-ng.iracing.com/data/car/get" None
                   (reply 200 (Some (VDict [("link", VStr "https://x")]))))
            logged_in_client).
Proof.
  apply (get_resource_or_link_classifies
           (scripted [reply 200 (Some (VDict [("link", VStr "https://x")]))] [] 0 0)
           "https://members-ng.iracing.com/data/car/get" None 3 logged_in_client
           _ (mkResponse 200 [] (Some (VDict [("link", VStr "https://x")])) "")
           (VDict [("link", VStr "https://x")])).
  - vm_compute. reflexivity.
  - reflexivity.
  - reflexivity.
Defined.

(* ===================================================================== *)
(** ** Properties of the CSV decoder *)
(* ===================================================================== *)

Lemma setitem_fresh {A} (k : string) (v : A) (d : list (string * A)) :
  ~ In k (map fst d) -> Py.setitem k v d = d ++ [(k, v)].
Proof.
  induction d as [|[k' v'] d IH]; simpl; intros Hnot.
  - reflexivity.
  - destruct (String.eqb_spec k k') as [->|Hne].
    + exfalso. apply Hnot. left. reflexivity.
    + rewrite IH; [reflexivity|]. intros Hin. apply Hnot. right. exact Hin.
Qed.

Lemma dict_of_fresh {A} (keys : list string) :
  forall (cells : list A) (acc : list (string * A)),
    NoDup keys ->
    (forall k, In k keys -> ~ In k (map fst acc)) ->
    fold_left (fun d kv => Py.setitem (fst kv) (snd kv) d) (combine keys cells) acc
    = acc ++ combine keys cells.
Proof.
  induction keys as [|k keys IH]; intros cells acc Hnd Hfresh; simpl.
  - rewrite app_nil_r. reflexivity.
  - destruct cells as [|c cells]; simpl.
    + rewrite app_nil_r. reflexivity.
    + rewrite setitem_fresh by (apply Hfresh; left; reflexivity).
      inversion Hnd as [|? ? Hk Hnd']; subst.
      rewrite IH; [rewrite <- app_assoc; reflexivity|exact Hnd'|].
      intros k' Hin Hacc. rewrite map_app, in_app_iff in Hacc. simpl in Hacc.
      destruct Hacc as [Hacc|[Heq|[]]].
      * apply (Hfresh k'); [right; exact Hin|exact Hacc].
      * subst k'. contradiction.
Qed.

(** With pairwise different header names, the dict of a row lists the
    header names with the cells of the row, in column order. *)
Lemma dict_of_combine {A} (keys : list string) (cells : list A) :
  NoDup keys -> Py.dict_of (combine keys cells) = combine keys cells.
Proof.
  intros Hnd. unfold Py.dict_of. rewrite dict_of_fresh; auto.
Qed.

Lemma parse_rows_spec (headers : list string) (rows : list (list string)) :
  forall (csv_data : list (list (string * string))) (s : state),
    let fits := fun row : list string => (List.length row =? List.length headers)%nat in
    parse_rows headers rows csv_data s
    = (Ok (csv_data ++ map (fun row => Py.dict_of (combine headers row)) (filter fits rows)),
       warned (List.length (filter (fun row => negb (fits row)) rows)) s).
Proof.
  induction rows as [|row rows IH]; intros csv_data s fits; simpl.
  - rewrite app_nil_r. reflexivity.
  - subst fits. simpl. destruct (List.length row =? List.length headers)%nat; simpl.
    + rewrite IH. rewrite <- app_assoc. reflexivity.
    + erewrite bind_ok; [|reflexivity]. rewrite IH. reflexivity.
Qed.

Lemma lower_no_capital (name : string) : no_capital (PyStr.lower name) = true.
Proof.
  unfold no_capital. induction name as [|c name IH]; [reflexivity|].
  simpl. rewrite IH, andb_true_r. clear IH.
  destruct c as [[] [] [] [] [] [] [] []]; reflexivity.
Qed.

Lemma lower_length (name : string) :
  String.length (PyStr.lower name) = String.length name.
Proof. induction name as [|c name IH]; simpl; [reflexivity|rewrite IH; reflexivity]. Qed.

(** C9, as the claim has it, fails: a text whose first row is a header
    need not be read to its end.  In [broken_csv] the header row and a row
    of one cell are read, then the third line has a carriage return inside
    an unquoted cell, for which the reader raises [_csv.Error]: the decoder
    raises after the one warning and returns no row, and the row [3,c] of
    the last line is never read. *)
Lemma parse_csv_response_counterexample :
  Csv.reader broken_csv = ([["id"; "name"]; ["7"]], Some CsvError)
  /\ Csv.StringIO broken_csv
     = map PyStr.chars [("id,name" ++ LF)%string; ("7" ++ LF)%string;
                        ("1" ++ CR ++ "x,2" ++ LF)%string; "3,c"]
  /\ _parse_csv_response broken_csv fresh_client
     = (Raise CsvError, record (EvPrint row_warning) fresh_client).
Proof. vm_compute. repeat split; reflexivity. Qed.

(** C9, amended.  When the reader yields a header row first, the decoder
    lowercases the header names (no name keeps a capital letter A-Z, and
    every name keeps its length) and goes through the further rows in
    order, printing one warning for each row that has not as many cells as
    there are header names.  When the reader has read the text to its end
    without an error, the decoder returns one dict per row with as many
    cells as there are header names (built from the header names and the
    cells, which stay strings), in order; when the reader raises on a later
    line, the decoder raises that error and returns nothing.  With pairwise
    different header names the dict of a row pairs every header name with
    the cell of its column. *)
Theorem parse_csv_response_spec (text : string) (first : list string)
        (rest : list (list string)) (err : option exn) (s : state) :
  Csv.reader text = (first :: rest, err) ->
  let headers := map PyStr.lower first in
  let fits := fun row : list string => (List.length row =? List.length headers)%nat in
  _parse_csv_response text s
  = (match err with
     | None => Ok (map (fun row => Py.dict_of (combine headers row)) (filter fits rest))
     | Some e => Raise e
     end,
     warned (List.length (filter (fun row => negb (fits row)) rest)) s)
  /\ (NoDup headers ->
      forall row, In row (filter fits rest) ->
                  Py.dict_of (combine headers row) = combine headers row)
  /\ Forall (fun name => no_capital name = true) headers
  /\ map String.length headers = map String.length first.
Proof.
  intros Hreader headers fits. split; [|split; [|split]].
  - unfold _parse_csv_response. rewrite Hreader. fold headers. unfold bind.
    rewrite parse_rows_spec. cbn [app]. destruct err; reflexivity.
  - intros Hnd row _. apply dict_of_combine. exact Hnd.
  - subst headers. apply Forall_forall. intros name Hin.
    apply in_map_iff in Hin. destruct Hin as [name0 [<- _]]. apply lower_no_capital.
  - subst headers. rewrite map_map. apply map_ext. intros name. apply lower_length.
Qed.

Lemma parse_csv_response_spec_witness :
  _parse_csv_response plain_csv fresh_client
  = (Ok [[("id", "1"); ("name", "Alice")]; [("id", "2"); ("name", "Bob")]],
     fresh_client)
  /\ _parse_csv_response sample_csv fresh_client
     = (Ok [[("id", "1"); ("name", "Alice")]; [("id", "2"); ("name", "Bob")]],
        record (EvPrint row_warning) fresh_client)
  /\ _parse_csv_response capitals_csv fresh_client
     = (Ok [[("cust_id", "1"); ("display name", "Alice")];
            [("cust_id", "2"); ("display name", "Bob")]],
        record (EvPrint row_warning) fresh_client)
  /\ _parse_csv_response broken_csv fresh_client
     = (Raise CsvError, record (EvPrint row_warning) fresh_client).
Proof.
  assert (Hplain : Csv.reader plain_csv
                   = ([["id"; "name"]; ["1"; "Alice"]; ["2"; "Bob"]], None))
    by (vm_compute; reflexivity).
  assert (Hsample : Csv.reader sample_csv
                    = ([["id"; "name"]; ["1"; "Alice"]; ["3"]; ["2"; "Bob"]], None))
    by (vm_compute; reflexivity).
  assert (Hcapitals : Csv.reader capitals_csv
                      = ([["CUST_ID"; "Display Name"]; ["1"; "Alice"]; ["3"];
                          ["2"; "Bob"]], None))
    by (vm_compute; reflexivity).
  assert (Hbroken : Csv.reader broken_csv = ([["id"; "name"]; ["7"]], Some CsvError))
    by (vm_compute; reflexivity).
  split; [|split; [|split]].
  - rewrite (proj1 (parse_csv_response_spec plain_csv _ _ _ fresh_client Hplain)).
    reflexivity.
  - rewrite (proj1 (parse_csv_response_spec sample_csv _ _ _ fresh_client Hsample)).
    reflexivity.
  - rewrite (proj1 (parse_csv_response_spec capitals_csv _ _ _ fresh_client Hcapitals)).
    reflexivity.
  - rewrite (proj1 (parse_csv_response_spec broken_csv _ _ _ fresh_client Hbroken)).
    reflexivity.
Defined.

(** C10. On the empty text the reader yields no row, reading the header
    fails and the decoder raises [StopIteration] instead of returning; on a
    text with a header row and nothing else it returns the empty list. *)
Theorem parse_csv_response_no_rows (text : string) (first : list string) (s : state) :
  Csv.reader text = ([first], None) ->
  _parse_csv_response "" s = (Raise StopIteration, s)
  /\ _parse_csv_response text s = (Ok [], s).
Proof.
  intros Hreader. split.
  - reflexivity.
  - unfold _parse_csv_response. rewrite Hreader. reflexivity.
Qed.

Lemma parse_csv_response_no_rows_witness :
  Csv.reader "id,name" = ([["id"; "name"]], None)
  /\ _parse_csv_response "" fresh_client = (Raise StopIteration, fresh_client)
  /\ _parse_csv_response "id,name" fresh_client = (Ok [], fresh_client).
Proof.
  split; [vm_compute; reflexivity|].
  apply (parse_csv_response_no_rows "id,name" ["id"; "name"] fresh_client).
  vm_compute. reflexivity.
Defined.

(* ===================================================================== *)
(** ** Properties of the session authenticator *)
(* ===================================================================== *)

Lemma passes_through_network (e : exn) :
  passes_through e = true -> is_network_error e = false.
Proof.
  unfold passes_through. destruct (is_network_error e); [discriminate|reflexivity].
Qed.

Lemma passes_through_repeated (e : exn) :
  passes_through e = true -> is_repeated_401 e = false.
Proof.
  unfold passes_through. destruct (is_repeated_401 e); [|reflexivity].
  rewrite orb_true_r. discriminate.
Qed.

Section Login.

Variable W : world.

(** The backoff calculator raises nothing that a retry loop catches, and
    adds only a clock reading or a random draw to the history. *)
Lemma calculate_backoff_effect (attempt : nat) (reset : option string)
      (s s' : state) (res : result Q) :
  _calculate_backoff W attempt reset s = (res, s') ->
  (forall e, error_of res = Some e -> passes_through e = true)
  /\ exists added, history s' = added ++ history s
                   /\ Forall (fun ev => is_get ev = false) added.
Proof.
  intros H. pose proof (calculate_backoff_cases W attempt reset s) as Hcases.
  cbv zeta in Hcases.
  destruct (reset_error W reset) as [e|] eqn:Herr.
  - rewrite Hcases in H. injection H as <- <-.
    destruct (reset_error_passes W reset e Herr) as [Hn Hr]. split.
    + intros e' He. simpl in He. injection He as <-.
      unfold passes_through. rewrite Hn, Hr. reflexivity.
    + exists []. split; [reflexivity|constructor].
  - destruct (Py.truthy_str reset).
    + destruct Hcases as [w Hw]. rewrite Hw in H. injection H as <- <-.
      split; [no_error|]. exists [EvNow (clock W (history s))].
      split; [reflexivity|repeat constructor].
    + destruct (float_overflow_attempt <=? attempt)%nat;
        rewrite Hcases in H; injection H as <- <-.
      * split; [intros e He; simpl in He; injection He as <-; reflexivity|].
        exists [EvUniform (uniform01 W (history s))].
        split; [reflexivity|repeat constructor].
      * split; [no_error|]. exists [EvUniform (uniform01 W (history s))].
        split; [reflexivity|repeat constructor].
Qed.

Lemma quiet_refl (s : state) : quiet_step s s.
Proof. exists []. split; [reflexivity|constructor]. Qed.

Lemma quiet_trans (s1 s2 s3 : state) :
  quiet_step s1 s2 -> quiet_step s2 s3 -> quiet_step s1 s3.
Proof.
  intros [a1 [H1 F1]] [a2 [H2 F2]]. exists (a2 ++ a1). split.
  - rewrite H2, H1, app_assoc. reflexivity.
  - apply Forall_app. split; assumption.
Qed.

Lemma quiet_record (ev : event) (s : state) :
  is_get ev = false -> quiet_step s (record ev s).
Proof.
  intros H. exists [ev]. split; [reflexivity|]. constructor; [exact H|constructor].
Qed.

Lemma quiet_backoff (attempt : nat) (reset : option string) (s s' : state) (res : result Q) :
  _calculate_backoff W attempt reset s = (res, s') -> quiet_step s s'.
Proof. intros H. apply (calculate_backoff_effect attempt reset s s' res H). Qed.

(** One pass through the loop of [_login]: the POST, then what the status
    asks for.  Network failures do not escape the [try]. *)
Lemma login_iteration_effect (data : value) (attempt : nat) (s s' : state)
      (res : result (ctrl unit)) :
  try_except (login_try W data attempt)
             (fun _ => wait_time <- _calculate_backoff W attempt None ;;
                       time_sleep wait_time ;; ret Continue) s = (res, s') ->
  quiet_step s s'
  /\ (forall e, error_of res = Some e -> passes_through e = true).
Proof.
  unfold try_except, login_try.
  unfold bind at 1. unfold session_post at 1.
  set (o := post_reply W (history s) auth_url data).
  set (s1 := record (EvPost auth_url data o) s).
  assert (Q1 : quiet_step s s1) by (apply quiet_record; reflexivity).
  assert (Hhandler : forall (e : exn) st (res0 : result (ctrl unit)),
             quiet_step s st ->
             (wait_time <- _calculate_backoff W attempt None ;;
              time_sleep wait_time ;; ret Continue) st = (res0, s') ->
             res = res0 ->
             quiet_step s s' /\ (forall e0, error_of res = Some e0 -> passes_through e0 = true)).
  { intros _ st res0 Qst Hh ->. unfold bind in Hh.
    destruct (_calculate_backoff W attempt None st) as [[w|e] s2] eqn:Hb.
    - unfold time_sleep, ret in Hh. injection Hh as <- <-. split; [|no_error].
      eapply quiet_trans; [exact Qst|]. eapply quiet_trans; [eapply quiet_backoff; exact Hb|].
      apply quiet_record. reflexivity.
    - injection Hh as <- <-. split.
      + eapply quiet_trans; [exact Qst|]. eapply quiet_backoff; exact Hb.
      + intros e0 He0. simpl in He0; injection He0 as <-.
        apply (calculate_backoff_effect attempt None st s2 _ Hb). reflexivity. }
  destruct o as [r|f].
  - (* the server answered *)
    destruct (status_code r =? 429).
    + unfold bind at 1.
      destruct (_calculate_backoff W attempt (headers_get (headers r) "x-ratelimit-reset") s1)
        as [[w|e] s2] eqn:Hb; simpl.
      * intros H. injection H as <- <-. split; [|no_error].
        eapply quiet_trans; [exact Q1|]. eapply quiet_trans; [eapply quiet_backoff; exact Hb|].
        apply quiet_record. reflexivity.
      * pose proof (proj1 (calculate_backoff_effect _ _ _ _ _ Hb) e eq_refl) as Hne.
        rewrite (passes_through_network e Hne). intros H. injection H as <- <-. split.
        -- eapply quiet_trans; [exact Q1|]. eapply quiet_backoff; exact Hb.
        -- intros e0 He0. simpl in He0; injection He0 as <-. exact Hne.
    + destruct (status_code r =? 200).
      * unfold bind at 1. unfold response_json.
        destruct (json r) as [response_data|]; simpl.
        -- unfold bind at 1. unfold lift_result.
           destruct (Py.get response_data "authcode") as [authcode|e] eqn:Hget.
           ++ destruct (Py.truthy authcode); simpl.
              ** intros H. injection H as <- <-. split; [|no_error].
                 exists [EvSleep (1 # 2); EvPost auth_url data (Responds r)]. split.
                 --- reflexivity.
                 --- repeat constructor.
              ** intros H. injection H as <- <-. split; [exact Q1|].
                 intros e0 He0. simpl in He0; injection He0 as <-. reflexivity.
           ++ destruct response_data; simpl in Hget; try discriminate Hget;
                injection Hget as <-; simpl;
                intros H; injection H as <- <-; (split; [exact Q1|]);
                intros e0 He0; simpl in He0; injection He0 as <-; reflexivity.
        -- intros H. injection H as <- <-. split; [exact Q1|].
           intros e0 He0. simpl in He0; injection He0 as <-. reflexivity.
      * simpl. intros H. injection H as <- <-. split; [exact Q1|].
        intros e0 He0. simpl in He0; injection He0 as <-. reflexivity.
  - (* the request failed *)
    destruct (is_network_error (exn_of_failure f)) eqn:Hnet.
    + intros H. eapply Hhandler; [exact Timeout|exact Q1|exact H|reflexivity].
    + intros H. injection H as <- <-. split; [exact Q1|].
      intros e0 He0. simpl in He0; injection He0 as <-.
      destruct f; simpl in Hnet; try discriminate Hnet; reflexivity.
Qed.

(** [_login] adds no GET to the history and raises no network failure. *)
Lemma login_effect (retries : Z) (s s' : state) (res : result unit) :
  _login W retries s = (res, s') ->
  quiet_step s s'
  /\ (forall e, error_of res = Some e -> passes_through e = true).
Proof.
  unfold _login. unfold bind at 1. unfold get_self at 1.
  generalize (VDict [("email", VStr (username s));
                     ("password", VStr (encoded_password s))]) as data.
  generalize (Z.to_nat retries) as n, 0%nat as attempt.
  intros n. revert s. induction n as [|n IH]; intros s attempt data; simpl.
  - intros H. injection H as <- <-. split; [apply quiet_refl|].
    intros e He. simpl in He; injection He as <-. reflexivity.
  - unfold bind at 1.
    destruct (try_except (login_try W data attempt) _ s) as [[c|e] s1] eqn:Hit;
      destruct (login_iteration_effect data attempt s s1 _ Hit) as [Q1 Hne].
    + destruct c as [|[]].
      * intros H. destruct (IH s1 (S attempt) data H) as [Q2 Hne2].
        split; [eapply quiet_trans; eassumption|exact Hne2].
      * intros H. injection H as <- <-. split; [exact Q1|no_error].
    + intros H. injection H as <- <-. split; [exact Q1|exact Hne].
Qed.

End Login.

(* ===================================================================== *)
(** ** Properties of the resilient requester *)
(* ===================================================================== *)

Lemma quiet_not_fatal (added : list event) :
  Forall (fun ev => is_get ev = false) added ->
  Forall (fun ev => fatal_get ev = None) added.
Proof.
  apply Forall_impl. intros [] H; try reflexivity. discriminate H.
Qed.

Lemma ends_fatally_harmless (context url : string) (added : list event) (err : option exn) :
  Forall (fun ev => fatal_get ev = None) added -> ends_fatally context url added err.
Proof.
  destruct added as [|ev rest]; simpl; [trivial|].
  intros H. inversion H as [|? ? Hev Hrest]; subst. split; [exact Hrest|].
  intros c Hc. rewrite Hev in Hc. discriminate Hc.
Qed.

Lemma ends_fatally_app (context url : string) (added older : list event) (err : option exn) :
  ends_fatally context url added err ->
  Forall (fun ev => fatal_get ev = None) older ->
  ends_fatally context url (added ++ older) err.
Proof.
  destruct added as [|ev rest]; simpl.
  - intros _ H. apply ends_fatally_harmless. exact H.
  - intros [Hrest Hev] Holder. split; [|exact Hev].
    apply Forall_app. split; assumption.
Qed.

Lemma count_401_app (a b : list event) :
  count_401 (a ++ b) = (count_401 a + count_401 b)%nat.
Proof. unfold count_401. rewrite filter_app, length_app. reflexivity. Qed.

Lemma quiet_no_gets (q : list event) :
  Forall (fun ev => is_get ev = false) q ->
  filter is_get q = [] /\ count_401 q = 0%nat.
Proof.
  unfold count_401. induction 1 as [|ev q Hev _ [IH1 IH2]]; simpl.
  - split; reflexivity.
  - rewrite Hev, IH1. destruct ev; try discriminate Hev; simpl; auto.
Qed.

Lemma not_repeated (e : exn) (context url : string) :
  is_repeated_401 e = false ->
  Some e <> Some (RuntimeError (Repeated401 context url)).
Proof. intros H Heq. injection Heq as ->. discriminate H. Qed.

(** An event counted by [count_401] can be singled out. *)
Lemma count_401_split (h : list event) :
  (0 < count_401 h)%nat ->
  exists later ev earlier,
    h = later ++ ev :: earlier
    /\ unauthorized_get ev = true
    /\ count_401 later = 0%nat.
Proof.
  unfold count_401. induction h as [|ev h IH]; simpl; [lia|].
  destruct (unauthorized_get ev) eqn:Hev; simpl.
  - intros _. exists [], ev, h. repeat split. exact Hev.
  - intros Hpos. destruct (IH Hpos) as [later [ev' [earlier [-> [Hev' Hlater]]]]].
    exists (ev :: later), ev', earlier. repeat split; [exact Hev'|].
    simpl. rewrite Hev. exact Hlater.
Qed.

Section Robust.

Variable W : world.
Variable url : string.
Variable payload : option value.
Variable context : string.

(** One pass through the loop of [_robust_get], by the answer to the GET. *)
Lemma robust_iteration_cases (attempt : nat) (flag : bool) (s : state) :
  try_except (robust_try W url payload context attempt)
             (fun _ => robust_except W attempt) (flag, s)
  = let o := get_reply W (history s) url payload in
    let s1 := record (EvGet url payload o) s in
    match o with
    | Fails f =>
        if is_network_error (exn_of_failure f) then
          match _calculate_backoff W attempt None s1 with
          | (Ok wait_time, s2) => (Ok Continue, (flag, record (EvSleep wait_time) s2))
          | (Raise e, s2) => (Raise e, (flag, s2))
          end
        else (Raise (exn_of_failure f), (flag, s1))
    | Responds r =>
        if status_code r =? 401 then
          if flag then (Raise (RuntimeError (Repeated401 context url)), (true, s1))
          else
            match _login W 3 (unauthenticated s1) with
            | (Ok _, s2) => (Ok Continue, (true, s2))
            | (Raise e, s2) => (Raise e, (true, s2))
            end
        else if status_code r =? 403 then
          (Raise (RuntimeError (Forbidden403 context url)), (flag, s1))
        else if status_code r =? 429 then
          match _calculate_backoff W attempt
                  (headers_get (headers r) "x-ratelimit-reset") s1 with
          | (Ok wait_time, s2) => (Ok Continue, (flag, record (EvSleep wait_time) s2))
          | (Raise e, s2) => (Raise e, (flag, s2))
          end
        else if status_code r =? 200 then (Ok (Return r), (flag, s1))
        else (Raise (RuntimeError (UnhandledNon200 context (status_code r) url)), (flag, s1))
    end.
Proof.
  unfold try_except, robust_try.
  unfold bind at 1. unfold outer at 1. unfold session_get. cbn [snd fst].
  destruct (get_reply W (history s) url payload) as [r|f]; cbn [exn_of_failure];
    cbv beta iota zeta.
  - destruct (status_code r =? 401).
    + unfold bind at 1. unfold get_local at 1. simpl.
      destruct flag; simpl; [reflexivity|].
      unfold bind, set_local, outer, set_authenticated, ret. simpl.
      fold (unauthenticated (record (EvGet url payload (Responds r)) s)).
      destruct (_login W 3 _) as [[[]|e] s2] eqn:Hlogin; [reflexivity|].
      rewrite (passes_through_network e (proj2 (login_effect W 3 _ _ _ Hlogin) e eq_refl)).
      reflexivity.
    + destruct (status_code r =? 403); [reflexivity|].
      destruct (status_code r =? 429).
      * unfold bind, outer, time_sleep, ret. simpl.
        destruct (_calculate_backoff W attempt _ _) as [[w|e] s2] eqn:Hb; [reflexivity|].
        rewrite (passes_through_network e
                   (proj1 (calculate_backoff_effect W _ _ _ _ _ Hb) e eq_refl)).
        reflexivity.
      * destruct (status_code r =? 200); reflexivity.
  - destruct (is_network_error (exn_of_failure f)); [|reflexivity].
    unfold robust_except. unfold bind at 1. unfold outer at 1. cbn [snd fst].
    destruct (_calculate_backoff W attempt None
                (record (EvGet url payload (Fails f)) s)) as [[w|e] s2]; reflexivity.
Qed.

Lemma robust_loop_step (n attempt : nat) (fs : bool * state) :
  robust_loop W url payload context (S n) attempt fs
  = match try_except (robust_try W url payload context attempt)
                     (fun _ => robust_except W attempt) fs with
    | (Ok Continue, fs') => robust_loop W url payload context n (S attempt) fs'
    | (Ok (Return r), fs') => (Ok r, fs')
    | (Raise e, fs') => (Raise e, fs')
    end.
Proof.
  unfold robust_loop. simpl. unfold bind at 1.
  destruct (try_except _ _ fs) as [[[|r]|e] fs']; reflexivity.
Qed.

Lemma fatal_get_401 (r : response) :
  (status_code r =? 401) = true ->
  fatal_get (EvGet url payload (Responds r)) = None.
Proof.
  intros H. simpl. unfold fatal_status. rewrite H, orb_true_r. reflexivity.
Qed.

(** What one pass adds to the history: a GET with a fatal status only as
    the newest event, and then the pass raises the error of that status. *)
Lemma robust_iteration_fatal (attempt : nat) (flag : bool) (s : state)
      (rc : result (ctrl response)) (fs' : bool * state) :
  try_except (robust_try W url payload context attempt)
             (fun _ => robust_except W attempt) (flag, s) = (rc, fs') ->
  exists added,
    history (snd fs') = added ++ history s
    /\ match rc with
       | Ok _ => Forall (fun ev => fatal_get ev = None) added
       | Raise e => ends_fatally context url added (Some e)
       end.
Proof.
  rewrite robust_iteration_cases. cbv zeta.
  destruct (get_reply W (history s) url payload) as [r|f] eqn:Hreply.
  - destruct (status_code r =? 401) eqn:E401.
    + pose proof (fatal_get_401 r E401) as Hharmless.
      destruct flag.
      * intros H. injection H as <- <-.
        exists [EvGet url payload (Responds r)]. split; [reflexivity|].
        apply ends_fatally_harmless. constructor; [exact Hharmless|constructor].
      * destruct (_login W 3 _) as [lres s2] eqn:Hlogin.
        destruct (proj1 (login_effect W 3 _ _ _ Hlogin)) as [a [Ha Fa]].
        assert (Hall : Forall (fun ev => fatal_get ev = None)
                              (a ++ [EvGet url payload (Responds r)])).
        { apply Forall_app. split; [apply quiet_not_fatal; exact Fa|].
          constructor; [exact Hharmless|constructor]. }
        destruct lres as [[]|e]; intros H; injection H as <- <-;
          exists (a ++ [EvGet url payload (Responds r)]); simpl;
          (split; [rewrite Ha, <- app_assoc; reflexivity|]).
        -- exact Hall.
        -- apply ends_fatally_harmless. exact Hall.
    + destruct (status_code r =? 403) eqn:E403.
      * intros H. injection H as <- <-.
        exists [EvGet url payload (Responds r)]. split; [reflexivity|].
        split; [constructor|]. intros c Hc. simpl in Hc.
        destruct (fatal_status (status_code r)); [|discriminate Hc].
        injection Hc as <-. unfold fatal_error. rewrite E403. reflexivity.
      * destruct (status_code r =? 429) eqn:E429.
        -- assert (Hharmless : fatal_get (EvGet url payload (Responds r)) = None).
           { simpl. unfold fatal_status. rewrite E429, orb_true_r. reflexivity. }
           destruct (_calculate_backoff W attempt _ _) as [bres s2] eqn:Hb.
           destruct (quiet_backoff W _ _ _ _ _ Hb) as [a [Ha Fa]].
           assert (Hall : Forall (fun ev => fatal_get ev = None)
                                 (a ++ [EvGet url payload (Responds r)])).
           { apply Forall_app. split; [apply quiet_not_fatal; exact Fa|].
             constructor; [exact Hharmless|constructor]. }
           destruct bres as [w|e]; intros H; injection H as <- <-; simpl.
           ++ exists (EvSleep w :: a ++ [EvGet url payload (Responds r)]).
              split; [rewrite Ha; simpl; rewrite <- app_assoc; reflexivity|].
              constructor; [reflexivity|exact Hall].
           ++ exists (a ++ [EvGet url payload (Responds r)]).
              split; [rewrite Ha, <- app_assoc; reflexivity|].
              apply ends_fatally_harmless. exact Hall.
        -- destruct (status_code r =? 200) eqn:E200; intros H; injection H as <- <-;
             exists [EvGet url payload (Responds r)]; (split; [reflexivity|]).
           ++ constructor; [|constructor]. simpl. unfold fatal_status.
              rewrite E200. reflexivity.
           ++ split; [constructor|]. intros c Hc. simpl in Hc.
              destruct (fatal_status (status_code r)); [|discriminate Hc].
              injection Hc as <-. unfold fatal_error. rewrite E403. reflexivity.
  - destruct (is_network_error (exn_of_failure f)).
    + destruct (_calculate_backoff W attempt None _) as [bres s2] eqn:Hb.
      destruct (quiet_backoff W _ _ _ _ _ Hb) as [a [Ha Fa]].
      assert (Hall : Forall (fun ev => fatal_get ev = None)
                            (a ++ [EvGet url payload (Fails f)])).
      { apply Forall_app. split; [apply quiet_not_fatal; exact Fa|].
        repeat constructor. }
      destruct bres as [w|e]; intros H; injection H as <- <-; simpl.
      * exists (EvSleep w :: a ++ [EvGet url payload (Fails f)]).
        split; [rewrite Ha; simpl; rewrite <- app_assoc; reflexivity|].
        constructor; [reflexivity|exact Hall].
      * exists (a ++ [EvGet url payload (Fails f)]).
        split; [rewrite Ha, <- app_assoc; reflexivity|].
        apply ends_fatally_harmless. exact Hall.
    + intros H. injection H as <- <-.
      exists [EvGet url payload (Fails f)]. split; [reflexivity|].
      apply ends_fatally_harmless. repeat constructor.
Qed.

(** The same for the whole loop. *)
Lemma robust_loop_fatal (n : nat) :
  forall (attempt : nat) (flag : bool) (s : state) (res : result response)
         (fs' : bool * state),
    robust_loop W url payload context n attempt (flag, s) = (res, fs') ->
    exists added,
      history (snd fs') = added ++ history s
      /\ ends_fatally context url added (error_of res).
Proof.
  induction n as [|n IH]; intros attempt flag s res fs'.
  - intros H. injection H as <- <-. exists []. split; [reflexivity|exact I].
  - rewrite robust_loop_step.
    destruct (try_except _ _ (flag, s)) as [rc [flag1 s1]] eqn:Hit.
    destruct (robust_iteration_fatal attempt flag s rc (flag1, s1) Hit) as [a [Ha Fa]].
    simpl in Ha.
    destruct rc as [[|r]|e].
    + intros H. destruct (IH _ _ _ _ _ H) as [a' [Ha' Fa']].
      exists (a' ++ a). split; [rewrite Ha', Ha, app_assoc; reflexivity|].
      apply ends_fatally_app; assumption.
    + intros H. injection H as <- <-. exists a. split; [exact Ha|].
      apply ends_fatally_harmless. exact Fa.
    + intros H. injection H as <- <-. exists a. split; [exact Ha|exact Fa].
Qed.

(** The same for a call of [_robust_get], the login before the loop
    included. *)
Lemma robust_get_fatal (retries : Z) (require_auth : bool) (s s' : state)
      (res : result response) :
  _robust_get W url payload retries require_auth context s = (res, s') ->
  exists added,
    history s' = added ++ history s
    /\ ends_fatally context url added (error_of res).
Proof.
  unfold _robust_get. unfold bind at 1. unfold get_self at 1.
  unfold bind at 1.
  destruct (require_auth && negb (authenticated s)).
  - destruct (_login W 3 s) as [[[]|e] s1] eqn:Hlogin;
      destruct (proj1 (login_effect W 3 _ _ _ Hlogin)) as [a [Ha Fa]].
    + unfold with_frame.
      destruct (robust_loop W url payload context (Z.to_nat retries) 0 (false, s1))
        as [res1 fs1] eqn:Hloop.
      destruct (robust_loop_fatal _ _ _ _ _ _ Hloop) as [a' [Ha' Fa']].
      intros H. injection H as <- <-. exists (a' ++ a).
      split; [rewrite Ha', Ha, app_assoc; reflexivity|].
      apply ends_fatally_app; [exact Fa'|apply quiet_not_fatal; exact Fa].
    + intros H. injection H as <- <-. exists a. split; [exact Ha|].
      apply ends_fatally_harmless, quiet_not_fatal. exact Fa.
  - unfold ret at 1. unfold with_frame.
    destruct (robust_loop W url payload context (Z.to_nat retries) 0 (false, s))
      as [res1 fs1] eqn:Hloop.
    destruct (robust_loop_fatal _ _ _ _ _ _ Hloop) as [a' [Ha' Fa']].
    intros H. injection H as <- <-. exists a'. split; assumption.
Qed.

(** C6. In every call of [_robust_get], a GET that is answered with 403,
    or with any status other than 200, 401 and 429, is the last thing the
    call does (no retry, no sleep, no login follows it), and the call raises
    the [RuntimeError] of that status. *)
Theorem robust_get_fails_immediately (retries : Z) (require_auth : bool)
        (s s' : state) (res : result response)
        (later earlier : list event) (r : response) :
  _robust_get W url payload retries require_auth context s = (res, s') ->
  history s' = later ++ EvGet url payload (Responds r) :: earlier ++ history s ->
  status_code r <> 200 -> status_code r <> 401 -> status_code r <> 429 ->
  later = []
  /\ res = Raise (RuntimeError
                    (if status_code r =? 403 then Forbidden403 context url
                     else UnhandledNon200 context (status_code r) url)).
Proof.
  intros Hcall Hhist H200 H401 H429.
  destruct (robust_get_fatal retries require_auth s s' res Hcall) as [added [Ha Hfatal]].
  assert (Hadded : added = later ++ EvGet url payload (Responds r) :: earlier).
  { apply (app_inv_tail (history s)). rewrite <- Ha, Hhist, <- app_assoc. reflexivity. }
  assert (Hget : fatal_get (EvGet url payload (Responds r)) = Some (status_code r)).
  { simpl. unfold fatal_status.
    destruct (Z.eqb_spec (status_code r) 200); [contradiction|].
    destruct (Z.eqb_spec (status_code r) 401); [contradiction|].
    destruct (Z.eqb_spec (status_code r) 429); [contradiction|]. reflexivity. }
  subst added. destruct later as [|ev later]; simpl in Hfatal.
  - split; [reflexivity|]. destruct Hfatal as [_ Herr].
    specialize (Herr _ Hget). destruct res as [a|e]; simpl in Herr; [discriminate Herr|].
    injection Herr as ->. reflexivity.
  - exfalso. destruct Hfatal as [Hrest _].
    apply Forall_app in Hrest. destruct Hrest as [_ Hrest].
    inversion Hrest as [|? ? Hev _]; subst. rewrite Hget in Hev. discriminate Hev.
Qed.

(** What one pass adds to the history: its GET, then events that are no
    GETs; how it leaves the flag; and when it raises for a repeated 401. *)
Lemma robust_iteration_shape (attempt : nat) (flag flag' : bool) (s s' : state)
      (rc : result (ctrl response)) :
  try_except (robust_try W url payload context attempt)
             (fun _ => robust_except W attempt) (flag, s) = (rc, (flag', s')) ->
  let o := get_reply W (history s) url payload in
  exists q,
    history s' = q ++ EvGet url payload o :: history s
    /\ Forall (fun ev => is_get ev = false) q
    /\ flag' = flag || unauthorized o
    /\ (error_of rc = Some (RuntimeError (Repeated401 context url))
        <-> flag && unauthorized o = true)
    /\ (flag && unauthorized o = true -> q = []).
Proof.
  rewrite robust_iteration_cases. cbv zeta.
  destruct (get_reply W (history s) url payload) as [r|f] eqn:Hreply; simpl.
  - destruct (status_code r =? 401) eqn:E401.
    + destruct flag.
      * intros H. injection H as <- <- <-. exists []. repeat split; auto.
      * destruct (_login W 3 _) as [lres s2] eqn:Hlogin.
        destruct (login_effect W 3 _ _ _ Hlogin) as [[a [Ha Fa]] Hne].
        destruct lres as [[]|e]; intros H; injection H as <- <- <-;
          exists a; (split; [exact Ha|]); (split; [exact Fa|]);
          (split; [reflexivity|]); (split; [|discriminate]);
          (split; [|discriminate]); intros Herr; simpl in Herr; [discriminate Herr|].
        exfalso. apply (not_repeated e context url); [|exact Herr].
        apply passes_through_repeated, Hne. reflexivity.
    + rewrite !andb_false_r, !orb_false_r.
      destruct (status_code r =? 403).
      * intros H. injection H as <- <- <-. exists [].
        repeat split; auto; discriminate.
      * destruct (status_code r =? 429).
        -- destruct (_calculate_backoff W attempt _ _) as [bres s2] eqn:Hb.
           destruct (calculate_backoff_effect W _ _ _ _ _ Hb) as [Hne [a [Ha Fa]]].
           destruct bres as [w|e]; intros H; injection H as <- <- <-.
           ++ exists (EvSleep w :: a). split; [simpl; rewrite Ha; reflexivity|].
              split; [constructor; [reflexivity|exact Fa]|].
              repeat split; discriminate.
           ++ exists a. split; [exact Ha|]. split; [exact Fa|].
              split; [reflexivity|]. split; [|discriminate].
              split; [|discriminate]. intros Herr. exfalso.
              apply (not_repeated e context url); [|exact Herr].
              apply passes_through_repeated, Hne. reflexivity.
        -- destruct (status_code r =? 200); intros H; injection H as <- <- <-;
             exists []; repeat split; auto; discriminate.
  - rewrite !andb_false_r, !orb_false_r.
    destruct (is_network_error (exn_of_failure f)).
    + destruct (_calculate_backoff W attempt None _) as [bres s2] eqn:Hb.
      destruct (calculate_backoff_effect W _ _ _ _ _ Hb) as [Hne [a [Ha Fa]]].
      destruct bres as [w|e]; intros H; injection H as <- <- <-.
      * exists (EvSleep w :: a). split; [simpl; rewrite Ha; reflexivity|].
        split; [constructor; [reflexivity|exact Fa]|].
        repeat split; discriminate.
      * exists a. split; [exact Ha|]. split; [exact Fa|].
        split; [reflexivity|]. split; [|discriminate].
        split; [|discriminate]. intros Herr. exfalso.
        apply (not_repeated e context url); [|exact Herr].
        apply passes_through_repeated, Hne. reflexivity.
    + intros H; injection H as <- <- <-.
      exists []. split; [reflexivity|]. split; [constructor|].
      split; [reflexivity|]. split; [|discriminate]. split; [|discriminate].
      intros Herr. destruct f; discriminate Herr.
Qed.

(** The loop sends at most one GET per attempt, sees at most two 401s (one
    if the flag is set on entry), and raises for a repeated 401 exactly when
    it has seen them, the last one as its last event. *)
Lemma robust_loop_401 (n : nat) :
  forall (attempt : nat) (flag : bool) (s : state) (res : result response)
         (fs' : bool * state),
    robust_loop W url payload context n attempt (flag, s) = (res, fs') ->
    exists added,
      history (snd fs') = added ++ history s
      /\ (List.length (filter is_get added) <= n)%nat
      /\ (count_401 added + Nat.b2n flag <= 2)%nat
      /\ (error_of res = Some (RuntimeError (Repeated401 context url))
          <-> (count_401 added + Nat.b2n flag = 2)%nat)
      /\ ((count_401 added + Nat.b2n flag = 2)%nat ->
          exists ev rest, added = ev :: rest /\ unauthorized_get ev = true).
Proof.
  induction n as [|n IH]; intros attempt flag s res fs'.
  - intros H. injection H as <- <-. exists []. simpl.
    split; [reflexivity|]. split; [lia|].
    destruct flag; simpl; (split; [lia|]); (split; [split; [discriminate|lia]|lia]).
  - rewrite robust_loop_step.
    destruct (try_except _ _ (flag, s)) as [rc [flag1 s1]] eqn:Hit.
    destruct (robust_iteration_shape attempt flag flag1 s s1 rc Hit)
      as [q [Hq [Fq [Hflag [Hrep Hlast]]]]].
    set (o := get_reply W (history s) url payload) in *.
    destruct (quiet_no_gets q Fq) as [Hgets H401].
    assert (Hcount : forall a, count_401 (a ++ q ++ [EvGet url payload o])
                               = (count_401 a + Nat.b2n (unauthorized o))%nat).
    { intros a. rewrite !count_401_app, H401. unfold count_401 at 2. simpl.
      destruct (unauthorized o); reflexivity. }
    assert (Hlen : forall a, List.length (filter is_get (a ++ q ++ [EvGet url payload o]))
                             = S (List.length (filter is_get a))).
    { intros a. rewrite !filter_app, Hgets, !length_app. simpl. lia. }
    assert (Hhist : forall a h, h = a ++ history s1 ->
                                h = (a ++ q ++ [EvGet url payload o]) ++ history s).
    { intros a h ->. rewrite Hq, <- !app_assoc. reflexivity. }
    destruct rc as [[|r]|e].
    + (* the loop goes on *)
      intros H. destruct (IH _ _ _ _ _ H) as [a [Ha [Hn [Hle [Hiff Hnew]]]]].
      assert (Hboth : flag && unauthorized o = false).
      { destruct (flag && unauthorized o); [|reflexivity].
        destruct Hrep as [_ Hrep]. specialize (Hrep eq_refl). discriminate Hrep. }
      assert (Hb2n : Nat.b2n flag1 = (Nat.b2n (unauthorized o) + Nat.b2n flag)%nat).
      { rewrite Hflag. destruct flag, (unauthorized o); try reflexivity.
        discriminate Hboth. }
      exists (a ++ q ++ [EvGet url payload o]).
      split; [apply Hhist; exact Ha|].
      rewrite Hlen, Hcount. rewrite Hb2n in Hle, Hiff, Hnew.
      split; [lia|]. split; [lia|]. split.
      * rewrite Hiff. lia.
      * intros Htwo. destruct Hnew as [ev [rest [-> Hev]]]; [lia|].
        exists ev, (rest ++ q ++ [EvGet url payload o]). split; [reflexivity|exact Hev].
    + (* the loop returns *)
      intros H. injection H as <- <-.
      assert (Hboth : flag && unauthorized o = false).
      { destruct (flag && unauthorized o); [|reflexivity].
        destruct Hrep as [_ Hrep]. specialize (Hrep eq_refl). discriminate Hrep. }
      exists ([] ++ q ++ [EvGet url payload o]).
      split; [apply Hhist; reflexivity|].
      rewrite Hlen, Hcount. simpl.
      assert (Hsmall : (Nat.b2n (unauthorized o) + Nat.b2n flag <= 1)%nat).
      { destruct flag, (unauthorized o); simpl; first [lia|discriminate Hboth]. }
      split; [lia|]. split; [lia|]. split; [split; [discriminate|lia]|lia].
    + (* the loop raises *)
      intros H. injection H as <- <-.
      exists ([] ++ q ++ [EvGet url payload o]).
      split; [apply Hhist; reflexivity|].
      rewrite Hlen, Hcount. simpl.
      destruct (flag && unauthorized o) eqn:Hboth.
      * apply andb_prop in Hboth. destruct Hboth as [-> Hun]. rewrite Hun. simpl.
        rewrite (Hlast eq_refl). simpl.
        split; [lia|]. split; [lia|]. split.
        -- split; [reflexivity|]. intros _. apply Hrep. reflexivity.
        -- intros _. exists (EvGet url payload o), []. split; [reflexivity|exact Hun].
      * assert (Hsmall : (Nat.b2n (unauthorized o) + Nat.b2n flag <= 1)%nat).
        { destruct flag, (unauthorized o); simpl; first [lia|discriminate Hboth]. }
        split; [lia|]. split; [lia|]. split; [|lia].
        split; [|lia]. intros Herr. apply Hrep in Herr. discriminate Herr.
Qed.

(** The same for a call of [_robust_get]. *)
Lemma robust_get_401 (retries : Z) (require_auth : bool) (s s' : state)
      (res : result response) :
  _robust_get W url payload retries require_auth context s = (res, s') ->
  exists added,
    history s' = added ++ history s
    /\ (List.length (filter is_get added) <= Z.to_nat retries)%nat
    /\ (error_of res = Some (RuntimeError (Repeated401 context url))
        <-> count_401 added = 2%nat)
    /\ (count_401 added <= 2)%nat
    /\ (count_401 added = 2%nat ->
        exists ev rest, added = ev :: rest /\ unauthorized_get ev = true).
Proof.
  assert (Hloop : forall s1 a res1 fs1,
             history s1 = a ++ history s ->
             Forall (fun ev => is_get ev = false) a ->
             robust_loop W url payload context (Z.to_nat retries) 0 (false, s1)
             = (res1, fs1) ->
             exists added,
               history (snd fs1) = added ++ history s
               /\ (List.length (filter is_get added) <= Z.to_nat retries)%nat
               /\ (error_of res1 = Some (RuntimeError (Repeated401 context url))
                   <-> count_401 added = 2%nat)
               /\ (count_401 added <= 2)%nat
               /\ (count_401 added = 2%nat ->
                   exists ev rest, added = ev :: rest /\ unauthorized_get ev = true)).
  { intros s1 a res1 fs1 Ha Fa Hrun.
    destruct (robust_loop_401 _ _ _ _ _ _ Hrun) as [a' [Ha' [Hn [Hle [Hiff Hnew]]]]].
    destruct (quiet_no_gets a Fa) as [Hgets H401].
    simpl in Hle, Hiff, Hnew. rewrite Nat.add_0_r in Hle, Hiff, Hnew.
    exists (a' ++ a). split; [rewrite Ha', Ha, app_assoc; reflexivity|].
    rewrite filter_app, Hgets, app_nil_r, count_401_app, H401, Nat.add_0_r.
    split; [exact Hn|]. split; [exact Hiff|]. split; [exact Hle|].
    intros Htwo. destruct (Hnew Htwo) as [ev [rest [-> Hev]]].
    exists ev, (rest ++ a). split; [reflexivity|exact Hev]. }
  unfold _robust_get. unfold bind at 1. unfold get_self at 1. unfold bind at 1.
  destruct (require_auth && negb (authenticated s)).
  - destruct (_login W 3 s) as [[[]|e] s1] eqn:Hlogin;
      destruct (login_effect W 3 _ _ _ Hlogin) as [[a [Ha Fa]] Hne].
    + unfold with_frame.
      destruct (robust_loop W url payload context (Z.to_nat retries) 0 (false, s1))
        as [res1 fs1] eqn:Hrun.
      intros H. injection H as <- <-. eapply Hloop; eassumption.
    + intros H. injection H as <- <-.
      destruct (quiet_no_gets a Fa) as [Hgets H401].
      exists a. split; [exact Ha|]. rewrite Hgets, H401. simpl.
      split; [lia|]. split; [|split; [lia|discriminate]].
      split; [|discriminate]. intros Herr. exfalso.
      apply (not_repeated e context url); [|exact Herr].
      apply passes_through_repeated, Hne. reflexivity.
  - unfold ret at 1. unfold with_frame.
    destruct (robust_loop W url payload context (Z.to_nat retries) 0 (false, s))
      as [res1 fs1] eqn:Hrun.
    intros H. injection H as <- <-.
    apply (Hloop s [] res1 fs1); [reflexivity|constructor|exact Hrun].
Qed.

(** C1, amended.
    About one pass of the loop that gets a 401: with the flag clear it sets
    [self.authenticated] to [False], runs [_login] and, when the login
    returns, goes on with the next attempt with the flag set, so that the
    401 has used one of the [retries] attempts; with the flag set it raises
    at once.  In a state in which no login is due first, a call whose first
    answer is 401 runs the login, whatever calls came before.
    About a whole call: it sends at most [retries] GETs, the 401s included;
    a second 401 within the call is its last event and makes it raise for
    the repeated 401; and it raises that error only when two GETs of this
    very call were answered 401.  With no attempt left the loop raises for
    the exceeded attempts. *)
Theorem robust_get_relogin_once :
  (forall (n attempt : nat) (s : state) (r : response),
      get_reply W (history s) url payload = Responds r ->
      status_code r = 401 ->
      let s1 := record (EvGet url payload (Responds r)) s in
      robust_loop W url payload context (S n) attempt (false, s)
      = match _login W 3 (unauthenticated s1) with
        | (Ok _, s2) => robust_loop W url payload context n (S attempt) (true, s2)
        | (Raise e, s2) => (Raise e, (true, s2))
        end
      /\ robust_loop W url payload context (S n) attempt (true, s)
         = (Raise (RuntimeError (Repeated401 context url)), (true, s1))
      /\ (forall (retries : Z) (require_auth : bool),
             require_auth && negb (authenticated s) = false ->
             0 < retries ->
             _robust_get W url payload retries require_auth context s
             = match _login W 3 (unauthenticated s1) with
               | (Ok _, s2) =>
                   with_frame true
                     (robust_loop W url payload context (Z.to_nat retries - 1) 1) s2
               | (Raise e, s2) => (Raise e, s2)
               end))
  /\ (forall (attempt : nat) (fs : bool * state),
         robust_loop W url payload context 0 attempt fs
         = (Raise (RuntimeError (ExceededRetries context url)), fs))
  /\ (forall (retries : Z) (require_auth : bool) (s s' : state)
             (res : result response) (added : list event),
         _robust_get W url payload retries require_auth context s = (res, s') ->
         history s' = added ++ history s ->
         (List.length (filter is_get added) <= Z.to_nat retries)%nat
         /\ (forall later ev2 mid ev1 earlier,
                added = later ++ ev2 :: mid ++ ev1 :: earlier ->
                unauthorized_get ev1 = true -> unauthorized_get ev2 = true ->
                later = []
                /\ res = Raise (RuntimeError (Repeated401 context url)))
         /\ (res = Raise (RuntimeError (Repeated401 context url)) ->
             exists ev2 mid ev1 earlier,
               added = ev2 :: mid ++ ev1 :: earlier
               /\ unauthorized_get ev1 = true /\ unauthorized_get ev2 = true)).
Proof.
  split.
  - intros n attempt s r Hreply H401 s1.
    assert (Hfirst : forall m a,
               robust_loop W url payload context (S m) a (false, s)
               = match _login W 3 (unauthenticated s1) with
                 | (Ok _, s2) => robust_loop W url payload context m (S a) (true, s2)
                 | (Raise e, s2) => (Raise e, (true, s2))
                 end).
    { intros m a. rewrite robust_loop_step, robust_iteration_cases. cbv zeta.
      rewrite Hreply, H401. simpl. fold s1.
      destruct (_login W 3 (unauthenticated s1)) as [[[]|e] s2]; reflexivity. }
    split; [apply Hfirst|]. split.
    + rewrite robust_loop_step, robust_iteration_cases. cbv zeta.
      rewrite Hreply, H401. reflexivity.
    + intros retries require_auth Hdue Hpos.
      unfold _robust_get. unfold bind at 1. unfold get_self at 1.
      rewrite Hdue. unfold bind at 1. unfold ret at 1.
      destruct (Z.to_nat retries) as [|m] eqn:Hm; [lia|].
      unfold with_frame. rewrite Hfirst.
      replace (S m - 1)%nat with m by lia.
      destruct (_login W 3 (unauthenticated s1)) as [[[]|e] s2]; reflexivity.
  - split; [reflexivity|].
    intros retries require_auth s s' res added Hcall Hhist.
    destruct (robust_get_401 retries require_auth s s' res Hcall)
      as [added' [Ha [Hn [Hiff [Hle Hnew]]]]].
    assert (added' = added) as ->.
    { apply (app_inv_tail (history s)). rewrite <- Ha, Hhist. reflexivity. }
    split; [exact Hn|]. split.
    + intros later ev2 mid ev1 earlier -> Hev1 Hev2.
      assert (Hcount : forall l, count_401 (l ++ ev2 :: mid ++ ev1 :: earlier)
                                 = (count_401 l + (2 + count_401 mid + count_401 earlier))%nat).
      { intros l. rewrite count_401_app.
        change (ev2 :: mid ++ ev1 :: earlier) with ([ev2] ++ mid ++ [ev1] ++ earlier).
        rewrite !count_401_app. unfold count_401 at 2 4. simpl.
        rewrite Hev1, Hev2. simpl. lia. }
      rewrite Hcount in Hle, Hiff, Hnew.
      assert (Htwo : (count_401 later + (2 + count_401 mid + count_401 earlier) = 2)%nat)
        by lia.
      split.
      * destruct later as [|ev later]; [reflexivity|exfalso].
        destruct (Hnew Htwo) as [ev' [rest [Heq Hev']]].
        simpl in Heq. injection Heq as <- _.
        unfold count_401 in Htwo at 1. simpl in Htwo. rewrite Hev' in Htwo.
        simpl in Htwo. lia.
      * apply Hiff in Htwo. destruct res as [x|e]; simpl in Htwo; [discriminate Htwo|].
        injection Htwo as ->. reflexivity.
    + intros ->. simpl in Hiff. destruct Hiff as [Hiff _]. specialize (Hiff eq_refl).
      destruct (Hnew Hiff) as [ev2 [rest [-> Hev2]]].
      assert (Hrest : (0 < count_401 rest)%nat).
      { unfold count_401 in Hiff. simpl in Hiff. rewrite Hev2 in Hiff. simpl in Hiff.
        unfold count_401. lia. }
      destruct (count_401_split rest Hrest) as [mid [ev1 [earlier [-> [Hev1 _]]]]].
      exists ev2, mid, ev1, earlier. repeat split; assumption.
Qed.

End Robust.

Lemma robust_get_fails_immediately_witness :
  fst (_robust_get forbidden_world car_url None 3 true "cars" fresh_client)
  = Raise (RuntimeError (Forbidden403 "cars" car_url)).
Proof.
  pose (run := _robust_get forbidden_world car_url None 3 true "cars" fresh_client).
  destruct (robust_get_fails_immediately forbidden_world car_url None "cars" 3 true
              fresh_client (snd run) (fst run) []
              [EvSleep (1 # 2);
               EvPost auth_url
                 (VDict [("email", VStr (username fresh_client));
                         ("password", VStr (encoded_password fresh_client))])
                 login_ok]
              (mkResponse 403 [] None ""))
    as [_ Hres].
  - vm_compute. reflexivity.
  - vm_compute. reflexivity.
  - discriminate.
  - discriminate.
  - discriminate.
  - exact Hres.
Defined.

(** C1, as the claim has it, fails: with the default [retries = 3], a 401
    on the third GET is followed by the login (which succeeds) and by no
    further GET, although the world would answer the next GET with 200; the
    call raises for the exceeded attempts. *)
Lemma robust_get_401_no_retry_counterexample :
  let run := _robust_get late_401_world car_url None 3 true "cars" logged_in_client in
  fst run = Raise (RuntimeError (ExceededRetries "cars" car_url))
  /\ firstn 3 (history (snd run))
     = [EvSleep (1 # 2);
        EvPost auth_url
          (VDict [("email", VStr (username logged_in_client));
                  ("password", VStr (encoded_password logged_in_client))])
          login_ok;
        EvGet car_url None (reply 401 None)]
  /\ authenticated (snd run) = true
  /\ requested (history (snd run)) = [car_url; car_url; car_url]
  /\ get_reply late_401_world (history (snd run)) car_url None = ok_reply.
Proof. vm_compute. repeat split; reflexivity. Qed.

Lemma robust_get_relogin_once_witness :
  fst (_robust_get stale_session_world car_url None 3 true "cars" logged_in_client)
  = Ok (mkResponse 200 [] (Some (VList [])) "")
  /\ fst (_robust_get twice_401_world car_url None 3 true "cars" logged_in_client)
     = Raise (RuntimeError (Repeated401 "cars" car_url)).
Proof.
  split.
  - rewrite (proj2 (proj2 (proj1 (robust_get_relogin_once stale_session_world car_url
                                     None "cars")
                             2%nat 0%nat logged_in_client (mkResponse 401 [] None "")
                             eq_refl eq_refl)) 3 true eq_refl eq_refl).
    vm_compute. reflexivity.
  - pose (run := _robust_get twice_401_world car_url None 3 true "cars" logged_in_client).
    destruct (proj2 (proj2 (robust_get_relogin_once twice_401_world car_url None "cars"))
                3 true logged_in_client (snd run) (fst run) (history (snd run)))
      as [_ [Hsecond _]].
    + vm_compute. reflexivity.
    + vm_compute. reflexivity.
    + apply (Hsecond []
               (EvGet car_url None (reply 401 None))
               [EvSleep (1 # 2);
                EvPost auth_url
                  (VDict [("email", VStr (username logged_in_client));
                          ("password", VStr (encoded_password logged_in_client))])
                  login_ok]
               (EvGet car_url None (reply 401 None)) []).
      * vm_compute. reflexivity.
      * reflexivity.
      * reflexivity.
Defined.

(* ===================================================================== *)
(** ** Further properties of the session authenticator *)
(* ===================================================================== *)

Lemma ends_with_harmless (classify : event -> option exn) (added : list event)
      (err : option exn) :
  Forall (fun ev => classify ev = None) added -> ends_with classify added err.
Proof.
  destruct added as [|ev rest]; simpl; [trivial|].
  intros H. inversion H as [|? ? Hev Hrest]; subst. split; [exact Hrest|].
  intros x Hx. rewrite Hev in Hx. discriminate Hx.
Qed.

Lemma ends_with_app (classify : event -> option exn) (added older : list event)
      (err : option exn) :
  ends_with classify added err ->
  Forall (fun ev => classify ev = None) older ->
  ends_with classify (added ++ older) err.
Proof.
  destruct added as [|ev rest]; simpl.
  - intros _ H. apply ends_with_harmless. exact H.
  - intros [Hrest Hev] Holder. split; [|exact Hev].
    apply Forall_app. split; assumption.
Qed.

(** From [ends_with] to the place of a classified event in the history. *)
Lemma ends_with_last (classify : event -> option exn) (later earlier : list event)
      (ev : event) (x : exn) (err : option exn) :
  ends_with classify (later ++ ev :: earlier) err ->
  classify ev = Some x ->
  later = [] /\ err = Some x.
Proof.
  intros Hends Hev. destruct later as [|ev' later]; simpl in Hends.
  - split; [reflexivity|]. apply Hends. exact Hev.
  - exfalso. destruct Hends as [Hrest _].
    apply Forall_app in Hrest. destruct Hrest as [_ Hrest].
    inversion Hrest as [|? ? Hnone _]; subst. rewrite Hev in Hnone. discriminate Hnone.
Qed.

Section LoginMore.

Variable W : world.

Lemma login_unfold (retries : Z) (s : state) :
  _login W retries s = login_loop W (credentials s) (Z.to_nat retries) 0 s.
Proof. reflexivity. Qed.

(** The backoff calculator leaves the instance as it is, and adds at most
    one event, which is no request and no sleep. *)
Lemma calculate_backoff_frame (attempt : nat) (reset : option string)
      (s s' : state) (res : result Q) :
  _calculate_backoff W attempt reset s = (res, s') ->
  authenticated s' = authenticated s
  /\ same_account s s'
  /\ exists added,
       history s' = added ++ history s
       /\ Forall (fun ev => is_get ev = false /\ is_post ev = false
                            /\ match ev with EvSleep _ => False | _ => True end) added.
Proof.
  intros H.
  assert (Hone : forall ev,
             is_get ev = false -> is_post ev = false ->
             match ev with EvSleep _ => False | _ => True end ->
             s' = record ev s ->
             authenticated s' = authenticated s
             /\ same_account s s'
             /\ exists added,
                  history s' = added ++ history s
                  /\ Forall (fun ev => is_get ev = false /\ is_post ev = false
                                       /\ match ev with EvSleep _ => False | _ => True end)
                            added).
  { intros ev Hg Hp Hs ->. split; [reflexivity|]. split; [repeat split|].
    exists [ev]. split; [reflexivity|]. repeat constructor; assumption. }
  pose proof (calculate_backoff_cases W attempt reset s) as Hcases. cbv zeta in Hcases.
  destruct (reset_error W reset) as [e|].
  - rewrite Hcases in H. injection H as <- <-.
    split; [reflexivity|]. split; [repeat split|].
    exists []. split; [reflexivity|constructor].
  - destruct (Py.truthy_str reset).
    + destruct Hcases as [w Hw]. rewrite Hw in H. injection H as <- <-.
      apply (Hone (EvNow (clock W (history s)))); trivial.
    + destruct (float_overflow_attempt <=? attempt)%nat;
        rewrite Hcases in H; injection H as <- <-;
        apply (Hone (EvUniform (uniform01 W (history s)))); trivial.
Qed.

(** One pass through the loop of [_login], by the answer to the POST. *)
Lemma login_iteration_cases (data : value) (attempt : nat) (s : state) :
  try_except (login_try W data attempt)
             (fun _ => wait_time <- _calculate_backoff W attempt None ;;
                       time_sleep wait_time ;; ret Continue) s
  = let o := post_reply W (history s) auth_url data in
    let s1 := record (EvPost auth_url data o) s in
    match o with
    | Fails f =>
        if is_network_error (exn_of_failure f) then
          match _calculate_backoff W attempt None s1 with
          | (Ok wait_time, s2) => (Ok Continue, record (EvSleep wait_time) s2)
          | (Raise e, s2) => (Raise e, s2)
          end
        else (Raise (exn_of_failure f), s1)
    | Responds r =>
        if status_code r =? 429 then
          match _calculate_backoff W attempt
                  (headers_get (headers r) "x-ratelimit-reset") s1 with
          | (Ok wait_time, s2) => (Ok Continue, record (EvSleep wait_time) s2)
          | (Raise e, s2) => (Raise e, s2)
          end
        else if status_code r =? 200 then
          match json r with
          | None => (Raise JSONDecodeError, s1)
          | Some body =>
              match Py.get body "authcode" with
              | Raise e => (Raise e, s1)
              | Ok code =>
                  if Py.truthy code
                  then (Ok (Return tt), record (EvSleep (1 # 2)) (logged_in s1))
                  else (Raise (RuntimeError (AuthFailure body)), s1)
              end
          end
        else (Raise (RuntimeError (LoginHTTP (status_code r))), s1)
    end.
Proof.
  unfold try_except, login_try.
  unfold bind at 1. unfold session_post at 1. cbv zeta.
  destruct (post_reply W (history s) auth_url data) as [r|f].
  - destruct (status_code r =? 429).
    + unfold bind at 1.
      destruct (_calculate_backoff W attempt _ _) as [[w|e] s2] eqn:Hb; simpl.
      * reflexivity.
      * rewrite (passes_through_network e
                   (proj1 (calculate_backoff_effect W _ _ _ _ _ Hb) e eq_refl)).
        reflexivity.
    + destruct (status_code r =? 200); [|reflexivity].
      unfold bind at 1. unfold response_json.
      destruct (json r) as [body|]; simpl; [|reflexivity].
      unfold bind at 1. unfold lift_result.
      destruct (Py.get body "authcode") as [code|e] eqn:Hget.
      * destruct (Py.truthy code); reflexivity.
      * destruct body; simpl in Hget; try discriminate Hget;
          injection Hget as <-; reflexivity.
  - destruct (is_network_error (exn_of_failure f)); [|reflexivity].
    unfold bind at 1.
    destruct (_calculate_backoff W attempt None _) as [[w|e] s2]; reflexivity.
Qed.

Lemma login_iteration_shape (data : value) (attempt : nat) (s s' : state)
      (rc : result (ctrl unit)) :
  try_except (login_try W data attempt)
             (fun _ => wait_time <- _calculate_backoff W attempt None ;;
                       time_sleep wait_time ;; ret Continue) s = (rc, s') ->
  let o := post_reply W (history s) auth_url data in
  same_account s s'
  /\ exists q,
       history s' = q ++ EvPost auth_url data o :: history s
       /\ Forall (fun ev => is_get ev = false /\ is_post ev = false) q
       /\ match rc with
          | Ok Continue =>
              authenticated s' = authenticated s /\ login_refusal o = None
              /\ exists d, q = EvSleep d :: tl q
          | Ok (Return _) =>
              authenticated s' = true /\ login_refusal o = None
              /\ q = [EvSleep (1 # 2)]
              /\ exists r, o = Responds r /\ accepts_login r = true
          | Raise e =>
              authenticated s' = authenticated s
              /\ (login_refusal o = None \/ (login_refusal o = Some e /\ q = []))
          end.
Proof.
  rewrite login_iteration_cases. cbv zeta.
  destruct (post_reply W (history s) auth_url data) as [r|f] eqn:Hreply; simpl.
  - destruct (status_code r =? 429) eqn:E429.
    + destruct (_calculate_backoff W attempt _ _) as [bres s2] eqn:Hb.
      destruct (calculate_backoff_frame _ _ _ _ _ Hb) as [Hauth [Hacc [a [Ha Fa]]]].
      assert (Fa' : Forall (fun ev => is_get ev = false /\ is_post ev = false) a).
      { eapply Forall_impl; [|exact Fa]. intros ev [H1 [H2 _]]. split; assumption. }
      destruct bres as [w|e]; intros H; injection H as <- <-.
      * split; [exact Hacc|]. exists (EvSleep w :: a).
        split; [simpl; rewrite Ha; reflexivity|].
        split; [constructor; [split; reflexivity|exact Fa']|].
        split; [exact Hauth|]. split; [reflexivity|]. exists w. reflexivity.
      * split; [exact Hacc|]. exists a. split; [exact Ha|]. split; [exact Fa'|].
        split; [exact Hauth|]. left. reflexivity.
    + destruct (status_code r =? 200) eqn:E200.
      * destruct (json r) as [body|] eqn:Hjson.
        -- destruct (Py.get body "authcode") as [code|e] eqn:Hget.
           ++ destruct (Py.truthy code) eqn:Htruthy; intros H; injection H as <- <-.
              ** split; [repeat split|]. exists [EvSleep (1 # 2)].
                 split; [reflexivity|]. split; [repeat constructor|].
                 split; [reflexivity|]. split; [reflexivity|]. split; [reflexivity|].
                 exists r. split; [reflexivity|].
                 unfold accepts_login. rewrite E200, Hjson, Hget. exact Htruthy.
              ** split; [repeat split|]. exists []. split; [reflexivity|].
                 split; [constructor|]. split; [reflexivity|]. right.
                 split; reflexivity.
           ++ intros H; injection H as <- <-.
              split; [repeat split|]. exists []. split; [reflexivity|].
              split; [constructor|]. split; [reflexivity|]. right. split; reflexivity.
        -- intros H; injection H as <- <-.
           split; [repeat split|]. exists []. split; [reflexivity|].
           split; [constructor|]. split; [reflexivity|]. right. split; reflexivity.
      * intros H; injection H as <- <-.
        split; [repeat split|]. exists []. split; [reflexivity|].
        split; [constructor|]. split; [reflexivity|]. right. split; reflexivity.
  - destruct (is_network_error (exn_of_failure f)) eqn:Hnet.
    + destruct (_calculate_backoff W attempt None _) as [bres s2] eqn:Hb.
      destruct (calculate_backoff_frame _ _ _ _ _ Hb) as [Hauth [Hacc [a [Ha Fa]]]].
      assert (Fa' : Forall (fun ev => is_get ev = false /\ is_post ev = false) a).
      { eapply Forall_impl; [|exact Fa]. intros ev [H1 [H2 _]]. split; assumption. }
      destruct bres as [w|e]; intros H; injection H as <- <-.
      * split; [exact Hacc|]. exists (EvSleep w :: a).
        split; [simpl; rewrite Ha; reflexivity|].
        split; [constructor; [split; reflexivity|exact Fa']|].
        split; [exact Hauth|]. split; [reflexivity|]. exists w. reflexivity.
      * split; [exact Hacc|]. exists a. split; [exact Ha|]. split; [exact Fa'|].
        split; [exact Hauth|]. left. reflexivity.
    + intros H; injection H as <- <-.
      split; [repeat split|]. exists []. split; [reflexivity|].
      split; [constructor|]. split; [reflexivity|]. right. split; reflexivity.
Qed.

Lemma same_account_trans (s1 s2 s3 : state) :
  same_account s1 s2 -> same_account s2 s3 -> same_account s1 s3.
Proof.
  unfold same_account. intros [A1 [A2 A3]] [B1 [B2 B3]].
  repeat split; congruence.
Qed.

Lemma no_post_not_refused (q : list event) :
  Forall (fun ev => is_get ev = false /\ is_post ev = false) q ->
  Forall (fun ev => refused_post ev = None) q
  /\ Forall (fun ev => is_get ev = false) q
  /\ filter is_post q = [].
Proof.
  induction 1 as [|ev q [Hg Hp] _ [IH1 [IH2 IH3]]]; simpl.
  - repeat split; constructor.
  - rewrite Hp. split; [|split; [constructor; assumption|exact IH3]].
    constructor; [|exact IH1]. destruct ev; try reflexivity. discriminate Hp.
Qed.

(** The loop of [_login]: what it adds to the history and how it leaves
    [self.authenticated]. *)
Lemma login_loop_outcome (data : value) (n : nat) :
  forall (attempt : nat) (s s' : state) (res : result unit),
    login_loop W data n attempt s = (res, s') ->
    same_account s s'
    /\ exists added,
         history s' = added ++ history s
         /\ Forall (fun ev => is_get ev = false) added
         /\ (List.length (filter is_post added) <= n)%nat
         /\ ends_with refused_post added (error_of res)
         /\ match res with
            | Ok _ =>
                authenticated s' = true
                /\ exists r rest,
                     added = EvSleep (1 # 2) :: EvPost auth_url data (Responds r) :: rest
                     /\ accepts_login r = true
            | Raise _ => authenticated s' = authenticated s
            end.
Proof.
  induction n as [|n IH]; intros attempt s s' res.
  - intros H. injection H as <- <-. split; [repeat split|].
    exists []. simpl. repeat split; auto.
  - unfold login_loop. simpl. unfold bind at 1.
    destruct (try_except (login_try W data attempt) _ s) as [rc s1] eqn:Hit.
    destruct (login_iteration_shape data attempt s s1 rc Hit) as [Hacc [q [Hq [Fq Hrc]]]].
    set (o := post_reply W (history s) auth_url data) in *.
    destruct (no_post_not_refused q Fq) as [Fref [Fget Fpost]].
    assert (Hlen : forall a, List.length (filter is_post (a ++ q ++ [EvPost auth_url data o]))
                             = S (List.length (filter is_post a))).
    { intros a. rewrite !filter_app, Fpost, !length_app. simpl. lia. }
    assert (Hgets : forall a, Forall (fun ev => is_get ev = false) a ->
                              Forall (fun ev => is_get ev = false)
                                     (a ++ q ++ [EvPost auth_url data o])).
    { intros a Fa. apply Forall_app. split; [exact Fa|].
      apply Forall_app. split; [exact Fget|]. repeat constructor. }
    destruct rc as [[|[]]|e].
    + (* the loop goes on *)
      destruct Hrc as [Hauth [Href _]].
      fold (login_loop W data n (S attempt)).
      intros H. destruct (IH _ _ _ _ H) as [Hacc' [a [Ha [Fa [Hn [Hends Hres]]]]]].
      split; [eapply same_account_trans; eassumption|].
      exists (a ++ q ++ [EvPost auth_url data o]).
      split; [rewrite Ha, Hq, <- !app_assoc; reflexivity|].
      split; [apply Hgets; exact Fa|]. rewrite Hlen. split; [lia|]. split.
      * apply ends_with_app; [exact Hends|].
        apply Forall_app. split; [exact Fref|].
        constructor; [exact Href|constructor].
      * destruct res as [[]|e].
        -- destruct Hres as [Htrue [r [rest [-> Hacc_r]]]]. split; [exact Htrue|].
           exists r, (rest ++ q ++ [EvPost auth_url data o]). split; [reflexivity|exact Hacc_r].
        -- rewrite Hres. exact Hauth.
    + (* the login succeeded *)
      destruct Hrc as [Htrue [Href [-> [r [Ho Hacc_r]]]]].
      intros H. injection H as <- <-. split; [exact Hacc|].
      exists ([] ++ [EvSleep (1 # 2)] ++ [EvPost auth_url data o]).
      split; [rewrite Hq; reflexivity|].
      split; [apply Hgets; constructor|]. rewrite Hlen. split; [simpl; lia|]. split.
      * apply ends_with_harmless. simpl. constructor; [reflexivity|].
        constructor; [exact Href|constructor].
      * split; [exact Htrue|]. exists r, []. rewrite Ho. split; [reflexivity|exact Hacc_r].
    + (* the login raised *)
      destruct Hrc as [Hauth Href].
      intros H. injection H as <- <-. split; [exact Hacc|].
      exists ([] ++ q ++ [EvPost auth_url data o]).
      split; [rewrite Hq; simpl; rewrite <- app_assoc; reflexivity|].
      split; [apply Hgets; constructor|]. rewrite Hlen. split; [simpl; lia|].
      split; [|exact Hauth].
      destruct Href as [Hnone|[Hsome ->]].
      * apply ends_with_harmless. simpl. apply Forall_app. split; [exact Fref|].
        constructor; [exact Hnone|constructor].
      * simpl. split; [constructor|]. intros x Hx. rewrite Hsome in Hx. exact Hx.
Qed.

(** X1. [_login] sends at most [retries] POSTs and no GET and leaves the
    account data alone.  When it returns, [self.authenticated] is [True] and
    the last it did was a POST of the credentials that was answered 200 with
    a true authcode, then a sleep of half a second.  When it raises,
    [self.authenticated] is what it was. *)
Theorem login_outcome (retries : Z) (s s' : state) (res : result unit)
        (added : list event) :
  _login W retries s = (res, s') ->
  history s' = added ++ history s ->
  same_account s s'
  /\ Forall (fun ev => is_get ev = false) added
  /\ (List.length (filter is_post added) <= Z.to_nat retries)%nat
  /\ match res with
     | Ok _ =>
         authenticated s' = true
         /\ exists r earlier,
              added = EvSleep (1 # 2)
                        :: EvPost auth_url (credentials s) (Responds r) :: earlier
              /\ accepts_login r = true
     | Raise _ => authenticated s' = authenticated s
     end.
Proof.
  rewrite login_unfold. intros Hrun Hhist.
  destruct (login_loop_outcome _ _ _ _ _ _ Hrun) as [Hacc [a [Ha [Fa [Hn [_ Hres]]]]]].
  assert (a = added) as ->.
  { apply (app_inv_tail (history s)). rewrite <- Ha, Hhist. reflexivity. }
  repeat split; try apply Hacc; assumption.
Qed.

(** X2. [_login] does not retry a refusal: when a POST of the login is
    answered 200 without a true authcode (or with a body that is no JSON
    object), or with a status other than 200 and 429, or fails in another way
    than by a timeout or a connection error, that POST is the last thing the
    login does, and the login raises the error of that answer. *)
Theorem login_fails_immediately (retries : Z) (s s' : state) (res : result unit)
        (later earlier : list event) (url : string) (data : value) (o : outcome)
        (e : exn) :
  _login W retries s = (res, s') ->
  history s' = later ++ EvPost url data o :: earlier ++ history s ->
  login_refusal o = Some e ->
  later = [] /\ res = Raise e.
Proof.
  rewrite login_unfold. intros Hrun Hhist Hrefused.
  destruct (login_loop_outcome _ _ _ _ _ _ Hrun) as [_ [a [Ha [_ [_ [Hends _]]]]]].
  assert (a = later ++ EvPost url data o :: earlier) as ->.
  { apply (app_inv_tail (history s)). rewrite <- Ha, Hhist, <- app_assoc. reflexivity. }
  destruct (ends_with_last refused_post later earlier _ e _ Hends Hrefused) as [-> Herr].
  split; [reflexivity|]. destruct res as [x|e']; simpl in Herr; [discriminate Herr|].
  injection Herr as ->. reflexivity.
Qed.

Lemma login_loop_step (data : value) (n attempt : nat) (s : state) :
  login_loop W data (S n) attempt s
  = match try_except (login_try W data attempt)
                     (fun _ => wait_time <- _calculate_backoff W attempt None ;;
                               time_sleep wait_time ;; ret Continue) s with
    | (Ok Continue, s1) => login_loop W data n (S attempt) s1
    | (Ok (Return a), s1) => (Ok a, s1)
    | (Raise e, s1) => (Raise e, s1)
    end.
Proof.
  unfold login_loop. simpl. unfold bind at 1.
  destruct (try_except _ _ s) as [[[|a]|e] s1]; reflexivity.
Qed.

Lemma slept_app (a b : list event) : slept (a ++ b) = slept b ++ slept a.
Proof. unfold slept. rewrite rev_app_distr, flat_map_app. reflexivity. Qed.

(** A pass of the loop of [_login] that gets a retryable answer sleeps
    and goes on. *)
Lemma login_iteration_retryable (data : value) (attempt : nat) (s : state) :
  retryable (post_reply W (history s) auth_url data) = true ->
  (attempt < float_overflow_attempt)%nat ->
  exists q s1,
    try_except (login_try W data attempt)
               (fun _ => wait_time <- _calculate_backoff W attempt None ;;
                         time_sleep wait_time ;; ret Continue) s = (Ok Continue, s1)
    /\ authenticated s1 = authenticated s
    /\ history s1 = q ++ history s
    /\ List.length (filter is_post q) = 1%nat
    /\ List.length (slept q) = 1%nat
    /\ exists d rest, q = EvSleep d :: rest.
Proof.
  intros Hretry Hsmall. rewrite login_iteration_cases. cbv zeta.
  destruct (post_reply W (history s) auth_url data) as [r|f]; simpl in Hretry.
  - apply andb_prop in Hretry. destruct Hretry as [E429 Hreset]. rewrite E429.
    apply negb_true_iff in Hreset.
    rewrite (calculate_backoff_fallback W attempt _ _ Hreset Hsmall).
    eexists [EvSleep _; EvUniform _; EvPost auth_url data (Responds r)].
    eexists. split; [reflexivity|]. repeat split. eexists. eexists. reflexivity.
  - rewrite Hretry.
    rewrite (calculate_backoff_fallback W attempt None _ eq_refl Hsmall).
    eexists [EvSleep _; EvUniform _; EvPost auth_url data (Fails f)].
    eexists. split; [reflexivity|]. repeat split. eexists. eexists. reflexivity.
Qed.

(** The loop of [_login] in a world that only gives retryable answers. *)
Lemma login_loop_exhausted (data : value) (n : nat) :
  (forall h, retryable (post_reply W h auth_url data) = true) ->
  forall (attempt : nat) (s : state),
  (attempt + n <= float_overflow_attempt)%nat ->
  exists s' added,
    login_loop W data n attempt s = (Raise (RuntimeError LoginFailedAfterRetries), s')
    /\ authenticated s' = authenticated s
    /\ history s' = added ++ history s
    /\ List.length (filter is_post added) = n
    /\ List.length (slept added) = n
    /\ match added with
       | [] => n = 0%nat
       | ev :: _ => exists d, ev = EvSleep d
       end.
Proof.
  intros Hall. induction n as [|n IH]; intros attempt s Hfew.
  - exists s, []. repeat split.
  - rewrite login_loop_step.
    destruct (login_iteration_retryable data attempt s (Hall (history s)))
      as [q [s1 [Hstep [Hauth1 [Hq [Hp1 [Hs1 [d [rest Hd]]]]]]]]]; [lia|].
    rewrite Hstep.
    destruct (IH (S attempt) s1) as [s' [a [Hrun [Hauth [Ha [Hp [Hs Hnew]]]]]]]; [lia|].
    exists s', (a ++ q). split; [exact Hrun|]. split; [congruence|].
    split; [rewrite Ha, Hq, app_assoc; reflexivity|].
    rewrite filter_app, length_app, slept_app, length_app, Hp, Hs, Hp1, Hs1.
    split; [lia|]. split; [lia|].
    destruct a as [|ev a]; simpl.
    + rewrite Hd. exists d. reflexivity.
    + exact Hnew.
Qed.

(** X3. When every POST of the login times out, finds no connection or is
    answered 429 without a reset hint, and [retries] is at most 1024 (the
    backoff of attempt 1024 raises [OverflowError]), [_login] raises "Login
    failed after retries" after exactly [retries] POSTs and as many sleeps,
    the last of them after the last POST, and [self.authenticated] is what
    it was. *)
Theorem login_exhausts_retries (retries : Z) (s : state) :
  (forall h, retryable (post_reply W h auth_url (credentials s)) = true) ->
  retries <= 1024 ->
  exists s' added,
    _login W retries s = (Raise (RuntimeError LoginFailedAfterRetries), s')
    /\ authenticated s' = authenticated s
    /\ history s' = added ++ history s
    /\ List.length (filter is_post added) = Z.to_nat retries
    /\ List.length (slept added) = Z.to_nat retries
    /\ (0 < retries -> exists d rest, added = EvSleep d :: rest).
Proof.
  intros Hall Hfew. rewrite login_unfold.
  destruct (login_loop_exhausted (credentials s) (Z.to_nat retries) Hall 0%nat s)
    as [s' [added [Hrun [Hauth [Ha [Hp [Hs Hnew]]]]]]].
  { unfold float_overflow_attempt. lia. }
  exists s', added. repeat split; try assumption.
  intros Hpos. destruct added as [|ev rest]; [lia|].
  destruct Hnew as [d ->]. exists d, rest. reflexivity.
Qed.

End LoginMore.

Lemma login_outcome_witness :
  authenticated (snd (_login forbidden_world 3 fresh_client)) = true
  /\ (List.length (filter is_post (history (snd (_login forbidden_world 3 fresh_client))))
      <= 3)%nat.
Proof.
  pose (run := _login forbidden_world 3 fresh_client).
  destruct (login_outcome forbidden_world 3 fresh_client (snd run) (Ok tt)
              (history (snd run)))
    as [_ [_ [Hposts [Hauth _]]]].
  - vm_compute. reflexivity.
  - vm_compute. reflexivity.
  - split; [exact Hauth|exact Hposts].
Defined.

Lemma login_fails_immediately_witness :
  fst (_login broken_login_world 3 fresh_client) = Raise (RuntimeError (LoginHTTP 500)).
Proof.
  pose (run := _login broken_login_world 3 fresh_client).
  destruct (login_fails_immediately broken_login_world 3 fresh_client (snd run) (fst run)
              [] [] auth_url (credentials fresh_client) (reply 500 None)
              (RuntimeError (LoginHTTP 500)))
    as [_ Hres].
  - vm_compute. reflexivity.
  - vm_compute. reflexivity.
  - reflexivity.
  - exact Hres.
Defined.

Lemma login_exhausts_retries_witness :
  exists s' added,
    _login offline_world 3 fresh_client
    = (Raise (RuntimeError LoginFailedAfterRetries), s')
    /\ history s' = added ++ history fresh_client
    /\ List.length (filter is_post added) = 3%nat
    /\ List.length (slept added) = 3%nat.
Proof.
  destruct (login_exhausts_retries offline_world 3 fresh_client)
    as [s' [added [Hrun [_ [Hhist [Hposts [Hsleeps _]]]]]]].
  - intros h. simpl. destruct (List.length (filter is_post h)); reflexivity.
  - lia.
  - exists s', added. repeat split; assumption.
Defined.

(* ===================================================================== *)
(** ** Further properties of the resilient requester *)
(* ===================================================================== *)

Section BackoffMore.

Variable W : world.

(** When the backoff calculator raises: on a reset hint that [int] or
    [datetime.fromtimestamp] refuses, without touching the state; and
    otherwise only with [OverflowError], from attempt 1024 on, after the
    draw. *)
Lemma calculate_backoff_raises (attempt : nat) (reset : option string) (s : state) :
  match reset_error W reset with
  | Some e => _calculate_backoff W attempt reset s = (Raise e, s)
  | None =>
      exists res ev,
        _calculate_backoff W attempt reset s = (res, record ev s)
        /\ is_get ev = false /\ is_post ev = false
        /\ (forall d, ev <> EvSleep d)
        /\ (forall e, res = Raise e ->
                      e = OverflowError /\ (float_overflow_attempt <= attempt)%nat
                      /\ Py.truthy_str reset = false)
  end.
Proof.
  pose proof (calculate_backoff_cases W attempt reset s) as Hcases. cbv zeta in Hcases.
  destruct (reset_error W reset) as [e|]; [exact Hcases|].
  destruct (Py.truthy_str reset).
  - destruct Hcases as [w Hw]. exists (Ok w), (EvNow (clock W (history s))).
    split; [exact Hw|]. repeat split; discriminate.
  - destruct (float_overflow_attempt <=? attempt)%nat eqn:E.
    + eexists. eexists. split; [exact Hcases|]. repeat split; try discriminate.
      * injection H as <-. reflexivity.
      * apply Nat.leb_le. exact E.
    + eexists. eexists. split; [exact Hcases|]. repeat split; discriminate.
Qed.

End BackoffMore.

Section RobustMore.

Variable W : world.
Variable url : string.
Variable payload : option value.
Variable context : string.

(** A pass of the loop of [_robust_get] that gets a retryable answer
    sleeps for the exponential backoff of its attempt and goes on. *)
Lemma robust_iteration_retryable (attempt : nat) (flag : bool) (s : state) :
  retryable (get_reply W (history s) url payload) = true ->
  (attempt < float_overflow_attempt)%nat ->
  let s1 := record (EvGet url payload (get_reply W (history s) url payload)) s in
  let u := uniform01 W (history s1) in
  try_except (robust_try W url payload context attempt)
             (fun _ => robust_except W attempt) (flag, s)
  = (Ok Continue,
     (flag, record (EvSleep (exponential attempt u)) (record (EvUniform u) s1))).
Proof.
  intros Hretry Hsmall. rewrite robust_iteration_cases. cbv zeta.
  destruct (get_reply W (history s) url payload) as [r|f]; simpl in Hretry.
  - apply andb_prop in Hretry. destruct Hretry as [E429 Hreset].
    apply negb_true_iff in Hreset.
    assert (E401 : (status_code r =? 401) = false).
    { apply Z.eqb_eq in E429. rewrite E429. reflexivity. }
    assert (E403 : (status_code r =? 403) = false).
    { apply Z.eqb_eq in E429. rewrite E429. reflexivity. }
    rewrite E401, E403, E429.
    rewrite (calculate_backoff_fallback W attempt _ _ Hreset Hsmall). reflexivity.
  - rewrite Hretry.
    rewrite (calculate_backoff_fallback W attempt None _ eq_refl Hsmall). reflexivity.
Qed.

(** From attempt 1024 on, such a pass draws the jitter and raises
    [OverflowError]: it does not sleep. *)
Lemma robust_iteration_overflow (attempt : nat) (flag : bool) (s : state) :
  retryable (get_reply W (history s) url payload) = true ->
  (float_overflow_attempt <= attempt)%nat ->
  let s1 := record (EvGet url payload (get_reply W (history s) url payload)) s in
  try_except (robust_try W url payload context attempt)
             (fun _ => robust_except W attempt) (flag, s)
  = (Raise OverflowError, (flag, record (EvUniform (uniform01 W (history s1))) s1)).
Proof.
  intros Hretry Hbig. rewrite robust_iteration_cases. cbv zeta.
  destruct (get_reply W (history s) url payload) as [r|f]; simpl in Hretry.
  - apply andb_prop in Hretry. destruct Hretry as [E429 Hreset].
    apply negb_true_iff in Hreset.
    assert (E401 : (status_code r =? 401) = false).
    { apply Z.eqb_eq in E429. rewrite E429. reflexivity. }
    assert (E403 : (status_code r =? 403) = false).
    { apply Z.eqb_eq in E429. rewrite E429. reflexivity. }
    rewrite E401, E403, E429.
    rewrite (calculate_backoff_overflow W attempt _ _ Hreset Hbig). reflexivity.
  - rewrite Hretry.
    rewrite (calculate_backoff_overflow W attempt None _ eq_refl Hbig). reflexivity.
Qed.

(** What one pass does to the instance, and when it raises for a
    breakdown. *)
Lemma robust_iteration_more (attempt : nat) (flag flag' : bool) (s s' : state)
      (rc : result (ctrl response)) :
  try_except (robust_try W url payload context attempt)
             (fun _ => robust_except W attempt) (flag, s) = (rc, (flag', s')) ->
  let o := get_reply W (history s) url payload in
  same_account s s'
  /\ exists q,
       history s' = q ++ EvGet url payload o :: history s
       /\ Forall (fun ev => is_get ev = false) q
       /\ match rc with
          | Ok Continue =>
              (authenticated s = true -> authenticated s' = true)
              /\ get_breakdown W o = None
          | Ok (Return r) =>
              o = Responds r /\ status_code r = 200 /\ q = []
              /\ authenticated s' = authenticated s
          | Raise e =>
              get_breakdown W o = None \/ (get_breakdown W o = Some e /\ q = [])
          end.
Proof.
  rewrite robust_iteration_cases. cbv zeta.
  destruct (get_reply W (history s) url payload) as [r|f] eqn:Hreply; simpl.
  - destruct (status_code r =? 401) eqn:E401.
    + assert (E429 : (status_code r =? 429) = false).
      { apply Z.eqb_eq in E401. rewrite E401. reflexivity. }
      rewrite E429. simpl.
      destruct flag.
      * intros H. injection H as <- <- <-. split; [repeat split|].
        exists []. split; [reflexivity|]. split; [constructor|]. left. reflexivity.
      * destruct (_login W 3 _) as [lres s2] eqn:Hlogin.
        rewrite login_unfold in Hlogin.
        destruct (login_loop_outcome W _ _ _ _ _ _ Hlogin)
          as [Hacc [a [Ha [Fa [_ [_ Hres]]]]]].
        destruct lres as [[]|e]; intros H; injection H as <- <- <-;
          (split; [exact Hacc|]); exists a; (split; [exact Ha|]); (split; [exact Fa|]).
        -- split; [|reflexivity]. intros _. apply Hres.
        -- left. reflexivity.
    + destruct (status_code r =? 403) eqn:E403.
      * assert (E429 : (status_code r =? 429) = false).
        { apply Z.eqb_eq in E403. rewrite E403. reflexivity. }
        rewrite E429. simpl.
        intros H. injection H as <- <- <-. split; [repeat split|].
        exists []. split; [reflexivity|]. split; [constructor|]. left. reflexivity.
      * destruct (status_code r =? 429) eqn:E429; simpl.
        -- pose proof (calculate_backoff_raises W attempt
                         (headers_get (headers r) "x-ratelimit-reset")
                         (record (EvGet url payload (Responds r)) s)) as Hb.
           destruct (reset_error W (headers_get (headers r) "x-ratelimit-reset")).
           ++ rewrite Hb. intros H. injection H as <- <- <-. split; [repeat split|].
              exists []. split; [reflexivity|]. split; [constructor|].
              right. split; reflexivity.
           ++ destruct Hb as [bres [ev [Hb [Hg _]]]]. rewrite Hb.
              destruct bres as [w|e]; intros H; injection H as <- <- <-;
                (split; [repeat split|]).
              ** exists [EvSleep w; ev]. split; [reflexivity|].
                 split; [repeat constructor; exact Hg|]. split; [|reflexivity].
                 intros Hauth. exact Hauth.
              ** exists [ev]. split; [reflexivity|].
                 split; [repeat constructor; exact Hg|]. left. reflexivity.
        -- destruct (status_code r =? 200) eqn:E200; intros H; injection H as <- <- <-;
             (split; [repeat split|]); exists []; (split; [reflexivity|]);
             (split; [constructor|]).
           ++ apply Z.eqb_eq in E200. repeat split. exact E200.
           ++ left. reflexivity.
  - destruct (is_network_error (exn_of_failure f)) eqn:Hnet.
    + pose proof (calculate_backoff_raises W attempt None
                    (record (EvGet url payload (Fails f)) s)) as Hb.
      simpl in Hb. destruct Hb as [bres [ev [Hb [Hg _]]]]. rewrite Hb.
      destruct bres as [w|e]; intros H; injection H as <- <- <-;
        (split; [repeat split|]).
      * exists [EvSleep w; ev]. split; [reflexivity|].
        split; [repeat constructor; exact Hg|]. split; [|reflexivity].
        intros Hauth. exact Hauth.
      * exists [ev]. split; [reflexivity|].
        split; [repeat constructor; exact Hg|]. left. reflexivity.
    + intros H; injection H as <- <- <-; (split; [repeat split|]).
      exists []. split; [reflexivity|]. split; [constructor|]. right. split; reflexivity.
Qed.

Lemma quiet_not_broken (q : list event) :
  Forall (fun ev => is_get ev = false) q ->
  Forall (fun ev => broken_get W ev = None) q.
Proof.
  apply Forall_impl. intros [] H; try reflexivity. discriminate H.
Qed.

(** The loop: what a returned response is, and when the loop raises for a
    breakdown. *)
Lemma robust_loop_more (n : nat) :
  forall (attempt : nat) (flag flag' : bool) (s s' : state) (res : result response),
    robust_loop W url payload context n attempt (flag, s) = (res, (flag', s')) ->
    same_account s s'
    /\ exists added,
         history s' = added ++ history s
         /\ ends_with (broken_get W) added (error_of res)
         /\ match res with
            | Ok r =>
                status_code r = 200
                /\ (authenticated s = true -> authenticated s' = true)
                /\ exists earlier, added = EvGet url payload (Responds r) :: earlier
            | Raise _ => True
            end.
Proof.
  induction n as [|n IH]; intros attempt flag flag' s s' res.
  - intros H. injection H as <- <- <-. split; [repeat split|].
    exists []. repeat split.
  - rewrite robust_loop_step.
    destruct (try_except _ _ (flag, s)) as [rc [flag1 s1]] eqn:Hit.
    destruct (robust_iteration_more attempt flag flag1 s s1 rc Hit)
      as [Hacc [q [Hq [Fq Hrc]]]].
    set (o := get_reply W (history s) url payload) in *.
    pose proof (quiet_not_broken q Fq) as Fb.
    destruct rc as [[|r]|e].
    + destruct Hrc as [Hauth Hnone].
      intros H. destruct (IH _ _ _ _ _ _ H) as [Hacc' [a [Ha [Hends Hres]]]].
      split; [eapply same_account_trans; eassumption|].
      exists (a ++ q ++ [EvGet url payload o]).
      split; [rewrite Ha, Hq, <- !app_assoc; reflexivity|]. split.
      * apply ends_with_app; [exact Hends|]. apply Forall_app. split; [exact Fb|].
        constructor; [exact Hnone|constructor].
      * destruct res as [r|e]; [|exact I].
        destruct Hres as [H200 [Hkeep [earlier ->]]].
        split; [exact H200|]. split; [intros Ht; apply Hkeep, Hauth, Ht|].
        eexists. reflexivity.
    + destruct Hrc as [Ho [H200 [-> Hauth]]].
      intros H. injection H as <- <- <-. split; [exact Hacc|].
      exists [EvGet url payload o]. split; [exact Hq|]. split.
      * apply ends_with_harmless. constructor; [|constructor]. simpl.
        rewrite Ho. simpl. apply Z.eqb_eq in H200.
        assert (E429 : (status_code r =? 429) = false).
        { apply Z.eqb_eq in H200. rewrite H200. reflexivity. }
        rewrite E429. reflexivity.
      * split; [exact H200|]. split; [intros Ht; rewrite Hauth; exact Ht|].
        exists []. rewrite Ho. reflexivity.
    + intros H. injection H as <- <- <-. split; [exact Hacc|].
      exists (q ++ [EvGet url payload o]).
      split; [rewrite Hq, <- app_assoc; reflexivity|]. split; [|exact I].
      destruct Hrc as [Hnone|[Hsome ->]].
      * apply ends_with_harmless. apply Forall_app. split; [exact Fb|].
        constructor; [exact Hnone|constructor].
      * simpl. split; [constructor|]. intros x Hx. rewrite Hsome in Hx. exact Hx.
Qed.

(** The same for a call. *)
Lemma robust_get_more (retries : Z) (require_auth : bool) (s s' : state)
      (res : result response) :
  _robust_get W url payload retries require_auth context s = (res, s') ->
  same_account s s'
  /\ exists added,
       history s' = added ++ history s
       /\ ends_with (broken_get W) added (error_of res)
       /\ match res with
          | Ok r =>
              status_code r = 200
              /\ (require_auth = true \/ authenticated s = true ->
                  authenticated s' = true)
              /\ exists earlier, added = EvGet url payload (Responds r) :: earlier
          | Raise _ => True
          end.
Proof.
  unfold _robust_get. unfold bind at 1. unfold get_self at 1. unfold bind at 1.
  destruct (require_auth && negb (authenticated s)) eqn:Hdue.
  - destruct (_login W 3 s) as [[[]|e] s1] eqn:Hlogin; rewrite login_unfold in Hlogin;
      destruct (login_loop_outcome W _ _ _ _ _ _ Hlogin)
        as [Hacc [a [Ha [Fa [_ [_ Hres]]]]]].
    + unfold with_frame.
      destruct (robust_loop W url payload context (Z.to_nat retries) 0 (false, s1))
        as [res1 [flag1 s2]] eqn:Hloop.
      destruct (robust_loop_more _ _ _ _ _ _ _ Hloop) as [Hacc' [a' [Ha' [Hends Hok]]]].
      intros H. injection H as <- <-.
      split; [eapply same_account_trans; eassumption|].
      exists (a' ++ a). split; [simpl; rewrite Ha', Ha, app_assoc; reflexivity|].
      split; [apply ends_with_app; [exact Hends|apply quiet_not_broken; exact Fa]|].
      destruct res1 as [r|e]; [|exact I].
      destruct Hok as [H200 [Hkeep [earlier ->]]]. split; [exact H200|].
      split; [intros _; apply Hkeep, Hres|]. eexists. reflexivity.
    + intros H. injection H as <- <-. split; [exact Hacc|].
      exists a. split; [exact Ha|]. split; [|exact I].
      apply ends_with_harmless, quiet_not_broken. exact Fa.
  - unfold ret at 1. unfold with_frame.
    destruct (robust_loop W url payload context (Z.to_nat retries) 0 (false, s))
      as [res1 [flag1 s2]] eqn:Hloop.
    destruct (robust_loop_more _ _ _ _ _ _ _ Hloop) as [Hacc' [a' [Ha' [Hends Hok]]]].
    intros H. injection H as <- <-. split; [exact Hacc'|].
    exists a'. split; [exact Ha'|]. split; [exact Hends|].
    destruct res1 as [r|e]; [|exact I].
    destruct Hok as [H200 [Hkeep [earlier ->]]]. split; [exact H200|].
    split; [|eexists; reflexivity].
    intros [Hreq|Hauth]; [|apply Hkeep, Hauth].
    apply Hkeep. subst require_auth. simpl in Hdue.
    destruct (authenticated s); [reflexivity|discriminate Hdue].
Qed.

(** X4. [_robust_get] returns only what was answered with status 200, and
    that answer is the last thing that happened in the call; the account
    data are left alone, and when authentication was required, or the session
    was authenticated before, [self.authenticated] is [True] afterwards. *)
Theorem robust_get_returns_200 (retries : Z) (require_auth : bool) (s s' : state)
        (r : response) :
  _robust_get W url payload retries require_auth context s = (Ok r, s') ->
  status_code r = 200
  /\ (exists earlier,
         history s' = EvGet url payload (Responds r) :: earlier ++ history s)
  /\ same_account s s'
  /\ (require_auth = true \/ authenticated s = true -> authenticated s' = true).
Proof.
  intros Hcall.
  destruct (robust_get_more retries require_auth s s' (Ok r) Hcall)
    as [Hacc [added [Ha [_ [H200 [Hauth [earlier ->]]]]]]].
  split; [exact H200|]. split; [exists earlier; exact Ha|]. split; assumption.
Qed.

(** X5. [_robust_get] does not retry a breakdown: when a GET of the call is
    answered 429 with a reset hint that is not empty and that either [int]
    does not read or [datetime.fromtimestamp] refuses, or fails in another
    way than by a timeout or a connection error, that GET is the last thing
    the call does (no sleep follows), and the call raises the exception of
    the breakdown: [ValueError] of [int]; [OverflowError], [OSError] or
    [ValueError] of [datetime.fromtimestamp], as the platform has it; or the
    exception of the failure. *)
Theorem robust_get_breaks_down (retries : Z) (require_auth : bool) (s s' : state)
        (res : result response) (later earlier : list event) (u : string)
        (p : option value) (o : outcome) (e : exn) :
  _robust_get W url payload retries require_auth context s = (res, s') ->
  history s' = later ++ EvGet u p o :: earlier ++ history s ->
  get_breakdown W o = Some e ->
  later = [] /\ res = Raise e.
Proof.
  intros Hcall Hhist Hbroken.
  destruct (robust_get_more retries require_auth s s' res Hcall)
    as [_ [added [Ha [Hends _]]]].
  assert (added = later ++ EvGet u p o :: earlier) as ->.
  { apply (app_inv_tail (history s)). rewrite <- Ha, Hhist, <- app_assoc. reflexivity. }
  destruct (ends_with_last (broken_get W) later earlier _ e _ Hends Hbroken) as [-> Herr].
  split; [reflexivity|]. destruct res as [x|e']; simpl in Herr; [discriminate Herr|].
  injection Herr as ->. reflexivity.
Qed.

End RobustMore.

Lemma drawn_app (a b : list event) : drawn (a ++ b) = drawn b ++ drawn a.
Proof. unfold drawn. rewrite rev_app_distr, flat_map_app. reflexivity. Qed.

Section RobustSchedule.

Variable W : world.
Variable url : string.
Variable payload : option value.
Variable context : string.
Variable script : nat -> outcome.
Hypothesis Hscript : answers_by_count W url payload script.

(** The loop of [_robust_get] over [k] retryable answers: [k] GETs, each
    followed by a draw and a sleep, and the loop goes on with what is left
    of its budget. *)
Lemma robust_loop_retryable (k : nat) :
  forall (n attempt : nat) (flag : bool) (s : state),
    (forall i, (i < k)%nat ->
               retryable (script (List.length (filter is_get (history s)) + i)) = true) ->
    (attempt + k <= float_overflow_attempt)%nat ->
    exists s1 added,
      robust_loop W url payload context (k + n) attempt (flag, s)
      = robust_loop W url payload context n (attempt + k) (flag, s1)
      /\ authenticated s1 = authenticated s
      /\ same_account s s1
      /\ history s1 = added ++ history s
      /\ List.length (filter is_get added) = k
      /\ filter is_post added = []
      /\ List.length (drawn added) = k
      /\ slept added = exponential_series attempt (drawn added)
      /\ match added with
         | [] => k = 0%nat
         | ev :: _ => exists d, ev = EvSleep d
         end.
Proof.
  induction k as [|k IH]; intros n attempt flag s Hall Hfew.
  - exists s, []. rewrite Nat.add_0_r. repeat split.
  - change (S k + n)%nat with (S (k + n)). rewrite robust_loop_step.
    assert (Hfirst : retryable (get_reply W (history s) url payload) = true).
    { rewrite Hscript. rewrite <- (Nat.add_0_r (List.length _)). apply Hall. lia. }
    assert (Hsmall : (attempt < float_overflow_attempt)%nat) by lia.
    rewrite (robust_iteration_retryable W url payload context attempt flag s Hfirst Hsmall).
    cbv zeta.
    set (o := get_reply W (history s) url payload).
    set (u := uniform01 W (history (record (EvGet url payload o) s))).
    set (s2 := record (EvSleep (exponential attempt u))
                 (record (EvUniform u) (record (EvGet url payload o) s))).
    destruct (IH n (S attempt) flag s2) as [s1 [a [Hrun [Hauth [Hacc [Ha [Hg [Hp [Hd [Hs Hnew]]]]]]]]]].
    { intros i Hi. simpl. rewrite <- Nat.add_succ_r. apply Hall. lia. }
    { lia. }
    exists s1, (a ++ [EvSleep (exponential attempt u); EvUniform u; EvGet url payload o]).
    split; [rewrite Hrun, Nat.add_succ_r; reflexivity|].
    split; [exact Hauth|]. split; [exact Hacc|].
    split; [rewrite Ha, <- app_assoc; reflexivity|].
    rewrite !filter_app, length_app, drawn_app, slept_app, length_app, Hg, Hp, Hd, Hs.
    split; [simpl; lia|]. split; [reflexivity|]. split; [simpl; lia|].
    split.
    + unfold exponential_series. simpl. rewrite Hd. reflexivity.
    + destruct a as [|ev a]; simpl; [eexists; reflexivity|exact Hnew].
Qed.

(** X6. [_robust_get] waits out timeouts, connection errors and 429s
    without a reset hint: when the next [k] GETs get such answers, the one
    after them is answered 200, [k < retries] and [k] is at most 1024 (the
    backoff of attempt 1024 raises [OverflowError]), the call returns that
    answer after [k + 1] GETs and [k] sleeps, without a login; the sleep
    after attempt [a] (counted from 0) lasts [min(2 ** a + u, 60)] for the
    draw [u] made then. *)
Theorem robust_get_waits_out (retries : Z) (require_auth : bool) (s : state)
        (k : nat) (r : response) :
  require_auth && negb (authenticated s) = false ->
  (forall i, (i < k)%nat ->
             retryable (script (List.length (filter is_get (history s)) + i)) = true) ->
  script (List.length (filter is_get (history s)) + k) = Responds r ->
  status_code r = 200 ->
  Z.of_nat k < retries ->
  (k <= 1024)%nat ->
  exists s' added,
    _robust_get W url payload retries require_auth context s = (Ok r, s')
    /\ authenticated s' = authenticated s
    /\ history s' = EvGet url payload (Responds r) :: added ++ history s
    /\ List.length (filter is_get added) = k
    /\ filter is_post added = []
    /\ List.length (drawn added) = k
    /\ slept added = exponential_series 0 (drawn added).
Proof.
  intros Hdue Hall Hlast H200 Hbudget Hfew.
  unfold _robust_get. unfold bind at 1. unfold get_self at 1. unfold bind at 1.
  rewrite Hdue. unfold ret at 1. unfold with_frame.
  replace (Z.to_nat retries) with (k + S (Z.to_nat retries - S k))%nat by lia.
  destruct (robust_loop_retryable k (S (Z.to_nat retries - S k)) 0 false s Hall Hfew)
    as [s1 [added [Hrun [Hauth [_ [Ha [Hg [Hp [Hd [Hs _]]]]]]]]]].
  rewrite Hrun, robust_loop_step, robust_iteration_cases. cbv zeta.
  assert (Hreply : get_reply W (history s1) url payload = Responds r).
  { rewrite Hscript, Ha, filter_app, length_app, Hg, Nat.add_comm. exact Hlast. }
  rewrite Hreply.
  assert (E401 : (status_code r =? 401) = false) by (rewrite H200; reflexivity).
  assert (E403 : (status_code r =? 403) = false) by (rewrite H200; reflexivity).
  assert (E429 : (status_code r =? 429) = false) by (rewrite H200; reflexivity).
  assert (E200 : (status_code r =? 200) = true) by (rewrite H200; reflexivity).
  rewrite E401, E403, E429, E200. simpl.
  eexists. exists added. split; [reflexivity|]. simpl.
  split; [exact Hauth|]. split; [rewrite Ha; reflexivity|].
  repeat split; assumption.
Qed.

(** X7. When every GET of the call times out, finds no connection or is
    answered 429 without a reset hint, [_robust_get] sends no login, and:
    with [retries] up to 1024 it raises "Exceeded retry attempts" after
    exactly [retries] GETs and as many sleeps (it also sleeps after the last
    GET), and without any request when [retries <= 0]; with more than 1024
    retries it raises [OverflowError] after 1025 GETs and 1024 sleeps, the
    backoff of attempt 1024 being no float. *)
Theorem robust_get_exhausts_retries (retries : Z) (require_auth : bool) (s : state) :
  require_auth && negb (authenticated s) = false ->
  (forall i, (i < Z.to_nat retries)%nat ->
             retryable (script (List.length (filter is_get (history s)) + i)) = true) ->
  (retries <= 1024 ->
   exists s' added,
     _robust_get W url payload retries require_auth context s
     = (Raise (RuntimeError (ExceededRetries context url)), s')
     /\ authenticated s' = authenticated s
     /\ history s' = added ++ history s
     /\ List.length (filter is_get added) = Z.to_nat retries
     /\ filter is_post added = []
     /\ slept added = exponential_series 0 (drawn added)
     /\ List.length (slept added) = Z.to_nat retries
     /\ (0 < retries -> exists d rest, added = EvSleep d :: rest))
  /\ (1024 < retries ->
      exists s' added,
        _robust_get W url payload retries require_auth context s
        = (Raise OverflowError, s')
        /\ authenticated s' = authenticated s
        /\ history s' = added ++ history s
        /\ List.length (filter is_get added) = 1025%nat
        /\ filter is_post added = []
        /\ List.length (slept added) = 1024%nat
        /\ exists u rest, added = EvUniform u :: rest).
Proof.
  intros Hdue Hall. split.
  - intros Hfew.
    unfold _robust_get. unfold bind at 1. unfold get_self at 1. unfold bind at 1.
    rewrite Hdue. unfold ret at 1. unfold with_frame.
    destruct (robust_loop_retryable (Z.to_nat retries) 0 0 false s Hall)
      as [s1 [added [Hrun [Hauth [_ [Ha [Hg [Hp [Hd [Hs Hnew]]]]]]]]]].
    { unfold float_overflow_attempt. lia. }
    rewrite Nat.add_0_r in Hrun. rewrite Hrun. simpl.
    exists s1, added. split; [reflexivity|].
    split; [exact Hauth|]. split; [exact Ha|]. split; [exact Hg|]. split; [exact Hp|].
    split; [exact Hs|]. split.
    + rewrite Hs. unfold exponential_series.
      rewrite length_map, length_combine, length_seq, Hd. lia.
    + intros Hpos. destruct added as [|ev rest]; [lia|].
      destruct Hnew as [d ->]. exists d, rest. reflexivity.
  - intros Hmany.
    unfold _robust_get. unfold bind at 1. unfold get_self at 1. unfold bind at 1.
    rewrite Hdue. unfold ret at 1. unfold with_frame.
    assert (Hsplit : Z.to_nat retries
                     = (float_overflow_attempt
                        + S (Z.to_nat retries - S float_overflow_attempt))%nat).
    { unfold float_overflow_attempt. lia. }
    rewrite Hsplit.
    destruct (robust_loop_retryable float_overflow_attempt
                (S (Z.to_nat retries - S float_overflow_attempt)) 0 false s)
      as [s1 [added [Hrun [Hauth [_ [Ha [Hg [Hp [Hd [Hs _]]]]]]]]]].
    { intros i Hi. apply Hall. unfold float_overflow_attempt in Hi. lia. }
    { apply Nat.le_refl. }
    change (0 + float_overflow_attempt)%nat with float_overflow_attempt in Hrun.
    rewrite Hrun, robust_loop_step.
    assert (Hnext : retryable (get_reply W (history s1) url payload) = true).
    { rewrite Hscript, Ha, filter_app, length_app, Hg, Nat.add_comm.
      apply Hall. unfold float_overflow_attempt. lia. }
    rewrite (robust_iteration_overflow W url payload context _ false s1 Hnext
               (Nat.le_refl _)).
    cbv zeta. cbn [fst snd].
    set (o := get_reply W (history s1) url payload).
    set (u := uniform01 W (history (record (EvGet url payload o) s1))).
    exists (record (EvUniform u) (record (EvGet url payload o) s1)),
           (EvUniform u :: EvGet url payload o :: added).
    split; [reflexivity|]. split; [exact Hauth|].
    split; [cbn [history record app]; rewrite Ha; reflexivity|].
    split; [cbn [filter is_get List.length]; rewrite Hg; reflexivity|].
    split; [cbn [filter is_post]; exact Hp|].
    split.
    + change (EvUniform u :: EvGet url payload o :: added)
        with ([EvUniform u; EvGet url payload o] ++ added).
      rewrite slept_app, length_app, Hs. unfold exponential_series.
      rewrite length_map, length_combine, length_seq, Hd, Nat.min_id.
      reflexivity.
    + exists u, (EvGet url payload o :: added). reflexivity.
Qed.

End RobustSchedule.

Lemma robust_get_returns_200_witness :
  exists r s',
    _robust_get busy_world car_url None 3 true "cars" fresh_client = (Ok r, s')
    /\ status_code r = 200 /\ authenticated s' = true.
Proof.
  pose (run := _robust_get busy_world car_url None 3 true "cars" fresh_client).
  assert (Hrun : run = (Ok (mkResponse 200 [] (Some (VList [])) ""), snd run)).
  { vm_compute. reflexivity. }
  destruct (robust_get_returns_200 busy_world car_url None "cars" 3 true fresh_client
              (snd run) (mkResponse 200 [] (Some (VList [])) "") Hrun)
    as [H200 [_ [_ Hauth]]].
  exists (mkResponse 200 [] (Some (VList [])) ""), (snd run).
  split; [exact Hrun|]. split; [exact H200|]. apply Hauth. left. reflexivity.
Defined.

Lemma robust_get_breaks_down_witness :
  fst (_robust_get garbled_limit_world car_url None 3 true "cars" logged_in_client)
  = Raise ValueError
  /\ fst (_robust_get far_limit_world car_url None 3 true "cars" logged_in_client)
     = Raise OverflowError.
Proof.
  pose (run := _robust_get garbled_limit_world car_url None 3 true "cars" logged_in_client).
  pose (run' := _robust_get far_limit_world car_url None 3 true "cars" logged_in_client).
  split.
  - destruct (robust_get_breaks_down garbled_limit_world car_url None "cars" 3 true
                logged_in_client (snd run) (fst run) [] [] car_url None
                (Responds (mkResponse 429 [("X-RateLimit-Reset", "soon")] None ""))
                ValueError)
      as [_ Hres].
    + vm_compute. reflexivity.
    + vm_compute. reflexivity.
    + vm_compute. reflexivity.
    + exact Hres.
  - destruct (robust_get_breaks_down far_limit_world car_url None "cars" 3 true
                logged_in_client (snd run') (fst run') [] [] car_url None
                (Responds (mkResponse 429
                             [("X-RateLimit-Reset", "99999999999999999999")] None ""))
                OverflowError)
      as [_ Hres].
    + vm_compute. reflexivity.
    + vm_compute. reflexivity.
    + vm_compute. reflexivity.
    + exact Hres.
Defined.

Lemma robust_get_waits_out_witness :
  exists s' added,
    _robust_get busy_world car_url None 3 true "cars" logged_in_client
    = (Ok (mkResponse 200 [] (Some (VList [])) ""), s')
    /\ history s' = EvGet car_url None ok_reply :: added
    /\ slept added = [exponential 0 (1 # 4); exponential 1 (1 # 4)].
Proof.
  destruct (robust_get_waits_out busy_world car_url None "cars"
              (fun n => nth n [reply 429 None; reply 429 None; ok_reply]
                            (Fails ConnectionFailed))
              (fun h => eq_refl) 3 true logged_in_client 2
              (mkResponse 200 [] (Some (VList [])) ""))
    as [s' [added [Hrun [_ [Hhist [_ [_ [Hd Hs]]]]]]]].
  - reflexivity.
  - intros i Hi. simpl.
    destruct i as [|[|i]]; [reflexivity|reflexivity|lia].
  - reflexivity.
  - reflexivity.
  - lia.
  - lia.
  - exists s', added. split; [exact Hrun|].
    split; [rewrite Hhist; simpl; rewrite app_nil_r; reflexivity|].
    assert (Hdrawn : drawn added = [1 # 4; 1 # 4]).
    { assert (Hh : history (snd (_robust_get busy_world car_url None 3 true "cars"
                                    logged_in_client))
                   = EvGet car_url None ok_reply :: added).
      { rewrite Hrun. simpl. rewrite Hhist. simpl. rewrite app_nil_r. reflexivity. }
      vm_compute in Hh. injection Hh as <-. reflexivity. }
    rewrite Hs, Hdrawn. reflexivity.
Defined.

Lemma robust_get_exhausts_retries_witness :
  exists s' added,
    _robust_get offline_world car_url None 2 false "cars" fresh_client
    = (Raise (RuntimeError (ExceededRetries "cars" car_url)), s')
    /\ history s' = added ++ history fresh_client
    /\ List.length (filter is_get added) = 2%nat
    /\ List.length (slept added) = 2%nat.
Proof.
  destruct (robust_get_exhausts_retries offline_world car_url None "cars"
              (fun n => Fails ConnectionFailed)
              (fun h => match List.length (filter is_get h) as n
                              return nth n [] (Fails ConnectionFailed)
                                     = Fails ConnectionFailed
                        with O => eq_refl | S _ => eq_refl end)
              2 false fresh_client)
    as [Hfew _].
  - reflexivity.
  - intros i _. reflexivity.
  - destruct Hfew as [s' [added [Hrun [_ [Hhist [Hg [_ [_ [Hs _]]]]]]]]]; [lia|].
    exists s', added. repeat split; assumption.
Defined.

(* ===================================================================== *)
(** ** Edges of the backoff calculator *)
(* ===================================================================== *)

Section BackoffEdges.

Variable W : world.

(** X8. Without a reset hint the backoff is exactly 60 seconds from
    attempt 6 on (the seventh attempt) up to attempt 1023, whatever the draw
    of the jitter; from attempt 1024 on the call raises [OverflowError]. *)
Theorem calculate_backoff_saturates (attempt : nat) (reset : option string) (s : state) :
  Py.truthy_str reset = false ->
  (0 <= uniform01 W (history s))%Q ->
  (6 <= attempt)%nat ->
  fst (_calculate_backoff W attempt reset s)
  = if (attempt <? 1024)%nat then Ok 60%Q else Raise OverflowError.
Proof.
  intros Hreset Hu Hattempt.
  destruct (attempt <? 1024)%nat eqn:Hsmall.
  - apply Nat.ltb_lt in Hsmall.
    rewrite (calculate_backoff_fallback W attempt reset s Hreset Hsmall).
    cbn [fst]. unfold Py.min.
    destruct (Qle_bool (inject_Z (2 ^ Z.of_nat attempt) + uniform01 W (history s)) 60)
      eqn:E; [|reflexivity].
    exfalso. apply Qle_bool_iff in E.
    assert (H64 : (64 <= inject_Z (2 ^ Z.of_nat attempt))%Q).
    { change 64%Q with (inject_Z (2 ^ 6)). rewrite <- Zle_Qle.
      apply Z.pow_le_mono_r; lia. }
    assert (Hsum : (64 + 0 <= inject_Z (2 ^ Z.of_nat attempt) + uniform01 W (history s))%Q).
    { apply Qplus_le_compat; assumption. }
    pose proof (Qle_trans _ _ _ Hsum E) as Habs.
    unfold Qle in Habs. simpl in Habs. lia.
  - apply Nat.ltb_ge in Hsmall.
    rewrite (calculate_backoff_overflow W attempt reset s Hreset Hsmall). reflexivity.
Qed.

(** X9. A reset hint is followed as it is: when [int] reads it as a
    timestamp that [datetime.fromtimestamp] accepts and the local wall clock
    of the reset lies at least half a second ahead of the local wall clock
    now, the wait is the difference of the two wall clocks plus half a
    second, whatever the attempt, and it is not capped at 60 seconds.  The
    difference of the wall clocks is the time to the reset when the offset
    of local time from UTC is the same at both times. *)
Theorem calculate_backoff_hint_uncapped (attempt : nat) (str : string) (t : Z)
        (s : state) :
  str <> "" ->
  Py.int_of_str str = Ok t ->
  timestamp_error W t = None ->
  let now := clock W (history s) in
  let delta := local_time W t - (now + utc_offset W (now / 1000000) * 1000000)
               + 500000 in
  1000000 <= delta ->
  fst (_calculate_backoff W attempt (Some str) s) = Ok (inject_Z delta / 1000000)%Q
  /\ (60000000 < delta -> (60 < inject_Z delta / 1000000)%Q)
  /\ (utc_offset W t = utc_offset W (now / 1000000) ->
      delta = t * 1000000 - now + 500000).
Proof.
  intros Hne Hint Hok now delta Hahead.
  rewrite (calculate_backoff_hint W attempt str t s Hne Hint Hok). cbn [fst].
  fold now. fold delta. split; [|split].
  - unfold Py.max.
    assert (E : Qle_bool 1 (inject_Z delta / 1000000) = true).
    { apply Qle_bool_iff. unfold Qle, Qdiv, Qmult, Qinv, inject_Z. simpl. lia. }
    rewrite E. reflexivity.
  - intros Hlong. unfold Qlt, Qdiv, Qmult, Qinv, inject_Z. simpl. lia.
  - intros Hsame. subst delta. unfold local_time. rewrite Hsame. ring.
Qed.

End BackoffEdges.

Lemma calculate_backoff_saturates_witness :
  fst (_calculate_backoff offline_world 7 None fresh_client) = Ok 60%Q
  /\ fst (_calculate_backoff offline_world 1024 None fresh_client) = Raise OverflowError.
Proof.
  split.
  - apply (calculate_backoff_saturates offline_world 7 None fresh_client).
    + reflexivity.
    + vm_compute. discriminate.
    + lia.
  - apply (calculate_backoff_saturates offline_world 1024 None fresh_client).
    + reflexivity.
    + vm_compute. discriminate.
    + lia.
Defined.

Lemma calculate_backoff_hint_uncapped_witness :
  fst (_calculate_backoff offline_world 0 (Some "100") fresh_client)
  = Ok (inject_Z 100500000 / 1000000)%Q
  /\ (60 < inject_Z 100500000 / 1000000)%Q
  /\ fst (_calculate_backoff dst_world 0 (Some "1711846805") fresh_client)
     = Ok (inject_Z 3610500000 / 1000000)%Q.
Proof.
  destruct (calculate_backoff_hint_uncapped offline_world 0 "100" 100 fresh_client)
    as [Hval [Hlong _]].
  - discriminate.
  - reflexivity.
  - reflexivity.
  - vm_compute. discriminate.
  - split; [exact Hval|]. split; [apply Hlong; vm_compute; reflexivity|].
    destruct (calculate_backoff_hint_uncapped dst_world 0 "1711846805" 1711846805
                fresh_client) as [Hdst _].
    + discriminate.
    + vm_compute. reflexivity.
    + reflexivity.
    + vm_compute. discriminate.
    + exact Hdst.
Defined.

(* ===================================================================== *)
(** ** The requests of a call of the resilient requester *)
(* ===================================================================== *)

Section RobustBudget.

Variable W : world.
Variable url : string.
Variable payload : option value.
Variable context : string.

(** One pass of the loop sends one GET, and POSTs only for the one
    re-login. *)
Lemma robust_iteration_budget (attempt : nat) (flag flag' : bool) (s s' : state)
      (rc : result (ctrl response)) :
  try_except (robust_try W url payload context attempt)
             (fun _ => robust_except W attempt) (flag, s) = (rc, (flag', s')) ->
  exists q o,
    history s' = q ++ EvGet url payload o :: history s
    /\ filter is_get q = []
    /\ (List.length (filter is_post q)
        <= if flag then 0 else if flag' then 3 else 0)%nat
    /\ (flag = true -> flag' = true).
Proof.
  rewrite robust_iteration_cases. cbv zeta.
  destruct (get_reply W (history s) url payload) as [r|f] eqn:Hreply; simpl.
  - destruct (status_code r =? 401) eqn:E401.
    + destruct flag.
      * intros H. injection H as <- <- <-. exists [], (Responds r).
        repeat split. simpl. lia.
      * destruct (_login W 3 _) as [lres s2] eqn:Hlogin.
        rewrite login_unfold in Hlogin.
        destruct (login_loop_outcome W _ _ _ _ _ _ Hlogin)
          as [_ [a [Ha [Fa [Hn _]]]]].
        destruct lres as [[]|e]; intros H; injection H as <- <- <-;
          exists a, (Responds r); (split; [exact Ha|]);
          (split; [apply quiet_no_gets; exact Fa|]);
          (split; [exact Hn|discriminate]).
    + destruct (status_code r =? 403).
      * intros H. injection H as <- <- <-. exists [], (Responds r).
        repeat split; destruct flag; simpl; lia.
      * destruct (status_code r =? 429).
        -- pose proof (calculate_backoff_raises W attempt
                         (headers_get (headers r) "x-ratelimit-reset")
                         (record (EvGet url payload (Responds r)) s)) as Hb.
           destruct (reset_error W (headers_get (headers r) "x-ratelimit-reset")).
           ++ rewrite Hb. intros H. injection H as <- <- <-. exists [], (Responds r).
              repeat split; destruct flag; simpl; lia.
           ++ destruct Hb as [bres [ev [Hb [Hg [Hp _]]]]]. rewrite Hb.
              destruct bres as [w|e]; intros H; injection H as <- <- <-.
              ** exists [EvSleep w; ev], (Responds r). split; [reflexivity|].
                 simpl. rewrite Hg, Hp. repeat split; destruct flag; simpl; lia.
              ** exists [ev], (Responds r). split; [reflexivity|].
                 simpl. rewrite Hg, Hp. repeat split; destruct flag; simpl; lia.
        -- destruct (status_code r =? 200); intros H; injection H as <- <- <-;
             exists [], (Responds r); repeat split; destruct flag; simpl; lia.
  - destruct (is_network_error (exn_of_failure f)).
    + pose proof (calculate_backoff_raises W attempt None
                    (record (EvGet url payload (Fails f)) s)) as Hb.
      simpl in Hb. destruct Hb as [bres [ev [Hb [Hg [Hp _]]]]]. rewrite Hb.
      destruct bres as [w|e]; intros H; injection H as <- <- <-.
      * exists [EvSleep w; ev], (Fails f). split; [reflexivity|].
        simpl. rewrite Hg, Hp. repeat split; destruct flag; simpl; lia.
      * exists [ev], (Fails f). split; [reflexivity|].
        simpl. rewrite Hg, Hp. repeat split; destruct flag; simpl; lia.
    + intros H; injection H as <- <- <-.
      exists [], (Fails f). repeat split; destruct flag; simpl; lia.
Qed.

(** The loop sends at most one GET per pass, all of them for the same URL
    with the same parameters. *)
Lemma robust_loop_budget (n : nat) :
  forall (attempt : nat) (flag flag' : bool) (s s' : state) (res : result response),
    robust_loop W url payload context n attempt (flag, s) = (res, (flag', s')) ->
    exists added os,
      history s' = added ++ history s
      /\ filter is_get added = map (EvGet url payload) os
      /\ (List.length os <= n)%nat
      /\ (List.length (filter is_post added) <= if flag then 0 else 3)%nat.
Proof.
  induction n as [|n IH]; intros attempt flag flag' s s' res.
  - intros H. injection H as <- <- <-. exists [], [].
    split; [reflexivity|]. split; [reflexivity|]. split; [simpl; lia|].
    destruct flag; simpl; lia.
  - rewrite robust_loop_step.
    destruct (try_except _ _ (flag, s)) as [rc [flag1 s1]] eqn:Hit.
    destruct (robust_iteration_budget attempt flag flag1 s s1 rc Hit)
      as [q [o [Hq [Gq [Pq Hflag]]]]].
    assert (Hone : exists added os,
               history s1 = added ++ history s
               /\ filter is_get added = map (EvGet url payload) os
               /\ (List.length os <= S n)%nat
               /\ (List.length (filter is_post added) <= if flag then 0 else 3)%nat).
    { exists (q ++ [EvGet url payload o]), [o].
      split; [rewrite Hq, <- app_assoc; reflexivity|].
      rewrite !filter_app, Gq, length_app. simpl.
      split; [reflexivity|]. split; [lia|].
      destruct flag; [lia|]. destruct flag1; lia. }
    destruct rc as [[|r]|e].
    + intros H. destruct (IH _ _ _ _ _ _ H) as [a [os [Ha [Ga [Hn Pa]]]]].
      exists (a ++ q ++ [EvGet url payload o]), (os ++ [o]).
      split; [rewrite Ha, Hq, <- !app_assoc; reflexivity|].
      rewrite !filter_app, Ga, Gq, map_app, !length_app. simpl.
      split; [reflexivity|]. split; [lia|].
      destruct flag.
      * rewrite (Hflag eq_refl) in Pa. lia.
      * destruct flag1; lia.
    + intros H. injection H as <- <- <-. exact Hone.
    + intros H. injection H as <- <- <-. exact Hone.
Qed.

(** The same for a call. *)
Lemma robust_get_budget (retries : Z) (require_auth : bool) (s s' : state)
      (res : result response) (added : list event) :
  _robust_get W url payload retries require_auth context s = (res, s') ->
  history s' = added ++ history s ->
  (exists os,
      filter is_get added = map (EvGet url payload) os
      /\ (List.length os <= Z.to_nat retries)%nat)
  /\ (List.length (filter is_post added)
      <= if require_auth && negb (authenticated s) then 6 else 3)%nat.
Proof.
  intros Hcall Hhist. revert Hcall.
  unfold _robust_get. unfold bind at 1. unfold get_self at 1. unfold bind at 1.
  destruct (require_auth && negb (authenticated s)) eqn:Hdue.
  - destruct (_login W 3 s) as [[[]|e] s1] eqn:Hlogin; rewrite login_unfold in Hlogin;
      destruct (login_loop_outcome W _ _ _ _ _ _ Hlogin)
        as [_ [a [Ha [Fa [Hn _]]]]];
      destruct (quiet_no_gets a Fa) as [Ga _].
    + unfold with_frame.
      destruct (robust_loop W url payload context (Z.to_nat retries) 0 (false, s1))
        as [res1 [flag1 s2]] eqn:Hloop.
      destruct (robust_loop_budget _ _ _ _ _ _ _ Hloop) as [a' [os [Ha' [Ga' [Hos Pa']]]]].
      intros H. injection H as <- <-.
      assert (added = a' ++ a) as ->.
      { apply (app_inv_tail (history s)).
        rewrite <- Hhist. simpl. rewrite Ha', Ha, app_assoc. reflexivity. }
      rewrite !filter_app, Ga, app_nil_r, length_app. split.
      * exists os. split; assumption.
      * change (Z.to_nat 3) with 3%nat in Hn. lia.
    + intros H. injection H as <- <-.
      assert (added = a) as ->.
      { apply (app_inv_tail (history s)). rewrite <- Hhist, Ha. reflexivity. }
      split.
      * exists []. rewrite Ga. split; [reflexivity|simpl; lia].
      * change (Z.to_nat 3) with 3%nat in Hn. lia.
  - unfold ret at 1. unfold with_frame.
    destruct (robust_loop W url payload context (Z.to_nat retries) 0 (false, s))
      as [res1 [flag1 s2]] eqn:Hloop.
    destruct (robust_loop_budget _ _ _ _ _ _ _ Hloop) as [a' [os [Ha' [Ga' [Hos Pa']]]]].
    intros H. injection H as <- <-.
    assert (added = a') as ->.
    { apply (app_inv_tail (history s)). rewrite <- Hhist. simpl. rewrite Ha'. reflexivity. }
    split; [exists os; split; assumption|exact Pa'].
Qed.

(** A call extends the history. *)
Lemma robust_get_extends (retries : Z) (require_auth : bool) (s s' : state)
      (res : result response) :
  _robust_get W url payload retries require_auth context s = (res, s') ->
  exists added, history s' = added ++ history s.
Proof.
  intros Hcall.
  destruct (robust_get_more W url payload context retries require_auth s s' res Hcall)
    as [_ [added [Ha _]]].
  exists added. exact Ha.
Qed.

(** X10. The requests of one call of [_robust_get]: at most [retries]
    GETs, every one of them for the URL and the parameters of the call, and
    at most six POSTs (the login before the loop and the one re-login, with
    three attempts each); at most three when no login is due at the start. *)
Theorem robust_get_request_budget (retries : Z) (require_auth : bool) (s s' : state)
        (res : result response) (added : list event) :
  _robust_get W url payload retries require_auth context s = (res, s') ->
  history s' = added ++ history s ->
  (exists os,
      filter is_get added = map (EvGet url payload) os
      /\ (List.length os <= Z.to_nat retries)%nat)
  /\ (List.length (filter is_post added)
      <= if require_auth && negb (authenticated s) then 6 else 3)%nat.
Proof. apply robust_get_budget. Qed.

(** With no login due and a first answer of 200 the call is one GET. *)
Lemma robust_get_direct (retries : Z) (require_auth : bool) (s : state) (r : response) :
  require_auth && negb (authenticated s) = false ->
  0 < retries ->
  get_reply W (history s) url payload = Responds r ->
  status_code r = 200 ->
  _robust_get W url payload retries require_auth context s
  = (Ok r, record (EvGet url payload (Responds r)) s).
Proof.
  intros Hdue Hpos Hreply H200.
  unfold _robust_get. unfold bind at 1. unfold get_self at 1. unfold bind at 1.
  rewrite Hdue. unfold ret at 1. unfold with_frame.
  destruct (Z.to_nat retries) as [|n] eqn:Hn; [lia|].
  rewrite robust_loop_step, robust_iteration_cases. cbv zeta. rewrite Hreply.
  assert (E401 : (status_code r =? 401) = false) by (rewrite H200; reflexivity).
  assert (E403 : (status_code r =? 403) = false) by (rewrite H200; reflexivity).
  assert (E429 : (status_code r =? 429) = false) by (rewrite H200; reflexivity).
  assert (E200 : (status_code r =? 200) = true) by (rewrite H200; reflexivity).
  rewrite E401, E403, E429, E200. reflexivity.
Qed.

End RobustBudget.

Lemma robust_get_request_budget_witness :
  (List.length (filter is_get
     (history (snd (_robust_get twice_401_world car_url None 3 true "cars" fresh_client))))
   <= 3)%nat
  /\ (List.length (filter is_post
        (history (snd (_robust_get twice_401_world car_url None 3 true "cars"
                         fresh_client))))
      <= 6)%nat.
Proof.
  pose (run := _robust_get twice_401_world car_url None 3 true "cars" fresh_client).
  destruct (robust_get_request_budget twice_401_world car_url None "cars" 3 true
              fresh_client (snd run) (fst run) (history (snd run)))
    as [[os [Hgets Hos]] Hposts].
  - vm_compute. reflexivity.
  - vm_compute. reflexivity.
  - split.
    + fold run. rewrite Hgets, length_map. exact Hos.
    + exact Hposts.
Defined.

(* ===================================================================== *)
(** ** Properties of the resource fetch *)
(* ===================================================================== *)

Lemma history_warned (n : nat) (s : state) :
  history (warned n s) = repeat (EvPrint row_warning) n ++ history s.
Proof.
  revert s. induction n as [|n IH]; intros s; simpl; [reflexivity|].
  rewrite IH. simpl. change (EvPrint row_warning :: history s)
    with ([EvPrint row_warning] ++ history s).
  rewrite app_assoc. f_equal. clear IH.
  induction n as [|n IH]; simpl; [reflexivity|]. rewrite IH. reflexivity.
Qed.

Lemma filter_get_warnings (n : nat) : filter is_get (repeat (EvPrint row_warning) n) = [].
Proof. induction n as [|n IH]; simpl; [reflexivity|exact IH]. Qed.

(** The decoder of CSV texts prints warnings and does nothing else. *)
Lemma parse_csv_response_effect (text : string) (s s' : state)
      (res : result (list (list (string * string)))) :
  _parse_csv_response text s = (res, s') -> exists n, s' = warned n s.
Proof.
  unfold _parse_csv_response. destruct (Csv.reader text) as [rows err].
  destruct rows as [|first rest].
  - intros H. injection H as <- <-. exists 0%nat. reflexivity.
  - unfold bind. rewrite parse_rows_spec.
    destruct err; intros H; injection H as <- <-; eexists; reflexivity.
Qed.

Section ResourceMore.

Variable float_repr : Q -> string.
Variable W : world.

(** [_get_resource_or_link] is one call of [_robust_get]; it flags a link
    for a JSON object that has the key, and for nothing else. *)
Lemma get_resource_or_link_inv (url : string) (payload : option value) (retries : Z)
      (s s' : state) (found : result (value * bool)) :
  _get_resource_or_link W url payload retries s = (found, s') ->
  exists rres,
    _robust_get W url payload retries true "_get_resource_or_link" s = (rres, s')
    /\ match found with
       | Ok (v, true) =>
           exists r d, rres = Ok r /\ json r = Some (VDict d)
                       /\ Py.assoc "link" d = Some v
       | _ => True
       end.
Proof.
  unfold _get_resource_or_link. unfold bind at 1.
  destruct (_robust_get W url payload retries true "_get_resource_or_link" s)
    as [[r|e] s1] eqn:Hget.
  - unfold bind at 1. unfold response_json.
    destruct (json r) as [data|] eqn:Hjson.
    + unfold ret at 1.
      destruct data; simpl; unfold bind, lift_result, ret, raise; simpl;
        try (intros H; injection H as <- <-; eexists; split; [reflexivity|exact I]).
      * destruct (Py.is_substring "link" s0);
          intros H; injection H as <- <-; eexists; split; [reflexivity|exact I|reflexivity|exact I].
      * unfold Py.has_key. destruct (Py.assoc "link" d) as [v|] eqn:Hlink;
          intros H; injection H as <- <-; eexists; (split; [reflexivity|]).
        -- exists r, d. repeat split; assumption.
        -- exact I.
    + intros H. injection H as <- <-. eexists. split; [reflexivity|exact I].
  - intros H. injection H as <- <-. eexists. split; [reflexivity|exact I].
Qed.

(** What a call of [_get_resource] requests. *)
Lemma get_resource_trace (endpoint : string) (payload : option value)
      (retries : Z) (s s' : state) (res : result value) :
  _get_resource float_repr W endpoint payload retries s = (res, s') ->
  exists added link first second,
    history s' = added ++ history s
    /\ filter is_get added
       = map (EvGet link None) second
         ++ map (EvGet (base_url s ++ endpoint)%string payload) first
    /\ (List.length first <= Z.to_nat retries)%nat
    /\ (List.length second <= Z.to_nat retries)%nat
    /\ (second <> [] ->
        exists r d rest,
          first = Responds r :: rest /\ json r = Some (VDict d)
          /\ Py.assoc "link" d = Some (VStr link)).
Proof.
  unfold _get_resource, _build_url.
  unfold bind at 1. unfold get_self at 1. unfold bind at 1. unfold ret at 1.
  unfold bind at 1.
  set (url := (base_url s ++ endpoint)%string).
  destruct (_get_resource_or_link W url payload retries s) as [found s1] eqn:Hfirst.
  destruct (get_resource_or_link_inv _ _ _ _ _ _ Hfirst) as [rres [Hget Hfound]].
  destruct (robust_get_extends W url payload _ _ _ _ _ _ Hget) as [a1 Ha1].
  destruct (robust_get_budget W url payload _ _ _ _ _ _ a1 Hget Ha1)
    as [[os1 [G1 L1]] _].
  assert (Hinline : history s' = history s1 ->
            exists added link first second,
              history s' = added ++ history s
              /\ filter is_get added
                 = map (EvGet link None) second ++ map (EvGet url payload) first
              /\ (List.length first <= Z.to_nat retries)%nat
              /\ (List.length second <= Z.to_nat retries)%nat
              /\ (second <> [] ->
                  exists r d rest,
                    first = Responds r :: rest /\ json r = Some (VDict d)
                    /\ Py.assoc "link" d = Some (VStr link))).
  { intros Hsame.
    exists a1, "", os1, []. split; [rewrite Hsame; exact Ha1|].
    split; [exact G1|]. split; [exact L1|].
    split; [simpl; lia|]. intros H. contradiction H. reflexivity. }
  destruct found as [[v is_link]|e].
  - destruct is_link; simpl.
    + destruct Hfound as [r1 [d [-> [Hjson Hlink]]]].
      destruct (robust_get_more W url payload _ _ _ _ _ _ Hget)
        as [_ [a1' [Ha1' [_ [_ [_ [earlier Hnewest]]]]]]].
      assert (a1' = a1) as ->.
      { apply (app_inv_tail (history s)). rewrite <- Ha1, Ha1'. reflexivity. }
      assert (Hos1 : exists rest, os1 = Responds r1 :: rest).
      { rewrite Hnewest in G1. simpl in G1.
        destruct os1 as [|o rest]; [discriminate G1|].
        simpl in G1. injection G1 as Ho _. exists rest. rewrite Ho. reflexivity. }
      unfold bind at 1.
      destruct (robust_get_link float_repr W v retries "_get_resource (linked resource)" s1)
        as [rres2 s2] eqn:Hsecond.
      assert (Hlinked : exists a2 os2 link,
                 history s2 = a2 ++ history s1
                 /\ filter is_get a2 = map (EvGet link None) os2
                 /\ (List.length os2 <= Z.to_nat retries)%nat
                 /\ (os2 <> [] -> v = VStr link)).
      { destruct v as [| | | |u| |];
          try (revert Hsecond; unfold robust_get_link;
               unfold bind at 1; unfold get_self at 1; unfold bind at 1;
               destruct (negb (authenticated s1));
               [ destruct (_login W 3 s1) as [[[]|e] s3] eqn:Hlogin;
                 rewrite login_unfold in Hlogin;
                 destruct (login_loop_outcome W _ _ _ _ _ _ Hlogin)
                   as [_ [a [Ha [Fa _]]]];
                 destruct (quiet_no_gets a Fa) as [Ga _];
                 [destruct (Z.to_nat retries)|];
                 intros H; injection H as <- <-;
                 exists a, [], ""; (split; [exact Ha|]); (split; [exact Ga|]);
                 (split; [simpl; lia|]); intros H; contradiction H; reflexivity
               | unfold ret at 1; destruct (Z.to_nat retries);
                 intros H; injection H as <- <-;
                 exists [], [], ""; (split; [reflexivity|]); (split; [reflexivity|]);
                 (split; [simpl; lia|]); intros H; contradiction H; reflexivity ]).
        simpl in Hsecond.
        destruct (robust_get_extends W u None _ _ _ _ _ _ Hsecond) as [a2 Ha2].
        destruct (robust_get_budget W u None _ _ _ _ _ _ a2 Hsecond Ha2)
          as [[os2 [G2 L2]] _].
        exists a2, os2, u. repeat split; assumption. }
      destruct Hlinked as [a2 [os2 [link [Ha2 [G2 [L2 Hv]]]]]].
      assert (Hafter : forall n, history s' = repeat (EvPrint row_warning) n ++ history s2 ->
                exists added link first second,
                  history s' = added ++ history s
                  /\ filter is_get added
                     = map (EvGet link None) second ++ map (EvGet url payload) first
                  /\ (List.length first <= Z.to_nat retries)%nat
                  /\ (List.length second <= Z.to_nat retries)%nat
                  /\ (second <> [] ->
                      exists r d rest,
                        first = Responds r :: rest /\ json r = Some (VDict d)
                        /\ Py.assoc "link" d = Some (VStr link))).
      { intros n Hs'.
        exists (repeat (EvPrint row_warning) n ++ a2 ++ a1), link, os1, os2.
        split; [rewrite Hs', Ha2, Ha1, <- !app_assoc; reflexivity|].
        rewrite !filter_app, filter_get_warnings, G1, G2.
        split; [reflexivity|]. split; [exact L1|]. split; [exact L2|].
        intros Hne. destruct Hos1 as [rest ->]. exists r1, d, rest.
        split; [reflexivity|]. split; [exact Hjson|].
        rewrite <- (Hv Hne). exact Hlink. }
      destruct rres2 as [r2|e].
      * destruct (Py.is_substring "application/json" _).
        -- unfold response_json. destruct (json r2);
             intros H; injection H as <- <-; apply (Hafter 0%nat); reflexivity.
        -- destruct (_ || _).
           ++ unfold bind at 1.
              destruct (_parse_csv_response (text r2) s2) as [rows s3] eqn:Hparse.
              destruct (parse_csv_response_effect _ _ _ _ Hparse) as [n ->].
              destruct rows; intros H; injection H as <- <-;
                apply (Hafter n); apply history_warned.
           ++ intros H. injection H as <- <-. apply (Hafter 0%nat). reflexivity.
      * intros H. injection H as <- <-. apply (Hafter 0%nat). reflexivity.
    + intros H. injection H as <- <-. apply Hinline. reflexivity.
  - intros H. injection H as <- <-. apply Hinline. reflexivity.
Qed.

(** X11. The requests of one call of [_get_resource]: GETs for the endpoint
    under the base URL with the parameters of the call, then, when the
    answer is a JSON object with a string under the key link, GETs for that
    link without parameters; each group has at most [retries] requests. *)
Theorem get_resource_requests (endpoint : string) (payload : option value)
        (retries : Z) (s s' : state) (res : result value) (added : list event) :
  _get_resource float_repr W endpoint payload retries s = (res, s') ->
  history s' = added ++ history s ->
  exists link first second,
    filter is_get added
    = map (EvGet link None) second
      ++ map (EvGet (base_url s ++ endpoint)%string payload) first
    /\ (List.length first <= Z.to_nat retries)%nat
    /\ (List.length second <= Z.to_nat retries)%nat
    /\ (second <> [] ->
        exists r d rest,
          first = Responds r :: rest /\ json r = Some (VDict d)
          /\ Py.assoc "link" d = Some (VStr link)).
Proof.
  intros Hcall Hhist.
  destruct (get_resource_trace endpoint payload retries s s' res Hcall)
    as [added' [link [first [second [Ha Hrest]]]]].
  assert (added = added') as ->.
  { apply (app_inv_tail (history s)). rewrite <- Hhist, Ha. reflexivity. }
  exists link, first, second. exact Hrest.
Qed.

End ResourceMore.

Section ResourceLinked.

Variable float_repr : Q -> string.
Variable W : world.

(** The call along a link, with no login due and first answers of 200. *)
Lemma get_resource_linked (endpoint : string) (payload : option value)
      (retries : Z) (s : state) (r1 r2 : response) (d : list (string * value))
      (u : string) :
  authenticated s = true ->
  0 < retries ->
  let url := (base_url s ++ endpoint)%string in
  let s1 := record (EvGet url payload (Responds r1)) s in
  let s2 := record (EvGet u None (Responds r2)) s1 in
  get_reply W (history s) url payload = Responds r1 ->
  status_code r1 = 200 ->
  json r1 = Some (VDict d) ->
  Py.assoc "link" d = Some (VStr u) ->
  get_reply W (history s1) u None = Responds r2 ->
  status_code r2 = 200 ->
  _get_resource float_repr W endpoint payload retries s
  = (if Py.is_substring "application/json" (content_type_of r2) then response_json r2
     else if Py.is_substring "text/csv" (content_type_of r2)
             || Py.is_substring "text/plain" (content_type_of r2)
          then rows <- _parse_csv_response (text r2) ;; ret (value_of_rows rows)
          else ret VNone) s2.
Proof.
  intros Hauth Hpos url s1 s2 Hreply1 H200 Hjson Hlink Hreply2 H200'.
  assert (Hfirst : _get_resource_or_link W url payload retries s = (Ok (VStr u, true), s1)).
  { unfold _get_resource_or_link.
    erewrite bind_ok;
      [|apply (robust_get_direct W url payload _ retries true s r1);
        [rewrite Hauth; reflexivity|assumption..]].
    erewrite bind_ok; [|unfold response_json; rewrite Hjson; reflexivity].
    simpl. unfold bind, lift_result, Py.has_key. simpl. rewrite Hlink. reflexivity. }
  assert (Hsecond : robust_get_link float_repr W (VStr u) retries
                      "_get_resource (linked resource)" s1 = (Ok r2, s2)).
  { simpl. apply (robust_get_direct W u None _ retries true s1 r2);
      [simpl; rewrite Hauth; reflexivity|assumption..]. }
  unfold _get_resource, _build_url.
  erewrite bind_ok; [|unfold bind, get_self, ret; reflexivity].
  fold url. erewrite bind_ok; [|exact Hfirst]. simpl.
  erewrite bind_ok; [|exact Hsecond]. reflexivity.
Qed.

(** X12. When the endpoint answers 200 with a JSON object that holds a
    link and the link answers 200, [_get_resource] makes these two GETs and
    decodes the second answer by its Content-Type: as JSON when the header
    contains application/json (also when it names text/csv as well), as CSV
    when it contains text/csv or text/plain, and it returns [None]
    otherwise, a missing header included. *)
Theorem get_resource_follows_link (endpoint : string) (payload : option value)
        (retries : Z) (s : state) (r1 r2 : response) (d : list (string * value))
        (u : string) :
  authenticated s = true ->
  0 < retries ->
  let url := (base_url s ++ endpoint)%string in
  let s1 := record (EvGet url payload (Responds r1)) s in
  let s2 := record (EvGet u None (Responds r2)) s1 in
  get_reply W (history s) url payload = Responds r1 ->
  status_code r1 = 200 ->
  json r1 = Some (VDict d) ->
  Py.assoc "link" d = Some (VStr u) ->
  get_reply W (history s1) u None = Responds r2 ->
  status_code r2 = 200 ->
  let run := _get_resource float_repr W endpoint payload retries s in
  let is_json := Py.is_substring "application/json" (content_type_of r2) in
  let is_csv := Py.is_substring "text/csv" (content_type_of r2)
                || Py.is_substring "text/plain" (content_type_of r2) in
  (is_json = true ->
   run = (match json r2 with Some v => Ok v | None => Raise JSONDecodeError end, s2))
  /\ (is_json = false -> is_csv = true ->
      forall rows s3, _parse_csv_response (text r2) s2 = (Ok rows, s3) ->
                      run = (Ok (value_of_rows rows), s3))
  /\ (is_json = false -> is_csv = true ->
      forall e s3, _parse_csv_response (text r2) s2 = (Raise e, s3) ->
                   run = (Raise e, s3))
  /\ (is_json = false -> is_csv = false -> run = (Ok VNone, s2)).
Proof.
  intros Hauth Hpos url s1 s2 Hreply1 H200 Hjson Hlink Hreply2 H200' run is_json is_csv.
  pose proof (get_resource_linked endpoint payload retries s r1 r2 d u
                Hauth Hpos Hreply1 H200 Hjson Hlink Hreply2 H200') as Hrun.
  subst run is_json is_csv s2 s1 url. rewrite Hrun. repeat split.
  - intros ->. unfold response_json. destruct (json r2); reflexivity.
  - intros -> -> rows s3 Hparse. unfold bind. rewrite Hparse. reflexivity.
  - intros -> -> e s3 Hparse. unfold bind. rewrite Hparse. reflexivity.
  - intros -> ->. reflexivity.
Qed.

End ResourceLinked.

Lemma get_resource_requests_witness :
  exists link first second,
    filter is_get
      (history (snd (_get_resource (fun _ => "") linked_csv_world "/data/car/get" None 3
                       logged_in_client)))
    = map (EvGet link None) second
      ++ map (EvGet "https://members-ng.iracing.com/data/car/get" None) first
    /\ (List.length first <= 3)%nat /\ (List.length second <= 3)%nat.
Proof.
  pose (run := _get_resource (fun _ => "") linked_csv_world "/data/car/get" None 3
                 logged_in_client).
  destruct (get_resource_requests (fun _ => "") linked_csv_world "/data/car/get" None 3
              logged_in_client (snd run) (fst run) (history (snd run)))
    as [link [first [second [Hgets [Hfirst [Hsecond _]]]]]].
  - vm_compute. reflexivity.
  - vm_compute. reflexivity.
  - exists link, first, second. split; [exact Hgets|]. split; assumption.
Defined.

Lemma get_resource_follows_link_witness :
  fst (_get_resource (fun _ => "") linked_csv_world "/data/car/get" None 3 logged_in_client)
  = Ok (VList [VDict [("id", VStr "1"); ("name", VStr "Alice")];
               VDict [("id", VStr "2"); ("name", VStr "Bob")]]).
Proof.
  destruct (get_resource_follows_link (fun _ => "") linked_csv_world "/data/car/get" None 3
              logged_in_client
              (mkResponse 200 [] (Some (VDict [("link", VStr "https://files.example/cars.csv")])) "")
              (mkResponse 200 [("content-type", "text/csv; charset=utf-8")] None plain_csv)
              [("link", VStr "https://files.example/cars.csv")]
              "https://files.example/cars.csv")
    as [_ [Hcsv _]].
  - reflexivity.
  - lia.
  - reflexivity.
  - reflexivity.
  - reflexivity.
  - reflexivity.
  - reflexivity.
  - reflexivity.
  - erewrite (Hcsv eq_refl eq_refl
                [[("id", "1"); ("name", "Alice")]; [("id", "2"); ("name", "Bob")]]).
    + reflexivity.
    + vm_compute. reflexivity.
Defined.

(* ===================================================================== *)
(** ** Further properties of the chunk aggregator *)
(* ===================================================================== *)

Section ChunksMore.

Variable W : world.

Lemma chunk_gets_cons (b x : string) (o : outcome) (sent : list string)
      (os : list outcome) :
  chunk_gets b (x :: sent) (o :: os) = chunk_gets b sent os ++ [EvGet (b ++ x)%string None o].
Proof. reflexivity. Qed.

(** The downloads, one by one: the first answer that fails or is no JSON
    ends them. *)
Lemma chunk_fetch_trace (b : string) (names : list string) :
  forall (s s' : state) (res : result (list value)),
    comprehension (fun url => r <- session_get W url None ;; response_json r)
                  (map (fun x => VStr (b ++ x)%string) names) s = (res, s') ->
    exists sent rest os,
      names = sent ++ rest
      /\ List.length os = List.length sent
      /\ history s' = chunk_gets b sent os ++ history s
      /\ authenticated s' = authenticated s
      /\ match res with
         | Ok vs =>
             rest = []
             /\ Forall2 (fun o v => exists r, o = Responds r /\ json r = Some v) os vs
         | Raise e =>
             exists earlier o,
               os = earlier ++ [o] /\ chunk_failure o = Some e
               /\ Forall (fun o' => chunk_failure o' = None) earlier
         end.
Proof.
  induction names as [|x names IH]; intros s s' res; simpl.
  - intros H. injection H as <- <-. exists [], [], []. repeat split. constructor.
  - unfold bind at 1. unfold bind at 1. unfold session_get.
    destruct (get_reply W (history s) (b ++ x)%string None) as [r|f] eqn:Hreply.
    + unfold response_json. destruct (json r) as [v|] eqn:Hjson.
      * unfold ret at 1. unfold bind at 1.
        destruct (comprehension _ _ (record _ s)) as [[vs|e] s1] eqn:Hrest;
          destruct (IH _ _ _ Hrest) as [sent [rest [os [Hn [Hl [Hh [Ha Hres]]]]]]];
          intros H; injection H as <- <-;
          exists (x :: sent), rest, (Responds r :: os);
          (split; [rewrite Hn; reflexivity|]); (split; [simpl; rewrite Hl; reflexivity|]);
          (split; [rewrite chunk_gets_cons, Hh, <- app_assoc; reflexivity|]);
          (split; [exact Ha|]).
        -- destruct Hres as [-> HF]. split; [reflexivity|].
           constructor; [exists r; split; [reflexivity|exact Hjson]|exact HF].
        -- destruct Hres as [earlier [o [-> [Hfail Hearlier]]]].
           exists (Responds r :: earlier), o. split; [reflexivity|]. split; [exact Hfail|].
           constructor; [simpl; rewrite Hjson; reflexivity|exact Hearlier].
      * intros H. injection H as <- <-.
        exists [x], names, [Responds r]. repeat split.
        exists [], (Responds r). split; [reflexivity|].
        split; [simpl; rewrite Hjson; reflexivity|constructor].
    + intros H. injection H as <- <-.
      exists [x], names, [Fails f]. repeat split.
      exists [], (Fails f). split; [reflexivity|]. split; [reflexivity|constructor].
Qed.

(** Flattening touches nothing, and fails with [TypeError] only. *)
Lemma chunk_flatten_pure (vs : list value) (s s' : state) (res : result (list (list value))) :
  comprehension (fun sublist => lift_result (Py.iterate sublist)) vs s = (res, s') ->
  s' = s /\ match res with Ok _ => True | Raise e => e = TypeError end.
Proof.
  revert s s' res. induction vs as [|v vs IH]; intros s s' res; simpl.
  - intros H. injection H as <- <-. split; [reflexivity|exact I].
  - unfold bind at 1. unfold lift_result at 1.
    destruct (Py.iterate v) as [l|e] eqn:Hit.
    + unfold bind at 1.
      destruct (comprehension _ vs s) as [[ls|e] s1] eqn:Hrest;
        destruct (IH _ _ _ Hrest) as [-> Hres];
        intros H; injection H as <- <-; (split; [reflexivity|]); [exact I|exact Hres].
    + intros H. injection H as <- <-. split; [reflexivity|].
      destruct v; simpl in Hit; try discriminate Hit; injection Hit as <-; reflexivity.
Qed.

(** X13. For a manifest with a string base URL and string file names,
    [_get_chunks] sends one GET per file name, in manifest order and without
    parameters, and does nothing else: no login, no sleep, no retry.  The
    first answer that fails or is no JSON ends the call with that exception
    (the later files are not requested, and the chunks read so far are
    lost); after all downloads the call can only fail with [TypeError], for
    a chunk that cannot be iterated. *)
Theorem get_chunks_requests (d : list (string * value)) (b : string)
        (names : list string) (s s' : state) (res : result (list value)) :
  Py.assoc "base_download_url" d = Some (VStr b) ->
  Py.assoc "chunk_file_names" d = Some (VList (map VStr names)) ->
  _get_chunks W (VDict d) s = (res, s') ->
  exists sent rest os,
    names = sent ++ rest
    /\ List.length os = List.length sent
    /\ history s' = chunk_gets b sent os ++ history s
    /\ authenticated s' = authenticated s
    /\ match res with
       | Ok _ => rest = [] /\ Forall (fun o => chunk_failure o = None) os
       | Raise e =>
           (rest = [] /\ e = TypeError /\ Forall (fun o => chunk_failure o = None) os)
           \/ (exists earlier o,
                  os = earlier ++ [o] /\ chunk_failure o = Some e
                  /\ Forall (fun o' => chunk_failure o' = None) earlier)
       end.
Proof.
  intros Hb Hn. unfold _get_chunks. simpl.
  erewrite bind_ok; [|unfold lift_result; rewrite Hb; reflexivity].
  erewrite bind_ok; [|unfold lift_result; rewrite Hn; reflexivity].
  erewrite bind_ok; [|reflexivity].
  erewrite bind_ok; [|apply chunk_urls].
  unfold bind at 1.
  destruct (comprehension _ _ s) as [[vs|e] s1] eqn:Hfetch;
    destruct (chunk_fetch_trace b names _ _ _ Hfetch)
      as [sent [rest [os [Hnames [Hl [Hh [Ha Hres]]]]]]].
  - assert (Hclean : Forall (fun o => chunk_failure o = None) os).
    { destruct Hres as [_ HF]. clear - HF.
      induction HF as [|o v os vs [r [-> Hj]] _ IH]; constructor; [|exact IH].
      simpl. rewrite Hj. reflexivity. }
    destruct Hres as [-> _].
    unfold bind at 1.
    destruct (comprehension _ vs s1) as [[ls|e] s2] eqn:Hflat;
      destruct (chunk_flatten_pure _ _ _ _ Hflat) as [-> Hty];
      intros H; injection H as <- <-; exists sent, [], os;
      (split; [exact Hnames|]); (split; [exact Hl|]); (split; [exact Hh|]);
      (split; [exact Ha|]).
    + split; [reflexivity|exact Hclean].
    + left. split; [reflexivity|]. split; [exact Hty|exact Hclean].
  - intros H. injection H as <- <-. exists sent, rest, os.
    split; [exact Hnames|]. split; [exact Hl|]. split; [exact Hh|].
    split; [exact Ha|]. right. exact Hres.
Qed.

Lemma chunk_urls_fail (base : value) (l : list value) (s : state) :
  Exists (fun x => Py.add base x = Raise TypeError) l ->
  comprehension (fun x => lift_result (Py.add base x)) l s = (Raise TypeError, s).
Proof.
  induction 1 as [x l Hx|x l _ IH]; simpl; unfold bind at 1; unfold lift_result at 1.
  - rewrite Hx. reflexivity.
  - destruct (Py.add base x) as [u|e] eqn:Hadd.
    + unfold bind at 1. rewrite IH. reflexivity.
    + assert (e = TypeError) as ->; [|reflexivity].
      unfold Py.add in Hadd.
      destruct base, x; simpl in Hadd; try discriminate Hadd;
        try (injection Hadd as <-; reflexivity).
Qed.

(** X14. [_get_chunks] builds every URL before it requests the first: when
    for one of the file names the sum of the base URL and the name is a
    [TypeError] (a name that is no string under a string base URL, or any
    name when the base URL is missing), the call raises [TypeError] and no
    request has been sent. *)
Theorem get_chunks_fails_before_download (d : list (string * value)) (l : list value)
        (s : state) :
  Py.iterate (dict_get "chunk_file_names" d) = Ok l ->
  Exists (fun x => Py.add (dict_get "base_download_url" d) x = Raise TypeError) l ->
  _get_chunks W (VDict d) s = (Raise TypeError, s).
Proof.
  intros Hl Hbad. unfold _get_chunks. simpl.
  erewrite bind_ok; [|reflexivity].
  erewrite bind_ok; [|reflexivity].
  erewrite bind_ok; [|unfold lift_result; unfold dict_get in Hl; rewrite Hl; reflexivity].
  unfold bind at 1. fold (dict_get "base_download_url" d).
  rewrite (chunk_urls_fail _ l s Hbad). reflexivity.
Qed.

End ChunksMore.

Lemma get_chunks_requests_witness :
  fst (_get_chunks flaky_chunk_world (VDict long_manifest) fresh_client) = Raise Timeout
  /\ exists sent rest os,
       ["a.json"; "b.json"; "c.json"] = sent ++ rest
       /\ history (snd (_get_chunks flaky_chunk_world (VDict long_manifest) fresh_client))
          = chunk_gets "http://x/" sent os ++ history fresh_client.
Proof.
  pose (run := _get_chunks flaky_chunk_world (VDict long_manifest) fresh_client).
  destruct (get_chunks_requests flaky_chunk_world long_manifest "http://x/"
              ["a.json"; "b.json"; "c.json"] fresh_client (snd run) (fst run))
    as [sent [rest [os [Hnames [_ [Hh _]]]]]].
  - reflexivity.
  - reflexivity.
  - vm_compute. reflexivity.
  - split; [vm_compute; reflexivity|].
    exists sent, rest, os. split; [exact Hnames|exact Hh].
Defined.

Lemma get_chunks_fails_before_download_witness :
  _get_chunks chunk_world
    (VDict [("base_download_url", VStr "http://x/");
            ("chunk_file_names", VList [VStr "a.json"; VInt 7])]) fresh_client
  = (Raise TypeError, fresh_client).
Proof.
  apply (get_chunks_fails_before_download chunk_world
           [("base_download_url", VStr "http://x/");
            ("chunk_file_names", VList [VStr "a.json"; VInt 7])]
           [VStr "a.json"; VInt 7] fresh_client).
  - reflexivity.
  - apply Exists_cons_tl. apply Exists_cons_hd. reflexivity.
Defined.

(* ===================================================================== *)
(** ** Properties of the asset merger *)
(* ===================================================================== *)

Lemma assoc_setitem {A} (k k' : string) (v : A) (d : list (string * A)) :
  Py.assoc k (Py.setitem k' v d) = if String.eqb k k' then Some v else Py.assoc k d.
Proof.
  induction d as [|[k0 v0] d IH]; simpl.
  - destruct (String.eqb k k'); reflexivity.
  - destruct (String.eqb_spec k' k0) as [->|Hne]; simpl.
    + destruct (String.eqb k k0); reflexivity.
    + destruct (String.eqb_spec k k0) as [->|Hne'].
      * destruct (String.eqb_spec k0 k') as [Heq|_]; [congruence|reflexivity].
      * exact IH.
Qed.

Lemma setitem_same {A} (k : string) (v : A) (d : list (string * A)) :
  Py.assoc k d = Some v -> Py.setitem k v d = d.
Proof.
  induction d as [|[k0 v0] d IH]; simpl; [discriminate|].
  destruct (String.eqb k k0).
  - intros H. injection H as ->. reflexivity.
  - intros H. rewrite (IH H). reflexivity.
Qed.

Lemma assoc_in_keys {A} (k : string) (a : list (string * A)) :
  existsb (String.eqb k) (map fst a)
  = match Py.assoc k a with Some _ => true | None => false end.
Proof.
  induction a as [|[k0 v0] a IH]; simpl; [reflexivity|].
  destruct (String.eqb k k0); [reflexivity|exact IH].
Qed.

Lemma copy_keys_lookup (a : list (string * value)) (k : string) (ks : list string) :
  forall d,
    Py.assoc k
      (fold_left (fun d' key => match Py.assoc key a with
                                | Some v => Py.setitem key v d'
                                | None => d'
                                end) ks d)
    = if existsb (String.eqb k) ks
      then match Py.assoc k a with Some x => Some x | None => Py.assoc k d end
      else Py.assoc k d.
Proof.
  induction ks as [|k0 ks IH]; intros d; simpl; [reflexivity|].
  rewrite IH. destruct (String.eqb_spec k k0) as [->|Hne]; simpl.
  - destruct (Py.assoc k0 a) as [x|] eqn:Ha.
    + destruct (existsb _ ks); [reflexivity|].
      rewrite assoc_setitem, String.eqb_refl. reflexivity.
    + destruct (existsb _ ks); reflexivity.
  - destruct (Py.assoc k0 a) as [x|] eqn:Ha; [|reflexivity].
    rewrite assoc_setitem.
    destruct (String.eqb_spec k k0) as [Heq|_]; [contradiction|reflexivity].
Qed.

(** After [for key in a.keys(): obj[key] = a[key]] a key has the value of
    the asset if the asset has it, and the object's own value otherwise. *)
Lemma copy_fields_lookup (a d : list (string * value)) (k : string) :
  Py.assoc k (copy_fields a d)
  = match Py.assoc k a with Some x => Some x | None => Py.assoc k d end.
Proof.
  unfold copy_fields. rewrite copy_keys_lookup, assoc_in_keys.
  destruct (Py.assoc k a); reflexivity.
Qed.

(** The keys of the object keep their places. *)
Lemma setitem_keys_prefix {A} (k : string) (v : A) (d : list (string * A)) :
  exists extra, map fst (Py.setitem k v d) = map fst d ++ extra.
Proof.
  induction d as [|[k0 v0] d [extra IH]]; simpl.
  - exists [k]. reflexivity.
  - destruct (String.eqb k k0); simpl.
    + exists []. rewrite app_nil_r. reflexivity.
    + exists extra. rewrite IH. reflexivity.
Qed.

Lemma copy_fields_keys (a d : list (string * value)) :
  exists extra, map fst (copy_fields a d) = map fst d ++ extra.
Proof.
  unfold copy_fields. generalize (map fst a) as ks. intros ks. revert d.
  induction ks as [|k ks IH]; intros d; simpl.
  - exists []. rewrite app_nil_r. reflexivity.
  - destruct (Py.assoc k a) as [v|]; [|apply IH].
    destruct (IH (Py.setitem k v d)) as [extra ->].
    destruct (setitem_keys_prefix k v d) as [extra' ->].
    exists (extra' ++ extra). rewrite app_assoc. reflexivity.
Qed.

Lemma copy_fields_again (a d : list (string * value)) :
  copy_fields a (copy_fields a d) = copy_fields a d.
Proof.
  assert (Hfix : forall ks d0,
             (forall k x, Py.assoc k a = Some x -> In k ks -> Py.assoc k d0 = Some x) ->
             fold_left (fun d' key => match Py.assoc key a with
                                      | Some v => Py.setitem key v d'
                                      | None => d'
                                      end) ks d0 = d0).
  { induction ks as [|k ks IH]; intros d0 Hd0; simpl; [reflexivity|].
    destruct (Py.assoc k a) as [x|] eqn:Ha.
    - rewrite (setitem_same k x d0); [|apply Hd0; [exact Ha|left; reflexivity]].
      apply IH. intros k' x' Hk' Hin. apply Hd0; [exact Hk'|right; exact Hin].
    - apply IH. intros k' x' Hk' Hin. apply Hd0; [exact Hk'|right; exact Hin]. }
  unfold copy_fields at 1. apply Hfix.
  intros k x Ha _. rewrite copy_fields_lookup, Ha. reflexivity.
Qed.

Section AssetsMore.

Variable float_repr : Q -> string.

Lemma merge_asset_returns (assets : value) (id_key : string) (obj obj' : value) :
  merge_asset float_repr assets id_key obj = Returns obj' <->
  enriched float_repr assets id_key obj obj'.
Proof.
  unfold merge_asset, enriched. split.
  - destruct obj as [| | | | | |d]; simpl; try discriminate.
    destruct (Py.assoc id_key d) as [id|] eqn:Hid; [|discriminate].
    destruct (PyObj.getitem assets (PyText.str float_repr id)) as [a|e] eqn:Ha;
      [|discriminate].
    destruct a; try discriminate.
    intros H. injection H as <-. exists d, id, d0. repeat split; assumption.
  - intros [d [id [fields [-> [Hid [Ha ->]]]]]]. simpl. rewrite Hid, Ha. reflexivity.
Qed.

(** The loop with objects already passed. *)
Lemma merge_assets_done (assets : value) (id_key : string) (todo : list value) :
  forall done,
    merge_assets float_repr assets id_key done todo
    = (match fst (merge_assets float_repr assets id_key [] todo) with
       | Returns l => Returns (done ++ l)
       | Raises e => Raises e
       end,
       done ++ snd (merge_assets float_repr assets id_key [] todo)).
Proof.
  induction todo as [|obj todo IH]; intros done; simpl.
  - rewrite app_nil_r. reflexivity.
  - destruct (merge_asset float_repr assets id_key obj) as [obj'|e]; simpl.
    + rewrite (IH (done ++ [obj'])), (IH [obj']).
      destruct (fst (merge_assets float_repr assets id_key [] todo)); simpl;
        rewrite <- !app_assoc; reflexivity.
    + reflexivity.
Qed.

Lemma merge_assets_cons (assets : value) (id_key : string) (obj : value)
      (todo : list value) :
  merge_assets float_repr assets id_key [] (obj :: todo)
  = match merge_asset float_repr assets id_key obj with
    | Returns obj' =>
        (match fst (merge_assets float_repr assets id_key [] todo) with
         | Returns l => Returns (obj' :: l)
         | Raises e => Raises e
         end,
         obj' :: snd (merge_assets float_repr assets id_key [] todo))
    | Raises e => (Raises e, obj :: todo)
    end.
Proof.
  simpl. destruct (merge_asset float_repr assets id_key obj) as [obj'|e]; [|reflexivity].
  rewrite merge_assets_done. reflexivity.
Qed.

Lemma merge_assets_returns (assets : value) (id_key : string) (l : list value) :
  forall l' mem,
    merge_assets float_repr assets id_key [] l = (Returns l', mem) ->
    mem = l' /\ Forall2 (enriched float_repr assets id_key) l l'.
Proof.
  induction l as [|obj l IH]; intros l' mem.
  - simpl. intros H. injection H as <- <-. split; [reflexivity|constructor].
  - rewrite merge_assets_cons.
    destruct (merge_asset float_repr assets id_key obj) as [obj'|e] eqn:Hobj;
      [|discriminate].
    destruct (merge_assets float_repr assets id_key [] l) as [[l1|e] mem1] eqn:Hrest;
      simpl; [|discriminate].
    destruct (IH l1 mem1 eq_refl) as [-> HF].
    intros H. injection H as <- <-. split; [reflexivity|].
    constructor; [apply merge_asset_returns; exact Hobj|exact HF].
Qed.

(** X15. When [_add_assets] returns for a list of objects, it returns that
    list (the argument, changed in place) with the objects in their order;
    each object was a dict with the key [id_key], its asset was the dict
    under [str(obj[id_key])], and afterwards every key has the value of the
    asset if the asset has the key (the asset wins over the object) and the
    value the object had otherwise; the keys of the object keep their places
    and new keys follow them. *)
Theorem add_assets_enriches (l : list value) (assets : value) (id_key : string)
        (v mem : value) :
  _add_assets float_repr (VList l) assets id_key = (Returns v, mem) ->
  mem = v
  /\ exists l',
       v = VList l'
       /\ Forall2 (fun obj obj' =>
                     exists d d' id fields,
                       obj = VDict d /\ obj' = VDict d'
                       /\ Py.assoc id_key d = Some id
                       /\ PyObj.getitem assets (PyText.str float_repr id)
                          = Returns (VDict fields)
                       /\ (forall k, Py.assoc k d'
                                     = match Py.assoc k fields with
                                       | Some x => Some x
                                       | None => Py.assoc k d
                                       end)
                       /\ exists extra, map fst d' = map fst d ++ extra)
                  l l'.
Proof.
  unfold _add_assets.
  destruct (merge_assets float_repr assets id_key [] l) as [[l'|e] mem1] eqn:Hrun;
    [|discriminate].
  destruct (merge_assets_returns _ _ _ _ _ Hrun) as [-> HF].
  intros H. injection H as <- <-. split; [reflexivity|].
  exists l'. split; [reflexivity|].
  eapply Forall2_impl; [|exact HF].
  intros obj obj' [d [id [fields [-> [Hid [Ha ->]]]]]].
  exists d, (copy_fields fields d), id, fields.
  repeat split; try assumption.
  - apply copy_fields_lookup.
  - apply copy_fields_keys.
Qed.

(** X16. A missing asset stops [_add_assets] half way: when the objects
    before have been enriched and the next object has an id for which the
    assets (a dict) have no entry under [str(id)], the call raises
    [KeyError] for that key; the objects before stay enriched in the
    caller's list, this object and the ones after it are untouched. *)
Theorem add_assets_missing_asset (before after : list value) (before' : list value)
        (d : list (string * value)) (id : value) (a : list (string * value))
        (id_key : string) :
  _add_assets float_repr (VList before) (VDict a) id_key
  = (Returns (VList before'), VList before') ->
  Py.assoc id_key d = Some id ->
  Py.assoc (PyText.str float_repr id) a = None ->
  _add_assets float_repr (VList (before ++ VDict d :: after)) (VDict a) id_key
  = (Raises (KeyError (PyText.str float_repr id)),
     VList (before' ++ VDict d :: after)).
Proof.
  unfold _add_assets.
  destruct (merge_assets float_repr (VDict a) id_key [] before) as [[l1|e] mem1] eqn:Hrun;
    [|discriminate].
  intros H Hid Hmissing. injection H as -> ->.
  assert (Hgen : forall todo done l1,
             merge_assets float_repr (VDict a) id_key [] todo = (Returns l1, l1) ->
             merge_assets float_repr (VDict a) id_key done (todo ++ VDict d :: after)
             = (Raises (KeyError (PyText.str float_repr id)),
                done ++ l1 ++ VDict d :: after)).
  { induction todo as [|obj todo IH]; intros done l1 Hl1.
    - simpl in Hl1. injection Hl1 as <-. simpl.
      unfold merge_asset. simpl. rewrite Hid, Hmissing. reflexivity.
    - rewrite merge_assets_cons in Hl1. simpl.
      destruct (merge_asset float_repr (VDict a) id_key obj) as [obj'|e]; [|discriminate].
      destruct (merge_assets float_repr (VDict a) id_key [] todo) as [[l2|e] mem2] eqn:Hrest;
        simpl in Hl1; [|discriminate].
      injection Hl1 as H1 H2. subst l1. injection H2 as ->.
      rewrite (IH (done ++ [obj']) l2 eq_refl), <- !app_assoc. reflexivity. }
  rewrite (Hgen before [] before' Hrun). reflexivity.
Qed.

(** X17. [_add_assets] is idempotent when no asset has the key [id_key]:
    a second call on the enriched list returns it unchanged. *)
Theorem add_assets_idempotent (l l' : list value) (a : list (string * value))
        (id_key : string) (mem : value) :
  Forall (fun kv => forall fields, snd kv = VDict fields ->
                                   Py.assoc id_key fields = None) a ->
  _add_assets float_repr (VList l) (VDict a) id_key = (Returns (VList l'), mem) ->
  _add_assets float_repr (VList l') (VDict a) id_key = (Returns (VList l'), VList l').
Proof.
  intros Hno. unfold _add_assets.
  destruct (merge_assets float_repr (VDict a) id_key [] l) as [[l1|e] mem1] eqn:Hrun;
    [|discriminate].
  destruct (merge_assets_returns _ _ _ _ _ Hrun) as [-> HF].
  intros H. injection H as <- _.
  assert (Hsame : merge_assets float_repr (VDict a) id_key [] l1 = (Returns l1, l1)).
  { clear Hrun. induction HF as [|obj obj' l l1 Hobj _ IH].
    - reflexivity.
    - rewrite merge_assets_cons.
      destruct Hobj as [d [id [fields [-> [Hid [Ha ->]]]]]].
      assert (Hfields : Py.assoc id_key fields = None).
      { simpl in Ha.
        destruct (Py.assoc (PyText.str float_repr id) a) as [x|] eqn:Hx;
          [|discriminate Ha].
        injection Ha as ->.
        assert (Hin : In (PyText.str float_repr id, VDict fields) a).
        { clear - Hx. induction a as [|[k0 v0] a IH]; simpl in Hx; [discriminate|].
          destruct (String.eqb_spec (PyText.str float_repr id) k0) as [->|_].
          - injection Hx as ->. left. reflexivity.
          - right. apply IH. exact Hx. }
        rewrite Forall_forall in Hno. apply (Hno _ Hin fields). reflexivity. }
      assert (Hagain : merge_asset float_repr (VDict a) id_key (VDict (copy_fields fields d))
                       = Returns (VDict (copy_fields fields d))).
      { unfold merge_asset. simpl PyObj.getitem at 1.
        rewrite copy_fields_lookup, Hfields, Hid, Ha, copy_fields_again. reflexivity. }
      rewrite Hagain, IH. reflexivity. }
  rewrite Hsame. reflexivity.
Qed.

End AssetsMore.

Lemma add_assets_enriches_witness :
  exists l',
    _add_assets no_floats (VList [mazda; skippy]) (VDict car_assets) "car_id"
    = (Returns (VList l'), VList l')
    /\ List.length l' = 2%nat.
Proof.
  pose (run := _add_assets no_floats (VList [mazda; skippy]) (VDict car_assets) "car_id").
  destruct (add_assets_enriches no_floats [mazda; skippy] (VDict car_assets) "car_id"
              (snd run) (snd run))
    as [_ [l' [Hv HF]]].
  - vm_compute. reflexivity.
  - exists l'. split.
    + rewrite <- Hv. vm_compute. reflexivity.
    + symmetry. apply (Forall2_length HF).
Defined.

Lemma add_assets_missing_asset_witness :
  _add_assets no_floats (VList [mazda; VDict unknown_car; skippy]) (VDict car_assets) "car_id"
  = (Raises (KeyError "3"),
     VList [VDict [("car_id", VInt 1); ("car_name", VStr "Mazda MX-5");
                   ("logo", VStr "/img/mazda.png")];
            VDict unknown_car; skippy]).
Proof.
  apply (add_assets_missing_asset no_floats [mazda] [skippy]
           [VDict [("car_id", VInt 1); ("car_name", VStr "Mazda MX-5");
                   ("logo", VStr "/img/mazda.png")]]
           unknown_car (VInt 3) car_assets "car_id").
  - vm_compute. reflexivity.
  - reflexivity.
  - reflexivity.
Defined.

Lemma add_assets_idempotent_witness :
  exists l',
    _add_assets no_floats (VList [mazda; skippy]) (VDict car_assets) "car_id"
    = (Returns (VList l'), VList l')
    /\ _add_assets no_floats (VList l') (VDict car_assets) "car_id"
       = (Returns (VList l'), VList l').
Proof.
  eexists. split.
  - vm_compute. reflexivity.
  - apply (add_assets_idempotent no_floats [mazda; skippy] _ car_assets "car_id"
             (snd (_add_assets no_floats (VList [mazda; skippy]) (VDict car_assets)
                     "car_id"))).
    + repeat constructor; intros fields H; injection H as <-; reflexivity.
    + vm_compute. reflexivity.
Defined.

(* ===================================================================== *)
(** ** Further properties of the CSV decoder *)
(* ===================================================================== *)

Lemma assoc_app {A} (k : string) (l1 l2 : list (string * A)) :
  Py.assoc k (l1 ++ l2)
  = match Py.assoc k l1 with Some v => Some v | None => Py.assoc k l2 end.
Proof.
  induction l1 as [|[k0 v0] l1 IH]; simpl; [reflexivity|].
  destruct (String.eqb k k0); [reflexivity|exact IH].
Qed.

Lemma fold_setitem_lookup {A} (k : string) (pairs : list (string * A)) :
  forall d,
    Py.assoc k (fold_left (fun d' kv => Py.setitem (fst kv) (snd kv) d') pairs d)
    = match Py.assoc k (rev pairs) with Some v => Some v | None => Py.assoc k d end.
Proof.
  induction pairs as [|[k0 v0] pairs IH]; intros d; simpl; [reflexivity|].
  rewrite IH, assoc_app, assoc_setitem. simpl.
  destruct (Py.assoc k (rev pairs)); [reflexivity|].
  destruct (String.eqb k k0); reflexivity.
Qed.

(** [dict(pairs)[k]] is the value of the last pair with the key [k]. *)
Lemma dict_of_lookup {A} (k : string) (pairs : list (string * A)) :
  Py.assoc k (Py.dict_of pairs) = Py.assoc k (rev pairs).
Proof.
  unfold Py.dict_of. rewrite fold_setitem_lookup. simpl.
  destruct (Py.assoc k (rev pairs)); reflexivity.
Qed.

Lemma setitem_keys {A} (k : string) (v : A) (d : list (string * A)) (k' : string) :
  In k' (map fst (Py.setitem k v d)) -> k' = k \/ In k' (map fst d).
Proof.
  induction d as [|[k0 v0] d IH]; simpl.
  - intros [H|[]]. left. symmetry. exact H.
  - destruct (String.eqb k k0); simpl.
    + intros H. right. exact H.
    + intros [H|H]; [right; left; exact H|].
      destruct (IH H) as [Hk|Hin]; [left; exact Hk|right; right; exact Hin].
Qed.

Lemma setitem_nodup {A} (k : string) (v : A) (d : list (string * A)) :
  NoDup (map fst d) -> NoDup (map fst (Py.setitem k v d)).
Proof.
  induction d as [|[k0 v0] d IH]; simpl; intros Hnd.
  - constructor; [intros []|constructor].
  - inversion Hnd as [|? ? Hnotin Hrest]; subst.
    destruct (String.eqb_spec k k0) as [->|Hne]; simpl.
    + constructor; assumption.
    + constructor; [|apply IH; exact Hrest].
      intros Hin. destruct (setitem_keys _ _ _ _ Hin) as [Heq|Hin'].
      * apply Hne. symmetry. exact Heq.
      * apply Hnotin. exact Hin'.
Qed.

Lemma dict_of_nodup {A} (pairs : list (string * A)) :
  NoDup (map fst (Py.dict_of pairs)).
Proof.
  unfold Py.dict_of.
  assert (H : forall d : list (string * A),
             NoDup (map fst d) ->
             NoDup (map fst (fold_left (fun d' kv => Py.setitem (fst kv) (snd kv) d')
                                       pairs d))).
  { induction pairs as [|kv pairs IH]; intros d Hd; simpl; [exact Hd|].
    apply IH, setitem_nodup, Hd. }
  apply H. constructor.
Qed.

(** X18. Every dict that [_parse_csv_response] returns comes from a row
    with as many cells as there are header names and has each key once;
    when several columns have the same name after lowercasing, the key has
    the cell of the last of them (the cells of the others are dropped). *)
Theorem parse_csv_response_duplicate_headers (text : string) (first : list string)
        (rest : list (list string)) (err : option exn) (s s' : state)
        (rows : list (list (string * string))) :
  Csv.reader text = (first :: rest, err) ->
  _parse_csv_response text s = (Ok rows, s') ->
  Forall (fun d =>
            NoDup (map fst d)
            /\ exists row,
                 In row rest
                 /\ List.length row = List.length first
                 /\ forall h, Py.assoc h d
                              = Py.assoc h (rev (combine (map PyStr.lower first) row)))
         rows.
Proof.
  intros Hreader. unfold _parse_csv_response. rewrite Hreader. unfold bind.
  rewrite parse_rows_spec. simpl.
  destruct err; intros H; [discriminate H|]. injection H as <- _.
  apply Forall_forall. intros d Hd. apply in_map_iff in Hd.
  destruct Hd as [row [<- Hrow]]. apply filter_In in Hrow. destruct Hrow as [Hin Hfits].
  split; [apply dict_of_nodup|].
  exists row. split; [exact Hin|]. split.
  - apply Nat.eqb_eq in Hfits. rewrite Hfits, length_map. reflexivity.
  - intros h. apply dict_of_lookup.
Qed.

(** X19. When the reader fails after the header row, [_parse_csv_response]
    raises the reader's error and returns no row, also not the rows read
    before; the warnings for the rows before the failure have been
    printed. *)
Theorem parse_csv_response_reader_error (text : string) (first : list string)
        (rest : list (list string)) (e : exn) (s : state) :
  Csv.reader text = (first :: rest, Some e) ->
  _parse_csv_response text s
  = (Raise e,
     warned (List.length
               (filter (fun row => negb (List.length row =? List.length first)%nat) rest))
            s).
Proof.
  intros Hreader. unfold _parse_csv_response. rewrite Hreader. unfold bind.
  rewrite parse_rows_spec. simpl. rewrite length_map. reflexivity.
Qed.

Lemma parse_csv_response_duplicate_headers_witness :
  _parse_csv_response twin_csv fresh_client = (Ok [[("id", "2")]], fresh_client)
  /\ Forall (fun d => NoDup (map fst d)) [[("id", "2")]].
Proof.
  assert (Hrun : _parse_csv_response twin_csv fresh_client
                 = (Ok [[("id", "2")]], fresh_client)) by (vm_compute; reflexivity).
  split; [exact Hrun|].
  eapply Forall_impl;
    [|apply (parse_csv_response_duplicate_headers twin_csv ["ID"; "id"] [["1"; "2"]] None
               fresh_client fresh_client [[("id", "2")]]); [vm_compute; reflexivity|exact Hrun]].
  intros d [Hnd _]. exact Hnd.
Defined.

Lemma parse_csv_response_reader_error_witness :
  _parse_csv_response broken_csv fresh_client
  = (Raise CsvError, record (EvPrint row_warning) fresh_client).
Proof.
  apply (parse_csv_response_reader_error broken_csv ["id"; "name"] [["7"]] CsvError
           fresh_client).
  vm_compute. reflexivity.
Defined.

(* ===================================================================== *)
(** ** Properties of the endpoint methods *)
(* ===================================================================== *)

Lemma equals_int_unique (x : value) (n : Z) :
  PyObj.equals_int x n = true -> forall m, PyObj.equals_int x m = (m =? n).
Proof.
  unfold PyObj.equals_int. destruct (Py.number x) as [[f q]|]; [|discriminate].
  intros Hn m. apply Qeq_bool_iff in Hn.
  destruct (Z.eqb_spec m n) as [->|Hne].
  - apply Qeq_bool_iff. exact Hn.
  - destruct (Qeq_bool q (inject_Z m)) eqn:Hm; [|reflexivity].
    exfalso. apply Hne. apply Qeq_bool_iff in Hm.
    rewrite Hn in Hm. unfold Qeq, inject_Z in Hm. simpl in Hm. lia.
Qed.

Section EndpointsMore.

Variable float_repr : Q -> string.
Variable W : world.

(** X20. [driver_list] checks its argument before any request.  A list or
    a dict is not hashable and raises [TypeError]; what is equal to none of
    the numbers 1 to 6 raises [ValueError], and so does [None], the default
    of the argument; a number equal to the category [n] (also [True] for 1,
    or the float 2.0) fetches the endpoint of that category. *)
Theorem driver_list_validates (category_id : value) (s : state) :
  (Py.is_list category_id || Py.is_dict category_id = true ->
   driver_list float_repr W category_id s = (Raises (Exn TypeError), s))
  /\ (Py.is_list category_id || Py.is_dict category_id = false ->
      (forall n, 1 <= n <= 6 -> PyObj.equals_int category_id n = false) ->
      driver_list float_repr W category_id s = (Raises (Exn ValueError), s))
  /\ driver_list float_repr W VNone s = (Raises (Exn ValueError), s)
  /\ (Py.is_list category_id || Py.is_dict category_id = false ->
      forall n endpoint,
        In (n, endpoint) category_endpoints ->
        PyObj.equals_int category_id n = true ->
        driver_list float_repr W category_id s
        = call (_get_resource float_repr W endpoint None 3) s).
Proof.
  assert (Hfind : Py.is_list category_id || Py.is_dict category_id = false ->
                  find_category category_id
                  = Returns (option_map snd
                               (find (fun kv => PyObj.equals_int category_id (fst kv))
                                     category_endpoints))).
  { destruct category_id; simpl; try discriminate; reflexivity. }
  split; [|split; [|split]].
  - destruct category_id; simpl; try discriminate; reflexivity.
  - intros Hhash Hnone. unfold driver_list, api_bind, completed.
    rewrite (Hfind Hhash). simpl.
    rewrite !Hnone by lia. reflexivity.
  - reflexivity.
  - intros Hhash n endpoint Hin Hn. unfold driver_list, api_bind, completed.
    rewrite (Hfind Hhash). simpl.
    rewrite !(equals_int_unique category_id n Hn).
    simpl in Hin.
    destruct Hin as [H|[H|[H|[H|[H|[H|[]]]]]]]; injection H as <- <-; reflexivity.
Qed.

(** X21. The endpoint methods that read a field of the fetched resource
    take it to be a JSON object.  When [_get_resource] returns something
    else ([None] for an unsupported Content-Type, a list for a CSV file or a
    JSON array), the methods that call [resource.get] raise
    [AttributeError] and those that index the resource raise [TypeError],
    after the requests of the fetch and without another one.  For
    [season_spectator_subsessionids] this holds with and without the
    [event_types] parameter: for every argument that is false, and for
    every true one that can be iterated, as the default [[2, 3, 4, 5]]. *)
Theorem endpoints_need_a_json_object (resource : value) (s s1 : state) :
  Py.is_dict resource = false ->
  (forall subsession_id simsession_number,
      _get_resource float_repr W "/data/results/lap_chart_data"
        (Some (VDict [("subsession_id", subsession_id);
                      ("simsession_number", simsession_number)])) 3 s
      = (Ok resource, s1) ->
      result_lap_chart_data float_repr W subsession_id simsession_number s
      = (Raises (Exn AttributeError), s1))
  /\ (forall subsession_id simsession_number,
         _get_resource float_repr W "/data/results/event_log"
           (Some (VDict [("subsession_id", subsession_id);
                         ("simsession_number", simsession_number)])) 3 s
         = (Ok resource, s1) ->
         result_event_log float_repr W subsession_id simsession_number s
         = (Raises (Exn AttributeError), s1))
  /\ (forall series_id,
         _get_resource float_repr W "/data/series/past_seasons"
           (Some (VDict [("series_id", series_id)])) 3 s
         = (Ok resource, s1) ->
         series_past_seasons float_repr W series_id s
         = (Raises (Exn AttributeError), s1))
  /\ (forall league_id include_licenses,
         _get_resource float_repr W "/data/league/roster"
           (Some (VDict (set_if_truthy "include_licenses" include_licenses
                           [("league_id", league_id)]))) 3 s
         = (Ok resource, s1) ->
         league_roster float_repr W league_id include_licenses s
         = (Raises (Exn TypeError), s1))
  /\ (forall cust_id,
         _get_resource float_repr W "/data/member/awards"
           (Some (VDict (set_if_truthy "cust_id" cust_id []))) 3 s
         = (Ok resource, s1) ->
         member_awards float_repr W cust_id s = (Raises (Exn TypeError), s1))
  /\ (forall event_types,
         Py.truthy event_types = false ->
         _get_resource float_repr W "/data/season/spectator_subsessionids"
           (Some (VDict [])) 3 s
         = (Ok resource, s1) ->
         season_spectator_subsessionids float_repr W event_types s
         = (Raises (Exn TypeError), s1))
  /\ (forall event_types items,
         Py.truthy event_types = true ->
         Py.iterate event_types = Ok items ->
         _get_resource float_repr W "/data/season/spectator_subsessionids"
           (Some (VDict [("event_types",
                          VStr (PyText.join "," (map (PyText.str float_repr) items)))]))
           3 s
         = (Ok resource, s1) ->
         season_spectator_subsessionids float_repr W event_types s
         = (Raises (Exn TypeError), s1)).
Proof.
  intros Hshape.
  assert (Hget : PyObj.get resource "chunk_info" = Raises (Exn AttributeError)
                 /\ PyObj.get resource "series" = Raises (Exn AttributeError)).
  { destruct resource; try discriminate Hshape; split; reflexivity. }
  assert (Hitem : PyObj.getitem resource "data_url" = Raises (Exn TypeError)
                  /\ PyObj.getitem resource "subsession_ids" = Raises (Exn TypeError)).
  { destruct resource; try discriminate Hshape; split; reflexivity. }
  destruct Hget as [Hchunk Hseries]. destruct Hitem as [Hurl Hids].
  repeat split.
  - intros a b Hrun. unfold result_lap_chart_data, chunks_of, get_resource, api_bind, call,
      completed. rewrite Hrun, Hchunk. reflexivity.
  - intros a b Hrun. unfold result_event_log, chunks_of, get_resource, api_bind, call,
      completed. rewrite Hrun, Hchunk. reflexivity.
  - intros a Hrun. unfold series_past_seasons, get_resource, api_bind, call, completed.
    rewrite Hrun, Hseries. reflexivity.
  - intros a b Hrun. unfold league_roster.
    unfold get_resource, api_bind, call, completed. rewrite Hrun, Hurl. reflexivity.
  - intros a Hrun. unfold member_awards.
    unfold get_resource, api_bind, call, completed. rewrite Hrun, Hurl. reflexivity.
  - intros a Hfalsy Hrun. unfold season_spectator_subsessionids.
    rewrite Hfalsy.
    unfold get_resource, api_bind, call, completed, api_ret.
    rewrite Hrun, Hids. reflexivity.
  - intros a items Htruthy Hitems Hrun. unfold season_spectator_subsessionids.
    rewrite Htruthy, Hitems.
    unfold get_resource, api_bind, call, completed, api_ret, lift_result.
    rewrite Hrun, Hids. reflexivity.
Qed.

End EndpointsMore.

Lemma driver_list_validates_witness :
  driver_list no_floats linked_csv_world (VStr "road") logged_in_client
  = (Raises (Exn ValueError), logged_in_client)
  /\ driver_list no_floats linked_csv_world (VFloat 2) logged_in_client
     = call (_get_resource no_floats linked_csv_world
               "/data/driver_stats_by_category/road" None 3) logged_in_client.
Proof.
  destruct (driver_list_validates no_floats linked_csv_world (VStr "road") logged_in_client)
    as [_ [Hinvalid _]].
  destruct (driver_list_validates no_floats linked_csv_world (VFloat 2) logged_in_client)
    as [_ [_ [_ Hvalid]]].
  split.
  - apply Hinvalid; [reflexivity|]. intros n _. reflexivity.
  - apply (Hvalid eq_refl 2).
    + right. left. reflexivity.
    + reflexivity.
Defined.

Lemma endpoints_need_a_json_object_witness :
  fst (result_event_log no_floats linked_csv_world (VInt 42) (VInt 0) logged_in_client)
  = Raises (Exn AttributeError)
  /\ fst (season_spectator_subsessionids no_floats linked_csv_world
            (VList [VInt 2; VInt 3; VInt 4; VInt 5]) logged_in_client)
     = Raises (Exn TypeError).
Proof.
  pose (run := _get_resource no_floats linked_csv_world "/data/results/event_log"
                 (Some (VDict [("subsession_id", VInt 42); ("simsession_number", VInt 0)]))
                 3 logged_in_client).
  pose (run' := _get_resource no_floats linked_csv_world
                  "/data/season/spectator_subsessionids"
                  (Some (VDict [("event_types", VStr "2,3,4,5")])) 3 logged_in_client).
  split.
  - destruct (endpoints_need_a_json_object no_floats linked_csv_world
                (VList [VDict [("id", VStr "1"); ("name", VStr "Alice")];
                        VDict [("id", VStr "2"); ("name", VStr "Bob")]])
                logged_in_client (snd run))
      as [_ [Hlog _]].
    + reflexivity.
    + rewrite (Hlog (VInt 42) (VInt 0)); [reflexivity|].
      vm_compute. reflexivity.
  - destruct (endpoints_need_a_json_object no_floats linked_csv_world
                (VList [VDict [("id", VStr "1"); ("name", VStr "Alice")];
                        VDict [("id", VStr "2"); ("name", VStr "Bob")]])
                logged_in_client (snd run'))
      as [_ [_ [_ [_ [_ [_ Hids]]]]]].
    + reflexivity.
    + rewrite (Hids (VList [VInt 2; VInt 3; VInt 4; VInt 5])
                 [VInt 2; VInt 3; VInt 4; VInt 5]); [reflexivity| | |].
      * reflexivity.
      * reflexivity.
      * vm_compute. reflexivity.
Defined.

(* ===================================================================== *)
(** ** The requests of a search of hosted sessions *)
(* ===================================================================== *)

Lemma comprehension_pure {A B} (f : A -> M state B) (l : list A) :
  (forall x s r s', f x s = (r, s') -> s' = s) ->
  forall s r s', comprehension f l s = (r, s') -> s' = s.
Proof.
  intros Hf. induction l as [|x l IH]; intros s r s'; simpl.
  - intros H. injection H as <- <-. reflexivity.
  - unfold bind at 1. destruct (f x s) as [[y|e] s1] eqn:Hx;
      pose proof (Hf _ _ _ _ Hx) as ->.
    + unfold bind at 1. destruct (comprehension f l s) as [[ys|e] s2] eqn:Hl;
        pose proof (IH _ _ _ Hl) as ->; intros H; injection H as <- <-; reflexivity.
    + intros H. injection H as <- <-. reflexivity.
Qed.

Lemma lift_result_pure {A} (x : result A) (s s' : state) (r : result A) :
  lift_result x s = (r, s') -> s' = s.
Proof. unfold lift_result. destruct x; intros H; injection H as <- <-; reflexivity. Qed.

Section SearchHosted.

Variable float_repr : Q -> string.
Variable W : world.

(** Whatever it is given, [_get_chunks] does nothing but GETs without
    parameters. *)
Lemma get_chunks_trace (chunks : value) (s s' : state) (res : result (list value)) :
  _get_chunks W chunks s = (res, s') ->
  exists added,
    history s' = added ++ history s
    /\ Forall (fun ev => exists u o, ev = EvGet u None o) added.
Proof.
  assert (Hfetch : forall urls s s' (res : result (list value)),
             comprehension (fun url => r <- session_get W url None ;; response_json r)
                           urls s = (res, s') ->
             exists added,
               history s' = added ++ history s
               /\ Forall (fun ev => exists u o, ev = EvGet u None o) added).
  { induction urls as [|url urls IH]; intros s0 s0' res0; simpl.
    - intros H. injection H as <- <-. exists []. split; [reflexivity|constructor].
    - unfold bind at 1. unfold bind at 1.
      destruct url as [| | | |u| |];
        try (simpl; intros H; injection H as <- <-; exists []; split;
             [reflexivity|constructor]).
      unfold session_get.
      destruct (get_reply W (history s0) u None) as [r|f] eqn:Hreply.
      + unfold response_json. destruct (json r) as [v|].
        * unfold ret at 1. unfold bind at 1.
          destruct (comprehension _ urls (record _ s0)) as [[vs|e] s1] eqn:Hrest;
            destruct (IH _ _ _ Hrest) as [a [Ha Fa]];
            intros H; injection H as <- <-;
            exists (a ++ [EvGet u None (Responds r)]);
            (split; [rewrite Ha, <- app_assoc; reflexivity|]);
            apply Forall_app; (split; [exact Fa|]);
            constructor; [eexists; eexists; reflexivity|constructor
                         |eexists; eexists; reflexivity|constructor].
        * intros H. injection H as <- <-. exists [EvGet u None (Responds r)].
          split; [reflexivity|]. constructor; [eexists; eexists; reflexivity|constructor].
      + intros H. injection H as <- <-. exists [EvGet u None (Fails f)].
        split; [reflexivity|]. constructor; [eexists; eexists; reflexivity|constructor]. }
  assert (Hnone : forall s0 : state,
             exists added : list event,
               history s0 = added ++ history s0
               /\ Forall (fun ev => exists u o, ev = EvGet u None o) added).
  { intros s0. exists []. split; [reflexivity|constructor]. }
  unfold _get_chunks. destruct (negb (Py.is_dict chunks)).
  - intros H. injection H as <- <-. apply Hnone.
  - unfold bind at 1.
    destruct (lift_result (Py.get chunks "base_download_url") s) as [[b|e] s1] eqn:H1;
      pose proof (lift_result_pure _ _ _ _ H1) as ->;
      [|intros H; injection H as <- <-; apply Hnone].
    unfold bind at 1.
    destruct (lift_result (Py.get chunks "chunk_file_names") s) as [[n|e] s1] eqn:H2;
      pose proof (lift_result_pure _ _ _ _ H2) as ->;
      [|intros H; injection H as <- <-; apply Hnone].
    unfold bind at 1.
    destruct (lift_result (Py.iterate n) s) as [[names|e] s1] eqn:H3;
      pose proof (lift_result_pure _ _ _ _ H3) as ->;
      [|intros H; injection H as <- <-; apply Hnone].
    unfold bind at 1.
    destruct (comprehension (fun x => lift_result (Py.add b x)) names s)
      as [[urls|e] s1] eqn:H4;
      pose proof (comprehension_pure _ names
                    (fun x s0 r s0' => lift_result_pure (Py.add b x) s0 s0' r) _ _ _ H4) as ->;
      [|intros H; injection H as <- <-; apply Hnone].
    unfold bind at 1.
    destruct (comprehension _ urls s) as [[vs|e] s1] eqn:H5;
      destruct (Hfetch _ _ _ _ H5) as [a [Ha Fa]];
      [|intros H; injection H as <- <-; exists a; split; assumption].
    unfold bind at 1.
    destruct (comprehension (fun sublist => lift_result (Py.iterate sublist)) vs s1)
      as [[ls|e] s2] eqn:H6;
      pose proof (comprehension_pure _ vs
                    (fun x s0 r s0' => lift_result_pure (Py.iterate x) s0 s0' r) _ _ _ H6) as ->;
      intros H; injection H as <- <-; exists a; split; assumption.
Qed.

(** After a resource fetch and chunk downloads, the GETs that carry
    parameters are those of the fetch for the endpoint. *)
Lemma params_only_to_endpoint (endpoint : string) (payload : option value)
      (s s1 s' : state) (rres : result value) (added a2 : list event) :
  _get_resource float_repr W endpoint payload 3 s = (rres, s1) ->
  history s' = a2 ++ history s1 ->
  Forall (fun ev => exists u o, ev = EvGet u None o) a2 ->
  history s' = added ++ history s ->
  forall u p o,
    In (EvGet u (Some p) o) added ->
    u = (base_url s ++ endpoint)%string /\ payload = Some p.
Proof.
  intros Hfetch Ha2 F2 Hhist u p o Hin.
  destruct (get_resource_trace float_repr W _ _ _ _ _ _ Hfetch)
    as [a1 [link [first [second [Ha1 [G1 _]]]]]].
  assert (added = a2 ++ a1) as ->.
  { apply (app_inv_tail (history s)).
    rewrite <- Hhist, Ha2, Ha1, app_assoc. reflexivity. }
  apply in_app_or in Hin. destruct Hin as [Hin|Hin].
  - rewrite Forall_forall in F2. destruct (F2 _ Hin) as [u' [o' Heq]]. discriminate Heq.
  - assert (Hf : In (EvGet u (Some p) o) (filter is_get a1)).
    { apply filter_In. split; [exact Hin|reflexivity]. }
    rewrite G1 in Hf. apply in_app_or in Hf. destruct Hf as [Hf|Hf];
      apply in_map_iff in Hf; destruct Hf as [o' [Heq _]].
    + discriminate Heq.
    + injection Heq as <- <- _. split; reflexivity.
Qed.

(** X22. [result_search_hosted] asks for what its true arguments say and
    for nothing else.  Without a true [start_range_begin] or
    [finish_range_begin], or without a true [cust_id], [host_cust_id],
    [session_name] or [team_id], it raises before any request.  Otherwise
    every GET that carries parameters goes to the search endpoint, and its
    parameters are exactly the arguments that are true: an argument that is
    [None], 0, the empty string or an empty list is not sent.  The link and
    the chunk files are fetched without parameters. *)
Theorem result_search_hosted_requests
        (start_range_begin start_range_end finish_range_begin finish_range_end
         cust_id host_cust_id session_name league_id league_season_id
         car_id track_id category_ids team_id : value)
        (s s' : state) (res : completion value) (added : list event) :
  let params :=
    search_hosted_params start_range_begin start_range_end finish_range_begin
      finish_range_end cust_id host_cust_id session_name league_id league_season_id
      car_id track_id category_ids team_id in
  result_search_hosted float_repr W start_range_begin start_range_end finish_range_begin
    finish_range_end cust_id host_cust_id session_name league_id league_season_id
    car_id track_id category_ids team_id s = (res, s') ->
  history s' = added ++ history s ->
  (Py.truthy start_range_begin || Py.truthy finish_range_begin = false ->
   added = []
   /\ res = Raises (RuntimeErrorText
                      "Please supply either start_range_begin or finish_range_begin"))
  /\ (Py.truthy cust_id || Py.truthy host_cust_id || Py.truthy session_name
      || Py.truthy team_id = false ->
      added = [] /\ exists msg, res = Raises (RuntimeErrorText msg))
  /\ (forall u p o,
         In (EvGet u (Some p) o) added ->
         u = (base_url s ++ "/data/results/search_hosted")%string
         /\ exists payload,
              p = VDict payload
              /\ forall key v, In (key, v) payload
                               <-> In (key, v) params /\ Py.truthy v = true).
Proof.
  intros params Hrun Hhist. revert Hrun. unfold result_search_hosted.
  fold (search_hosted_params start_range_begin start_range_end finish_range_begin
          finish_range_end cust_id host_cust_id session_name league_id league_season_id
          car_id track_id category_ids team_id). fold params.
  assert (Hquiet : s' = s -> added = []).
  { intros ->. apply (app_inv_tail (history s)). rewrite <- Hhist. reflexivity. }
  destruct (Py.truthy start_range_begin || Py.truthy finish_range_begin) eqn:Hrange.
  2:{ simpl. intros H. injection H as <- <-.
      rewrite (Hquiet eq_refl). split; [intros _; split; reflexivity|].
      split; [intros _; split; [reflexivity|eexists; reflexivity]|].
      intros u p o []. }
  destruct (Py.truthy cust_id || Py.truthy host_cust_id || Py.truthy session_name
            || Py.truthy team_id) eqn:Hwho.
  2:{ simpl. intros H. injection H as <- <-.
      rewrite (Hquiet eq_refl). split; [discriminate|].
      split; [intros _; split; [reflexivity|eexists; reflexivity]|].
      intros u p o []. }
  change (negb true) with false. cbv iota. intros Hrun.
  split; [discriminate|]. split; [discriminate|].
  set (payload := filter (fun kv : string * value => Py.truthy (snd kv)) params) in *.
  assert (Hpayload : forall key v, In (key, v) payload
                                   <-> In (key, v) params /\ Py.truthy v = true).
  { intros key v. unfold payload. rewrite filter_In. reflexivity. }
  revert Hrun. unfold api_bind at 1. unfold get_resource, call.
  destruct (_get_resource float_repr W "/data/results/search_hosted"
              (Some (VDict payload)) 3 s) as [rres s1] eqn:Hfetch.
  assert (Hgets : forall a2,
             history s' = a2 ++ history s1 ->
             Forall (fun ev => exists u o, ev = EvGet u None o) a2 ->
             forall u p o,
               In (EvGet u (Some p) o) added ->
               u = (base_url s ++ "/data/results/search_hosted")%string
               /\ exists payload0,
                    p = VDict payload0
                    /\ forall key v, In (key, v) payload0
                                     <-> In (key, v) params /\ Py.truthy v = true).
  { intros a2 Ha2 F2 u p o Hin.
    destruct (params_only_to_endpoint _ _ _ _ _ _ _ _ Hfetch Ha2 F2 Hhist u p o Hin)
      as [-> Hp].
    injection Hp as <-. split; [reflexivity|].
    exists payload. split; [reflexivity|exact Hpayload]. }
  destruct rres as [resource|e]; cbv beta iota.
  2:{ intros H. injection H as <- <-. apply (Hgets []); [reflexivity|constructor]. }
  unfold api_bind at 1. unfold completed at 1.
  destruct (PyObj.get_default resource "data" (VDict [])) as [data|e]; cbv beta iota.
  2:{ intros H. injection H as <- <-. apply (Hgets []); [reflexivity|constructor]. }
  unfold api_bind at 1. unfold completed at 1.
  destruct (PyObj.get data "chunk_info") as [chunk_info|e]; cbv beta iota.
  2:{ intros H. injection H as <- <-. apply (Hgets []); [reflexivity|constructor]. }
  unfold api_bind at 1. unfold call.
  destruct (_get_chunks W chunk_info s1) as [cres s2] eqn:Hchunks.
  destruct (get_chunks_trace _ _ _ _ Hchunks) as [a2 [Ha2 F2]].
  destruct cres as [items|e]; cbv beta iota; unfold api_ret;
    intros H; injection H as <- <-; apply (Hgets a2 Ha2 F2).
Qed.

(** X23. [result_lap_data] raises before any request when neither
    [cust_id] nor [team_id] is true (0 counts as missing).  Otherwise every
    GET that carries parameters goes to the lap data endpoint, with the
    subsession, the session number and those of [cust_id] and [team_id] that
    are true; the chunk files are fetched without parameters.  What the
    method returns is a list. *)
Theorem result_lap_data_requests (subsession_id simsession_number cust_id team_id : value)
        (s s' : state) (res : completion value) (added : list event) :
  result_lap_data float_repr W subsession_id simsession_number cust_id team_id s
  = (res, s') ->
  history s' = added ++ history s ->
  (Py.truthy cust_id = false -> Py.truthy team_id = false ->
   added = []
   /\ res = Raises (RuntimeErrorText "Please supply either a cust_id or a team_id"))
  /\ (forall v, res = Returns v -> exists items, v = VList items)
  /\ (forall u p o,
         In (EvGet u (Some p) o) added ->
         u = (base_url s ++ "/data/results/lap_data")%string
         /\ exists payload,
              p = VDict payload
              /\ Py.assoc "subsession_id" payload = Some subsession_id
              /\ Py.assoc "simsession_number" payload = Some simsession_number
              /\ Py.assoc "cust_id" payload
                 = (if Py.truthy cust_id then Some cust_id else None)
              /\ Py.assoc "team_id" payload
                 = (if Py.truthy team_id then Some team_id else None)).
Proof.
  intros Hrun Hhist. revert Hrun. unfold result_lap_data.
  destruct (Py.truthy cust_id) eqn:Hcust; destruct (Py.truthy team_id) eqn:Hteam;
    cbn [negb andb]; cbv iota.
  4:{ intros H. injection H as <- <-.
      assert (added = []) as ->.
      { apply (app_inv_tail (history s)). rewrite <- Hhist. reflexivity. }
      split; [intros _ _; split; reflexivity|].
      split; [intros v Hv; discriminate Hv|]. intros u p o []. }
  all: unfold set_if_truthy; rewrite ?Hcust, ?Hteam; cbn [Py.setitem String.eqb Ascii.eqb
                                                          Bool.eqb];
    match goal with
    | |- context [get_resource _ _ _ (Some (VDict ?P))] => set (payload := P)
    end;
    intros Hrun; (split; [discriminate|]);
    revert Hrun; unfold api_bind at 1; unfold get_resource, call;
    destruct (_get_resource float_repr W "/data/results/lap_data"
                (Some (VDict payload)) 3 s) as [rres s1] eqn:Hfetch;
    assert (Hgets : forall a2,
               history s' = a2 ++ history s1 ->
               Forall (fun ev => exists u o, ev = EvGet u None o) a2 ->
               forall u p o,
                 In (EvGet u (Some p) o) added ->
                 u = (base_url s ++ "/data/results/lap_data")%string
                 /\ exists payload0,
                      p = VDict payload0
                      /\ Py.assoc "subsession_id" payload0 = Some subsession_id
                      /\ Py.assoc "simsession_number" payload0 = Some simsession_number
                      /\ Py.assoc "cust_id" payload0 = Py.assoc "cust_id" payload
                      /\ Py.assoc "team_id" payload0 = Py.assoc "team_id" payload)
      by (intros a2 Ha2 F2 u p o Hin;
          destruct (params_only_to_endpoint _ _ _ _ _ _ _ _ Hfetch Ha2 F2 Hhist u p o Hin)
            as [-> Hp];
          injection Hp as <-; split; [reflexivity|];
          exists payload; repeat split; reflexivity);
    (destruct rres as [resource|e]; cbv beta iota;
     [|intros H; injection H as <- <-;
       split; [intros v Hv; discriminate Hv|apply (Hgets []); [reflexivity|constructor]]]);
    unfold api_bind at 1; unfold completed at 1;
    (destruct (PyObj.get resource "chunk_info") as [chunk_info|e] eqn:Hinfo; cbv beta iota;
     [|intros H; injection H as <- <-;
       split; [intros v Hv; discriminate Hv|apply (Hgets []); [reflexivity|constructor]]]);
    (destruct (Py.truthy chunk_info);
     [|unfold api_ret; intros H; injection H as <- <-;
       split; [intros v Hv; injection Hv as <-; eexists; reflexivity
              |apply (Hgets []); [reflexivity|constructor]]]);
    unfold chunks_of; unfold api_bind at 1; unfold completed at 1;
    rewrite Hinfo; cbv beta iota;
    unfold api_bind at 1; unfold call;
    destruct (_get_chunks W chunk_info s1) as [cres s2] eqn:Hchunks;
    destruct (get_chunks_trace _ _ _ _ Hchunks) as [a2 [Ha2 F2]];
    destruct cres as [items|e]; cbv beta iota; unfold api_ret;
    intros H; injection H as <- <-;
    (split; [intros v Hv; try discriminate Hv; injection Hv as <-; eexists; reflexivity
            |apply (Hgets a2 Ha2 F2)]).
Qed.

End SearchHosted.

Lemma result_search_hosted_requests_witness :
  fst (result_search_hosted no_floats search_world (VStr "2024-01-01T00:00Z") VNone VNone
         VNone (VInt 7) (VInt 0) VNone VNone VNone VNone VNone VNone VNone
         logged_in_client)
  = Returns (VList [VInt 1; VInt 2])
  /\ exists payload,
       In ("cust_id", VInt 7) payload
       /\ VDict [("start_range_begin", VStr "2024-01-01T00:00Z"); ("cust_id", VInt 7)]
          = VDict payload.
Proof.
  pose (run := result_search_hosted no_floats search_world (VStr "2024-01-01T00:00Z")
                 VNone VNone VNone (VInt 7) (VInt 0) VNone VNone VNone VNone VNone VNone
                 VNone logged_in_client).
  destruct (result_search_hosted_requests no_floats search_world
              (VStr "2024-01-01T00:00Z") VNone VNone VNone (VInt 7) (VInt 0) VNone VNone
              VNone VNone VNone VNone VNone logged_in_client (snd run) (fst run)
              (history (snd run)))
    as [_ [_ Hgets]].
  - vm_compute. reflexivity.
  - vm_compute. reflexivity.
  - split; [vm_compute; reflexivity|].
    destruct (Hgets "https://members-ng.iracing.com/data/results/search_hosted"
                (VDict [("start_range_begin", VStr "2024-01-01T00:00Z");
                        ("cust_id", VInt 7)])
                (reply 200 (Some (VDict [("data",
                   VDict [("chunk_info",
                           VDict [("base_download_url", VStr "http://x/");
                                  ("chunk_file_names", VList [VStr "a.json"])])])]))))
      as [_ [payload [Hp Hiff]]].
    + vm_compute. right. left. reflexivity.
    + exists payload. split; [|exact Hp].
      apply Hiff. split; [|reflexivity].
      simpl. right. right. right. right. left. reflexivity.
Defined.

Lemma result_lap_data_requests_witness :
  fst (result_lap_data no_floats no_laps_world (VInt 42) (VInt 0) (VInt 7) VNone
         logged_in_client)
  = Returns (VList [])
  /\ exists payload,
       Py.assoc "cust_id" payload = Some (VInt 7)
       /\ Py.assoc "team_id" payload = None
       /\ VDict [("subsession_id", VInt 42); ("simsession_number", VInt 0);
                 ("cust_id", VInt 7)] = VDict payload.
Proof.
  pose (run := result_lap_data no_floats no_laps_world (VInt 42) (VInt 0) (VInt 7) VNone
                 logged_in_client).
  destruct (result_lap_data_requests no_floats no_laps_world (VInt 42) (VInt 0) (VInt 7)
              VNone logged_in_client (snd run) (fst run) (history (snd run)))
    as [_ [_ Hgets]].
  - vm_compute. reflexivity.
  - vm_compute. reflexivity.
  - split; [vm_compute; reflexivity|].
    destruct (Hgets "https://members-ng.iracing.com/data/results/lap_data"
                (VDict [("subsession_id", VInt 42); ("simsession_number", VInt 0);
                        ("cust_id", VInt 7)])
                (reply 200 (Some (VDict [("success", VBool true); ("chunk_info", VNone)]))))
      as [_ [payload [Hp [_ [_ [Hcust Hteam]]]]]].
    + vm_compute. left. reflexivity.
    + exists payload. split; [exact Hcust|]. split; [exact Hteam|exact Hp].
Defined.

(* ===================================================================== *)
(** ** No request for data before the login *)
(* ===================================================================== *)

Section LoginFirst.

Variable W : world.
Variable url : string.
Variable payload : option value.
Variable context : string.

(** X24. On a session that is not authenticated, a call of [_robust_get]
    that requires authentication sends no GET before a login has
    succeeded: when the call sent a GET at all, its history has a POST of
    the credentials that was answered 200 with a true authcode, and
    no GET before it. *)
Theorem robust_get_logs_in_first (retries : Z) (s s' : state) (res : result response)
        (added : list event) :
  authenticated s = false ->
  _robust_get W url payload retries true context s = (res, s') ->
  history s' = added ++ history s ->
  (exists ev, In ev added /\ is_get ev = true) ->
  exists r newer older,
    added = newer ++ EvSleep (1 # 2)
                  :: EvPost auth_url (credentials s) (Responds r) :: older
    /\ accepts_login r = true
    /\ Forall (fun ev => is_get ev = false) older.
Proof.
  intros Hauth Hcall Hhist [ev [Hin Hget]]. revert Hcall.
  unfold _robust_get. unfold bind at 1. unfold get_self at 1. unfold bind at 1.
  rewrite Hauth. change (true && negb false) with true. cbv iota.
  destruct (_login W 3 s) as [[[]|e] s1] eqn:Hlogin; rewrite login_unfold in Hlogin;
    destruct (login_loop_outcome W _ _ _ _ _ _ Hlogin)
      as [_ [a [Ha [Fa [_ [_ Hres]]]]]].
  - unfold with_frame.
    destruct (robust_loop W url payload context (Z.to_nat retries) 0 (false, s1))
      as [res1 [flag1 s2]] eqn:Hloop.
    destruct (robust_loop_more W url payload context _ _ _ _ _ _ _ Hloop)
      as [_ [a' [Ha' _]]].
    intros H. injection H as <- <-.
    destruct Hres as [_ [r [rest [-> Hacc]]]].
    exists r, a', rest. split.
    + apply (app_inv_tail (history s)).
      rewrite <- Hhist. simpl. rewrite Ha', Ha, <- app_assoc. reflexivity.
    + split; [exact Hacc|].
      inversion Fa as [|? ? _ Frest]; subst. inversion Frest; subst. assumption.
  - intros H. injection H as <- <-. exfalso.
    assert (added = a) as ->.
    { apply (app_inv_tail (history s)). rewrite <- Hhist, Ha. reflexivity. }
    rewrite Forall_forall in Fa. rewrite (Fa ev Hin) in Hget. discriminate Hget.
Qed.

End LoginFirst.

Lemma robust_get_logs_in_first_witness :
  exists r newer older,
    history (snd (_robust_get busy_world car_url None 3 true "cars" fresh_client))
    = newer ++ EvSleep (1 # 2)
            :: EvPost auth_url (credentials fresh_client) (Responds r) :: older
    /\ accepts_login r = true.
Proof.
  pose (run := _robust_get busy_world car_url None 3 true "cars" fresh_client).
  destruct (robust_get_logs_in_first busy_world car_url None "cars" 3 fresh_client
              (snd run) (fst run) (history (snd run)))
    as [r [newer [older [Hadded [Hacc _]]]]].
  - reflexivity.
  - vm_compute. reflexivity.
  - vm_compute. reflexivity.
  - exists (EvGet car_url None (reply 429 None)). split; [|reflexivity].
    vm_compute. right. right. right. right. right. right. left. reflexivity.
  - exists r, newer, older. split; [exact Hadded|exact Hacc].
Defined.

(* ===================================================================== *)
(** ** Optional arguments of the endpoint methods *)
(* ===================================================================== *)

Section OptionalArguments.

Variable float_repr : Q -> string.
Variable W : world.

Lemma get_resource_gets (endpoint : string) (payload : option value)
      (s s' : state) (res : completion value) (added : list event) :
  get_resource float_repr W endpoint payload s = (res, s') ->
  history s' = added ++ history s ->
  forall u p o,
    In (EvGet u (Some p) o) added ->
    u = (base_url s ++ endpoint)%string /\ payload = Some p.
Proof.
  unfold get_resource, call.
  destruct (_get_resource float_repr W endpoint payload 3 s) as [rres s1] eqn:Hfetch.
  intros Hrun Hhist.
  assert (s' = s1) as -> by (destruct rres; injection Hrun as _ <-; reflexivity).
  apply (params_only_to_endpoint float_repr W endpoint payload s s1 s1 rres added []
           Hfetch eq_refl (Forall_nil _) Hhist).
Qed.

(** X25. Which optional arguments reach the server.  For
    [result_season_results] every GET that carries parameters goes to the
    season results endpoint with the season, with [event_type] if it is
    true, and with [race_week_num] unless it is [None]: week 0 is sent, event
    type 0 is not.  For [stats_member_recap] the parameters are those of
    [cust_id] and [year] that are true, and a true [quarter] under the key
    season. *)
Theorem optional_arguments_sent (s s' : state) (res : completion value)
        (added : list event) :
  history s' = added ++ history s ->
  (forall season_id event_type race_week_num,
      result_season_results float_repr W season_id event_type race_week_num s
      = (res, s') ->
      forall u p o,
        In (EvGet u (Some p) o) added ->
        u = (base_url s ++ "/data/results/season_results")%string
        /\ exists payload,
             p = VDict payload
             /\ Py.assoc "season_id" payload = Some season_id
             /\ Py.assoc "event_type" payload
                = (if Py.truthy event_type then Some event_type else None)
             /\ Py.assoc "race_week_num" payload
                = match race_week_num with
                  | VNone => None
                  | _ => Some race_week_num
                  end)
  /\ (forall cust_id year quarter,
         stats_member_recap float_repr W cust_id year quarter s = (res, s') ->
         forall u p o,
           In (EvGet u (Some p) o) added ->
           u = (base_url s ++ "/data/stats/member_recap")%string
           /\ exists payload,
                p = VDict payload
                /\ Py.assoc "cust_id" payload
                   = (if Py.truthy cust_id then Some cust_id else None)
                /\ Py.assoc "year" payload = (if Py.truthy year then Some year else None)
                /\ Py.assoc "season" payload
                   = (if Py.truthy quarter then Some quarter else None)
                /\ Py.assoc "quarter" payload = None).
Proof.
  intros Hhist. split.
  - intros season_id event_type race_week_num Hrun u p o Hin.
    unfold result_season_results in Hrun.
    destruct (get_resource_gets _ _ _ _ _ _ Hrun Hhist u p o Hin) as [-> Hp].
    injection Hp as <-. split; [reflexivity|].
    eexists. split; [reflexivity|].
    unfold set_if_truthy, set_if_not_none.
    destruct (Py.truthy event_type); destruct race_week_num; repeat split; reflexivity.
  - intros cust_id year quarter Hrun u p o Hin.
    unfold stats_member_recap in Hrun.
    destruct (get_resource_gets _ _ _ _ _ _ Hrun Hhist u p o Hin) as [-> Hp].
    injection Hp as <-. split; [reflexivity|].
    eexists. split; [reflexivity|].
    unfold set_if_truthy.
    destruct (Py.truthy cust_id); destruct (Py.truthy year); destruct (Py.truthy quarter);
      repeat split; reflexivity.
Qed.

End OptionalArguments.

Lemma optional_arguments_sent_witness :
  exists payload,
    Py.assoc "event_type" payload = None
    /\ Py.assoc "race_week_num" payload = Some (VInt 0)
    /\ VDict [("season_id", VInt 4000); ("race_week_num", VInt 0)] = VDict payload.
Proof.
  pose (run := result_season_results no_floats no_laps_world (VInt 4000) (VInt 0) (VInt 0)
                 logged_in_client).
  destruct (optional_arguments_sent no_floats no_laps_world logged_in_client (snd run)
              (fst run) (history (snd run)))
    as [Hseason _].
  - vm_compute. reflexivity.
  - destruct (Hseason (VInt 4000) (VInt 0) (VInt 0) eq_refl
                "https://members-ng.iracing.com/data/results/season_results"
                (VDict [("season_id", VInt 4000); ("race_week_num", VInt 0)])
                (reply 200 (Some (VDict [("success", VBool true); ("chunk_info", VNone)]))))
      as [_ [payload [Hp [_ [Hevent Hweek]]]]].
    + vm_compute. left. reflexivity.
    + exists payload. split; [exact Hevent|]. split; [exact Hweek|exact Hp].
Defined.


(* ===================================================================== *)
(** ** The CSV decoder on texts of plain cells *)
(* ===================================================================== *)

Lemma chars_app (a b : string) :
  PyStr.chars (a ++ b)%string = PyStr.chars a ++ PyStr.chars b.
Proof. induction a as [|c a IH]; simpl; [reflexivity|rewrite IH; reflexivity]. Qed.

Lemma append_empty_r (a : string) : (a ++ "")%string = a.
Proof. induction a as [|c a IH]; simpl; [reflexivity|rewrite IH; reflexivity]. Qed.

Lemma string_of_rev_app (l1 l2 : list ascii) (acc : string) :
  Csv.string_of_rev (l1 ++ l2) acc = Csv.string_of_rev l2 (Csv.string_of_rev l1 acc).
Proof. revert acc. induction l1 as [|c l1 IH]; intros acc; simpl; [reflexivity|apply IH]. Qed.

Lemma string_of_rev_chars (cell acc : string) :
  Csv.string_of_rev (rev (PyStr.chars cell)) acc = (cell ++ acc)%string.
Proof.
  revert acc. induction cell as [|c cell IH]; intros acc; simpl; [reflexivity|].
  rewrite string_of_rev_app, IH. reflexivity.
Qed.

Lemma feed_chars_app (l1 l2 : list ascii) (p : Csv.parser) :
  feed_chars (l1 ++ l2) p
  = match feed_chars l1 p with
    | Ok p' => feed_chars l2 p'
    | Raise e => Raise e
    end.
Proof.
  revert p. induction l1 as [|c l1 IH]; intros p; simpl; [reflexivity|].
  destruct (Csv.parse_process_char (Some c) p); [apply IH|reflexivity].
Qed.

Lemma feed_after_chars (l1 l2 : list ascii) (p : Csv.parser) :
  Csv.feed (l1 ++ l2) p
  = match feed_chars l1 p with
    | Ok p' => Csv.feed l2 p'
    | Raise e => Raise e
    end.
Proof.
  revert p. induction l1 as [|c l1 IH]; intros p; simpl; [destruct l2; reflexivity|].
  destruct (Csv.parse_process_char (Some c) p); [apply IH|reflexivity].
Qed.

Lemma plain_char_cases (c : ascii) :
  plain_char c = true ->
  Csv.is_newline c = false /\ Csv.is_quote c = false /\ Csv.is_delimiter c = false.
Proof.
  unfold plain_char. intros H. apply negb_true_iff in H.
  apply orb_false_iff in H. destruct H as [H Hd].
  apply orb_false_iff in H. destruct H as [Hn Hq]. repeat split; assumption.
Qed.

(** Plain characters inside a field. *)
Lemma feed_in_field (l : list ascii) :
  forall (field : list ascii) (done : list string),
    forallb plain_char l = true ->
    Z.of_nat (List.length field + List.length l) <= Csv.field_limit ->
    feed_chars l (Csv.mkParser Csv.IN_FIELD field done)
    = Ok (Csv.mkParser Csv.IN_FIELD (rev l ++ field) done).
Proof.
  induction l as [|c l IH]; intros field done Hplain Hlen; simpl; [reflexivity|].
  simpl in Hplain. apply andb_prop in Hplain. destruct Hplain as [Hc Hl].
  destruct (plain_char_cases c Hc) as [Hn [Hq Hd]].
  unfold Csv.parse_process_char. simpl Csv.pstate. cbv iota.
  rewrite Hn, Hd. unfold Csv.parse_add_char. simpl Csv.field.
  simpl List.length in Hlen.
  destruct (Z.leb_spec Csv.field_limit (Z.of_nat (List.length field))) as [Hover|_];
    [lia|].
  simpl. rewrite IH; [|exact Hl|simpl; lia].
  simpl rev. rewrite <- app_assoc. reflexivity.
Qed.

(** A plain cell from the start of a record or of a field. *)
Lemma feed_cell (st : Csv.parser_state) (l : list ascii) (done : list string) :
  st = Csv.START_RECORD \/ st = Csv.START_FIELD ->
  forallb plain_char l = true ->
  Z.of_nat (List.length l) <= Csv.field_limit ->
  feed_chars l (Csv.mkParser st [] done) = Ok (pending st l done).
Proof.
  intros Hst Hplain Hlen. destruct l as [|c l]; [reflexivity|].
  simpl in Hplain. apply andb_prop in Hplain. destruct Hplain as [Hc Hl].
  destruct (plain_char_cases c Hc) as [Hn [Hq Hd]].
  simpl List.length in Hlen.
  assert (Hfirst : Csv.parse_process_char (Some c) (Csv.mkParser st [] done)
                   = Ok (Csv.mkParser Csv.IN_FIELD [c] done)).
  { destruct Hst as [-> | ->]; unfold Csv.parse_process_char; simpl Csv.pstate; cbv iota;
      unfold Csv.start_field; rewrite ?Hn, Hq, Hd; reflexivity. }
  simpl feed_chars. rewrite Hfirst.
  rewrite feed_in_field; [|exact Hl|simpl; lia].
  reflexivity.
Qed.

(** The comma after a cell. *)
Lemma feed_comma (st : Csv.parser_state) (cell : string) (done : list string) :
  st = Csv.START_RECORD \/ st = Csv.START_FIELD ->
  Csv.parse_process_char (Some ","%char) (pending st (PyStr.chars cell) done)
  = Ok (Csv.mkParser Csv.START_FIELD [] (cell :: done)).
Proof.
  intros Hst. unfold pending.
  destruct (PyStr.chars cell) as [|c l] eqn:Hchars.
  - assert (cell = "") as -> by (destruct cell; [reflexivity|discriminate Hchars]).
    destruct Hst as [-> | ->]; reflexivity.
  - change (Csv.parse_process_char (Some ","%char)
              (Csv.mkParser Csv.IN_FIELD (rev (c :: l)) done))
      with (Ok (Csv.mkParser Csv.START_FIELD []
                  (Csv.string_of_rev (rev (c :: l)) EmptyString :: done))).
    rewrite <- Hchars, string_of_rev_chars, append_empty_r. reflexivity.
Qed.

Lemma plain_cell_cases (cell : string) :
  plain_cell cell = true ->
  forallb plain_char (PyStr.chars cell) = true
  /\ Z.of_nat (List.length (PyStr.chars cell)) <= Csv.field_limit.
Proof.
  unfold plain_cell. intros H. apply andb_prop in H. destruct H as [Hp Hl].
  split; [exact Hp|]. apply Z.leb_le. exact Hl.
Qed.

Lemma last_cons {A} (l : list A) :
  forall x d, last l x = last (x :: l) d.
Proof.
  induction l as [|y l IH]; intros x d; [reflexivity|].
  change (last (x :: y :: l) d) with (last (y :: l) d).
  rewrite <- (IH y d). rewrite <- (IH y x). reflexivity.
Qed.

Lemma rev_last_first {A} (l : list A) (d : A) :
  l <> [] -> last l d :: rev (removelast l) = rev l.
Proof.
  intros Hne. transitivity (rev (removelast l ++ [last l d])).
  - rewrite rev_app_distr. reflexivity.
  - rewrite <- (app_removelast_last d Hne). reflexivity.
Qed.

(** The cells of a row, up to the last one, which is under way. *)
Lemma feed_row (cells : list string) :
  forall (st : Csv.parser_state) (done : list string) (cell : string),
    st = Csv.START_RECORD \/ st = Csv.START_FIELD ->
    forallb plain_cell (cell :: cells) = true ->
    feed_chars (PyStr.chars (csv_line (cell :: cells))) (Csv.mkParser st [] done)
    = Ok (pending (match cells with [] => st | _ => Csv.START_FIELD end)
                  (PyStr.chars (last cells cell))
                  (rev (removelast (cell :: cells)) ++ done)).
Proof.
  induction cells as [|cell2 cells IH]; intros st done cell Hst Hplain.
  - simpl in Hplain. rewrite andb_true_r in Hplain.
    destruct (plain_cell_cases cell Hplain) as [Hp Hl].
    simpl. apply feed_cell; assumption.
  - change (forallb plain_cell (cell :: cell2 :: cells))
      with (plain_cell cell && forallb plain_cell (cell2 :: cells)) in Hplain.
    apply andb_prop in Hplain. destruct Hplain as [Hcell Hrest].
    destruct (plain_cell_cases cell Hcell) as [Hp Hl].
    change (csv_line (cell :: cell2 :: cells))
      with (cell ++ "," ++ csv_line (cell2 :: cells))%string.
    rewrite chars_app. change (PyStr.chars ("," ++ csv_line (cell2 :: cells))%string)
      with (","%char :: PyStr.chars (csv_line (cell2 :: cells))).
    rewrite feed_chars_app, (feed_cell st _ done Hst Hp Hl).
    change (feed_chars (","%char :: PyStr.chars (csv_line (cell2 :: cells)))
                       (pending st (PyStr.chars cell) done))
      with (match Csv.parse_process_char (Some ","%char)
                    (pending st (PyStr.chars cell) done) with
            | Ok p' => feed_chars (PyStr.chars (csv_line (cell2 :: cells))) p'
            | Raise e => Raise e
            end).
    rewrite (feed_comma st cell done Hst).
    rewrite (IH Csv.START_FIELD (cell :: done) cell2 (or_intror eq_refl) Hrest).
    assert (Hdone : rev (removelast (cell2 :: cells)) ++ cell :: done
                    = rev (removelast (cell :: cell2 :: cells)) ++ done).
    { change (removelast (cell :: cell2 :: cells))
        with (cell :: removelast (cell2 :: cells)).
      generalize (removelast (cell2 :: cells)) as init. intros init.
      simpl rev. rewrite <- app_assoc. reflexivity. }
    rewrite Hdone.
    rewrite (last_cons cells cell2 cell).
    destruct cells; reflexivity.
Qed.

(** The end of a line after the last cell, with or without a line feed. *)
Lemma feed_line_end (st : Csv.parser_state) (cell : string) (done : list string) :
  st = Csv.START_FIELD \/ cell <> "" ->
  Csv.feed ["010"%char] (pending st (PyStr.chars cell) done)
  = Ok (Csv.mkParser Csv.START_RECORD [] (cell :: done))
  /\ Csv.feed [] (pending st (PyStr.chars cell) done)
     = Ok (Csv.mkParser Csv.START_RECORD [] (cell :: done)).
Proof.
  intros Hst. unfold pending.
  destruct (PyStr.chars cell) as [|c l] eqn:Hchars.
  - assert (cell = "") as -> by (destruct cell; [reflexivity|discriminate Hchars]).
    destruct Hst as [-> | Hne]; [|contradiction Hne; reflexivity].
    split; reflexivity.
  - assert (Hsave : Csv.string_of_rev (rev (c :: l)) EmptyString = cell).
    { rewrite <- Hchars, string_of_rev_chars, append_empty_r. reflexivity. }
    split.
    + change (Csv.feed ["010"%char] (Csv.mkParser Csv.IN_FIELD (rev (c :: l)) done))
        with (Ok (Csv.mkParser Csv.START_RECORD []
                    (Csv.string_of_rev (rev (c :: l)) EmptyString :: done))).
      rewrite Hsave. reflexivity.
    + change (Csv.feed [] (Csv.mkParser Csv.IN_FIELD (rev (c :: l)) done))
        with (Ok (Csv.mkParser Csv.START_RECORD []
                    (Csv.string_of_rev (rev (c :: l)) EmptyString :: done))).
      rewrite Hsave. reflexivity.
Qed.

(** A line of a plain row gives the row. *)
Lemma feed_plain_line (row : list string) :
  plain_row row = true ->
  Csv.feed (PyStr.chars (csv_line row) ++ ["010"%char]) Csv.parse_reset
  = Ok (Csv.mkParser Csv.START_RECORD [] (rev row))
  /\ Csv.feed (PyStr.chars (csv_line row)) Csv.parse_reset
     = Ok (Csv.mkParser Csv.START_RECORD [] (rev row)).
Proof.
  unfold plain_row. intros H. apply andb_prop in H. destruct H as [Hcells Hshape].
  destruct row as [|cell cells]; [discriminate Hshape|].
  assert (Hend : match cells with [] => Csv.START_RECORD | _ => Csv.START_FIELD end
                 = Csv.START_FIELD \/ last cells cell <> "").
  { destruct cells as [|cell2 cells]; [|left; reflexivity].
    right. simpl. intros ->. discriminate Hshape. }
  assert (Hrev : last cells cell :: rev (removelast (cell :: cells)) ++ []
                 = rev (cell :: cells)).
  { rewrite app_nil_r, (last_cons cells cell cell).
    apply rev_last_first. discriminate. }
  pose proof (feed_row cells Csv.START_RECORD [] cell (or_introl eq_refl) Hcells) as Hrow.
  destruct (feed_line_end _ (last cells cell) (rev (removelast (cell :: cells)) ++ []) Hend)
    as [Hlf Hnone].
  unfold Csv.parse_reset. split.
  - rewrite feed_after_chars, Hrow, Hlf, Hrev. reflexivity.
  - rewrite <- (app_nil_r (PyStr.chars (csv_line (cell :: cells)))).
    rewrite feed_after_chars, Hrow, Hnone, Hrev. reflexivity.
Qed.

Lemma lines_from_line (l : list ascii) :
  forall (cur rest : list ascii),
    forallb (fun c => negb (Ascii.eqb c "010"%char)) l = true ->
    Csv.lines_from cur (l ++ "010"%char :: rest)
    = (rev cur ++ l ++ ["010"%char]) :: Csv.lines_from [] rest.
Proof.
  induction l as [|c l IH]; intros cur rest Hl; simpl.
  - reflexivity.
  - simpl in Hl. apply andb_prop in Hl. destruct Hl as [Hc Hl].
    apply negb_true_iff in Hc. rewrite Hc, (IH (c :: cur) rest Hl).
    simpl. rewrite <- app_assoc. reflexivity.
Qed.

Lemma lines_from_last (l : list ascii) :
  forall cur : list ascii,
    forallb (fun c => negb (Ascii.eqb c "010"%char)) l = true ->
    cur ++ l <> [] ->
    Csv.lines_from cur l = [rev cur ++ l].
Proof.
  induction l as [|c l IH]; intros cur Hl Hne; simpl.
  - rewrite app_nil_r in *. destruct cur; [contradiction Hne; reflexivity|reflexivity].
  - simpl in Hl. apply andb_prop in Hl. destruct Hl as [Hc Hl].
    apply negb_true_iff in Hc. rewrite Hc, (IH (c :: cur) Hl); [|discriminate].
    simpl. rewrite <- app_assoc. reflexivity.
Qed.

Lemma plain_char_no_lf (c : ascii) :
  plain_char c = true -> negb (Ascii.eqb c "010"%char) = true.
Proof.
  intros H. destruct (plain_char_cases c H) as [Hn _].
  unfold Csv.is_newline in Hn. apply orb_false_iff in Hn. destruct Hn as [Hn _].
  rewrite Hn. reflexivity.
Qed.

Lemma plain_line_no_lf (row : list string) :
  forallb plain_cell row = true ->
  forallb (fun c => negb (Ascii.eqb c "010"%char)) (PyStr.chars (csv_line row)) = true.
Proof.
  induction row as [|cell row IH]; intros H; [reflexivity|].
  simpl in H. apply andb_prop in H. destruct H as [Hcell Hrow].
  destruct (plain_cell_cases cell Hcell) as [Hp _].
  assert (Hc : forallb (fun c => negb (Ascii.eqb c "010"%char)) (PyStr.chars cell) = true).
  { apply forallb_forall. intros c Hin. apply plain_char_no_lf.
    rewrite forallb_forall in Hp. apply Hp. exact Hin. }
  destruct row as [|cell2 row]; [exact Hc|].
  change (csv_line (cell :: cell2 :: row))
    with (cell ++ "," ++ csv_line (cell2 :: row))%string.
  rewrite chars_app, forallb_app, Hc. simpl. apply IH. exact Hrow.
Qed.

Lemma plain_line_nonempty (row : list string) :
  plain_row row = true -> PyStr.chars (csv_line row) <> [].
Proof.
  unfold plain_row. intros H. apply andb_prop in H. destruct H as [_ Hshape].
  destruct row as [|cell [|cell2 row]]; [discriminate Hshape| |].
  - simpl. destruct cell; [discriminate Hshape|discriminate].
  - change (csv_line (cell :: cell2 :: row))
      with (cell ++ "," ++ csv_line (cell2 :: row))%string.
    rewrite chars_app. intros Habs. apply app_eq_nil in Habs.
    destruct Habs as [_ Habs]. discriminate Habs.
Qed.

(** The reader gives back the rows of a text of plain cells. *)
Lemma reader_plain_text (rows : list (list string)) :
  forall row,
    forallb plain_row (row :: rows) = true ->
    Csv.reader (csv_text (row :: rows)) = (row :: rows, None).
Proof.
  unfold Csv.reader, Csv.StringIO.
  induction rows as [|row2 rows IH]; intros row Hplain.
  - simpl in Hplain. rewrite andb_true_r in Hplain.
    assert (Hcells : forallb plain_cell row = true).
    { unfold plain_row in Hplain. apply andb_prop in Hplain. apply Hplain. }
    change (csv_text [row]) with (csv_line row).
    rewrite (lines_from_last _ [] (plain_line_no_lf row Hcells)
               (plain_line_nonempty row Hplain)).
    simpl rev. simpl app. simpl Csv.rows_from.
    rewrite (proj2 (feed_plain_line row Hplain)). simpl. rewrite rev_involutive.
    reflexivity.
  - change (forallb plain_row (row :: row2 :: rows))
      with (plain_row row && forallb plain_row (row2 :: rows)) in Hplain.
    apply andb_prop in Hplain. destruct Hplain as [Hrow Hrest].
    assert (Hcells : forallb plain_cell row = true).
    { unfold plain_row in Hrow. apply andb_prop in Hrow. apply Hrow. }
    change (csv_text (row :: row2 :: rows))
      with (csv_line row ++ LF ++ csv_text (row2 :: rows))%string.
    rewrite chars_app.
    change (PyStr.chars (LF ++ csv_text (row2 :: rows))%string)
      with ("010"%char :: PyStr.chars (csv_text (row2 :: rows))).
    rewrite (lines_from_line _ [] _ (plain_line_no_lf row Hcells)).
    simpl rev. simpl app.
    change (Csv.rows_from None
              ((PyStr.chars (csv_line row) ++ ["010"%char])
                 :: Csv.lines_from [] (PyStr.chars (csv_text (row2 :: rows)))))
      with (match Csv.feed (PyStr.chars (csv_line row) ++ ["010"%char]) Csv.parse_reset with
            | Raise e => ([], Some e)
            | Ok p' =>
                match Csv.pstate p' with
                | Csv.START_RECORD =>
                    let (rows0, err) :=
                      Csv.rows_from None
                        (Csv.lines_from [] (PyStr.chars (csv_text (row2 :: rows)))) in
                    (rev (Csv.fields p') :: rows0, err)
                | _ => Csv.rows_from (Some p')
                         (Csv.lines_from [] (PyStr.chars (csv_text (row2 :: rows))))
                end
            end).
    rewrite (proj1 (feed_plain_line row Hrow)). simpl Csv.pstate. cbv iota.
    rewrite (IH row2 Hrest). simpl. rewrite rev_involutive. reflexivity.
Qed.

(** X26. On a text whose lines are plain cells joined by commas (no quote,
    comma or line break inside a cell, no empty line), the first line being
    the header, [_parse_csv_response] returns one dict for each data line
    with as many cells as the header, built from the lowercased header
    names and the cells of the line, in order, and prints one warning for
    each other line; it does not raise. *)
Theorem parse_csv_response_plain_text (first : list string) (rest : list (list string))
        (s : state) :
  forallb plain_row (first :: rest) = true ->
  let headers := map PyStr.lower first in
  let fits := fun row : list string => (List.length row =? List.length headers)%nat in
  _parse_csv_response (csv_text (first :: rest)) s
  = (Ok (map (fun row => Py.dict_of (combine headers row)) (filter fits rest)),
     warned (List.length (filter (fun row => negb (fits row)) rest)) s).
Proof.
  intros Hplain headers fits.
  unfold _parse_csv_response. rewrite (reader_plain_text rest first Hplain).
  erewrite bind_ok; [|apply parse_rows_spec]. reflexivity.
Qed.

Lemma parse_csv_response_plain_text_witness :
  _parse_csv_response
    (csv_text [["Cust_ID"; "Name"; "Club"]; ["7"; "Ada"; ""]; ["8"]; ["9"; "Bo"; "Benelux"]])
    fresh_client
  = (Ok [[("cust_id", "7"); ("name", "Ada"); ("club", "")];
         [("cust_id", "9"); ("name", "Bo"); ("club", "Benelux")]],
     record (EvPrint row_warning) fresh_client).
Proof.
  apply (parse_csv_response_plain_text ["Cust_ID"; "Name"; "Club"]
           [["7"; "Ada"; ""]; ["8"]; ["9"; "Bo"; "Benelux"]] fresh_client).
  vm_compute. reflexivity.
Defined.
